(** * Bundle lifecycle engine of cortes-admin

    A shallow embedding of [src/lib/services/cut-orders.ts] and
    [src/constants/locations.ts]: the bundle-number codec, the projection of
    stored rows ([mapBundle], [applyBundleDisplayNames]), and the two
    services that write to the store ([splitBundle], [applyBundleAction],
    with [checkAndUpdateOrderStatus]).

    Conventions of the embedding.
    - A JavaScript [number] that holds a count or a bundle number is a [Z];
      [number | null] is [option Z] ([None] also stands for [NaN]).
    - Strings are sequences of ASCII characters; [trim] and [toUpperCase]
      act on them as the JavaScript methods act on ASCII text.
    - A timestamp is the number of milliseconds that [new Date(s).getTime()]
      gives for it; an absent or empty timestamp is [None].
    - The store is a record of tables, each a list of rows in insertion
      order.  Every request to the store may fail: the list [faults] of a
      [World] gives the outcome of the successive requests ([true] for a
      request that is served, an exhausted list serves every request).  A
      request that fails leaves the tables as they are. *)

From Stdlib Require Import ZArith List String Ascii Bool Arith Lia.
From Stdlib Require Import Permutation Sorted DecimalString DecimalZ DecimalPos FinFun.
Import ListNotations.

Open Scope Z_scope.

(** ** Strings *)

Definition is_space (c : ascii) : bool :=
  let n := nat_of_ascii c in
  (Nat.eqb n 9 || Nat.eqb n 10 || Nat.eqb n 11 || Nat.eqb n 12
   || Nat.eqb n 13 || Nat.eqb n 32)%bool.

Definition isEmpty (s : string) : bool :=
  match s with EmptyString => true | String _ _ => false end.

Fixpoint trimStart (s : string) : string :=
  match s with
  | EmptyString => EmptyString
  | String c s' => if is_space c then trimStart s' else s
  end.

Fixpoint trimEnd (s : string) : string :=
  match s with
  | EmptyString => EmptyString
  | String c s' =>
      let t := trimEnd s' in
      if (is_space c && isEmpty t)%bool then EmptyString else String c t
  end.

(** [String.prototype.trim] *)
Definition trim (s : string) : string := trimEnd (trimStart s).

Definition upper_char (c : ascii) : ascii :=
  let n := nat_of_ascii c in
  if (Nat.leb 97 n && Nat.leb n 122)%bool then ascii_of_nat (n - 32) else c.

(** [String.prototype.toUpperCase] *)
Fixpoint toUpperCase (s : string) : string :=
  match s with
  | EmptyString => EmptyString
  | String c s' => String (upper_char c) (toUpperCase s')
  end.

(** [String(n)] and the interpolation of an integer in a template. *)
Definition numberToString (n : Z) : string :=
  NilZero.string_of_int (Z.to_int n).

(** [a ?? d] *)
Definition orElse {A : Type} (a : option A) (d : A) : A :=
  match a with Some x => x | None => d end.

(** ** Enumerations (lines 21-40) *)

Inductive BundleActionEnum : Type := mover | asignar | utilizar | dividir.
Inductive BundleStatusEnum : Type := disponible | asignado | usado.

Definition action_eqb (a b : BundleActionEnum) : bool :=
  match a, b with
  | mover, mover | asignar, asignar | utilizar, utilizar | dividir, dividir => true
  | _, _ => false
  end.

Definition status_eqb (a b : BundleStatusEnum) : bool :=
  match a, b with
  | disponible, disponible | asignado, asignado | usado, usado => true
  | _, _ => false
  end.

(** [estado === s] for a nullable column. *)
Definition estado_is (e : option BundleStatusEnum) (s : BundleStatusEnum) : bool :=
  match e with Some x => status_eqb x s | None => false end.

Definition bundleActionLabels (a : BundleActionEnum) : string :=
  match a with
  | mover => "Mover" | asignar => "Asignar"
  | utilizar => "Utilizar" | dividir => "Dividir"
  end.

(** [bundleStatusLabels]: the pair (badge, availability). *)
Definition bundleStatusLabels (s : BundleStatusEnum) : string * string :=
  match s with
  | disponible => ("Disponible", "Disponible")
  | asignado => ("Asignado", "Asignado")
  | usado => ("Utilizado", "Utilizado")
  end%string.

Definition bundleStatusByAction (a : BundleActionEnum) : option BundleStatusEnum :=
  match a with
  | asignar => Some asignado
  | utilizar => Some usado
  | mover | dividir => None
  end.

(** ** Bundle number codec (lines 72-95) *)

Definition BUNDLE_SPLIT_NUMBER_FACTOR : Z := 1000.

Record BundleNumberInfo : Type :=
  { base : option Z; variant : option Z }.

Definition decodeBundleNumber (value : option Z) : BundleNumberInfo :=
  match value with
  | None => {| base := None; variant := None |}
  | Some v =>
      if BUNDLE_SPLIT_NUMBER_FACTOR <=? v then
        let b := v / BUNDLE_SPLIT_NUMBER_FACTOR in
        let r := v mod BUNDLE_SPLIT_NUMBER_FACTOR in
        {| base := Some b; variant := Some (if r =? 0 then 1 else r) |}
      else {| base := Some v; variant := Some 1 |}
  end.

Definition encodeBundleNumber (base variant : Z) : Z :=
  base * BUNDLE_SPLIT_NUMBER_FACTOR + variant.

(** ** Location codes (src/constants/locations.ts, lines 282-290) *)

Definition LOCATION_CODES : list string :=
  ["C1"; "C2"; "C3"; "C4"; "C5"; "C6"; "C7"; "C8"; "C9"; "C10"]%string.

Definition isValidLocationCode (value : string) : bool :=
  existsb (String.eqb value) LOCATION_CODES.

Definition normalizeLocationCode (value : option string) : option string :=
  match value with
  | None => None
  | Some v =>
      if isEmpty v then None
      else
        let normalized := toUpperCase (trim v) in
        if isEmpty normalized then None
        else if isValidLocationCode normalized then Some normalized
        else None
  end.

(** ** Stable sort

    [Array.prototype.sort] with the comparator [key a - key b]: ascending in
    the key, elements with equal keys kept in their order. *)

Section StableSort.
Context {A : Type} (key : A -> Z).

Fixpoint insertBy (x : A) (l : list A) : list A :=
  match l with
  | [] => [x]
  | y :: t => if key x <=? key y then x :: y :: t else y :: insertBy x t
  end.

Fixpoint sortBy (l : list A) : list A :=
  match l with
  | [] => []
  | x :: t => insertBy x (sortBy t)
  end.
End StableSort.

(** ** Projection of stored rows (lines 42-70, 111-216) *)

Module Projection.

Record SupabaseLocation : Type :=
{ loc_id : string; codigo : option string }.

Record SupabaseBundleHistory : Type :=
{ hist_id : string;
  accion : option BundleActionEnum;
  numero_trabajo : option string;
  fecha_hora : option Z;
  ubicacion_destino : option SupabaseLocation }.

Record SupabaseBundle : Type :=
{ bulto_id : string;
  numero_bulto : option Z;
  cantidad_laminas : option Z;
  estado : option BundleStatusEnum;
  ubicacion : option SupabaseLocation;
  historial : option (list SupabaseBundleHistory);
  creado_en : option Z;
  SSCC : option string;
  LUID : option string;
  num_bobina_col : option string }.

Record SupabaseCutOrder : Type :=
{ orden_id : string;
  numero_orden : string;
  fecha : option string;
  cantidad_bultos : option Z;
  activo : option bool;
  bultos : option (list SupabaseBundle) }.

(** src/types/cut-order.ts *)
Record BundleHistoryEntry : Type :=
{ action : string; location : string; date : string }.

Record Bundle : Type :=
{ id : string;
  name : string;
  baseName : string;
  rawNumber : option Z;
  createdAt : option Z;
  currentLocation : string;
  sheets : Z;
  workOrder : string;
  availability : string;
  status : string;
  sscc : string;
  luid : string;
  num_bobina : string;
  history : list BundleHistoryEntry }.

Record CutOrder : Type :=
{ order_id : string;
  code : string;
  label : string;
  order_date : string;
  order_status : string;
  workflowStatus : string;
  locationFilter : string;
  completedBundles : Z;
  pendingBundles : Z;
  bundles : list Bundle }.

(** [bundle.name = newName] *)
Definition withName (b : Bundle) (newName : string) : Bundle :=
{| id := id b; name := newName; baseName := baseName b;
   rawNumber := rawNumber b; createdAt := createdAt b;
   currentLocation := currentLocation b; sheets := sheets b;
   workOrder := workOrder b; availability := availability b;
   status := status b; sscc := sscc b; luid := luid b;
   num_bobina := num_bobina b; history := history b |}.

Section Formatters.
(** The two [Intl.DateTimeFormat] instances, applied to a date that parses. *)
Variable DATE_FORMATTER : string -> string.
Variable DATETIME_FORMATTER : Z -> string.

Definition formatDate (value : option string) : string :=
  match value with
  | None => "Sin fecha"%string
  | Some s => if isEmpty s then "Sin fecha"%string else DATE_FORMATTER s
  end.

Definition formatDateTime (value : option Z) : string :=
  match value with
  | None => EmptyString
  | Some t => DATETIME_FORMATTER t
  end.

(** [a.fecha_hora ? new Date(a.fecha_hora).getTime() : 0] *)
Definition historyTime (e : SupabaseBundleHistory) : Z := orElse (fecha_hora e) 0.

Definition historyEntry (entry : SupabaseBundleHistory) : BundleHistoryEntry :=
  let actionLabel :=
    match accion entry with
    | Some a => bundleActionLabels a
    | None => "Actualización"%string
    end in
  let displayLocation :=
    match accion entry with
    | Some asignar => orElse (numero_trabajo entry) "-"%string
    | _ =>
        match ubicacion_destino entry with
        | Some l => orElse (codigo l) "-"%string
        | None => "-"%string
        end
    end in
  {| action := actionLabel; location := displayLocation;
     date := formatDateTime (fecha_hora entry) |}.

(** [normalizeHistory] sorts the array it is given in place; the first
    component is that array after the call, the second is the result. *)
Definition normalizeHistory (history : option (list SupabaseBundleHistory))
  : list SupabaseBundleHistory * list BundleHistoryEntry :=
  match history with
  | None => ([], [])
  | Some h =>
      let sorted := sortBy historyTime h in
      (sorted, map historyEntry sorted)
  end.

(** [entry.numero_trabajo && entry.numero_trabajo.trim().length > 0] *)
Definition hasWorkOrder (entry : SupabaseBundleHistory) : bool :=
  match numero_trabajo entry with
  | None => false
  | Some s => (negb (isEmpty s) && negb (isEmpty (trim s)))%bool
  end.

Definition mapBundle (bundle : SupabaseBundle) : Bundle :=
  let numberInfo := decodeBundleNumber (numero_bulto bundle) in
  let baseNumber := base numberInfo in
  let rawHistory := orElse (historial bundle) [] in
  let '(rawHistory, history) := normalizeHistory (Some rawHistory) in
  let lastWorkOrderEntry := find hasWorkOrder (rev rawHistory) in
  let latestWorkOrder :=
    if estado_is (estado bundle) disponible then "Sin orden"%string
    else
      match lastWorkOrderEntry with
      | Some e => orElse (numero_trabajo e) "Sin orden"%string
      | None => "Sin orden"%string
      end in
  let statusInfo := option_map bundleStatusLabels (estado bundle) in
  let baseName :=
    match baseNumber with
    | Some n =>
        if n =? 0 then "Bulto sin número"%string
        else ("Bulto #" ++ numberToString n)%string
    | None => "Bulto sin número"%string
    end in
  {| id := bulto_id bundle;
     name := baseName;
     baseName := baseName;
     rawNumber := baseNumber;
     createdAt := creado_en bundle;
     currentLocation :=
       match ubicacion bundle with
       | Some l => orElse (codigo l) "Sin ubicación"%string
       | None => "Sin ubicación"%string
       end;
     sheets := orElse (cantidad_laminas bundle) 0;
     workOrder := latestWorkOrder;
     availability := orElse (option_map snd statusInfo) "Sin estado"%string;
     status := orElse (option_map fst statusInfo) "Sin estado"%string;
     sscc := orElse (SSCC bundle) EmptyString;
     luid := orElse (LUID bundle) EmptyString;
     num_bobina := orElse (num_bobina_col bundle) EmptyString;
     history := history |}.
End Formatters.

(** *** Display names (lines 192-216)

  [applyBundleDisplayNames] mutates the bundle objects of the array it is
  given.  An object is referred to by its index in that array: a group of
  the [Map] is the list of the indices of its members, in the order they
  were pushed, and the result is the array after the call. *)

Definition groupKey (bundle : Bundle) : string :=
match rawNumber bundle with
| Some n => numberToString n
| None => id bundle
end.

(** [groups.get(key)] followed by [list.push] or [groups.set(key, [bundle])] *)
Fixpoint pushToGroup (key : string) (i : nat) (groups : list (string * list nat))
: list (string * list nat) :=
match groups with
| [] => [(key, [i])]
| (k, members) :: rest =>
    if String.eqb k key then (k, members ++ [i]) :: rest
    else (k, members) :: pushToGroup key i rest
end.

Fixpoint collectGroups (i : nat) (bundles : list Bundle)
(groups : list (string * list nat)) : list (string * list nat) :=
match bundles with
| [] => groups
| bundle :: rest => collectGroups (S i) rest (pushToGroup (groupKey bundle) i groups)
end.

Fixpoint updateAt (i : nat) (f : Bundle -> Bundle) (heap : list Bundle) : list Bundle :=
match heap, i with
| [], _ => []
| b :: t, O => f b :: t
| b :: t, S j => b :: updateAt j f t
end.

(** [a.createdAt ? new Date(a.createdAt).getTime() : 0] *)
Definition createdTime (heap : list Bundle) (i : nat) : Z :=
match nth_error heap i with
| Some b => orElse (createdAt b) 0
| None => 0
end.

(** [.forEach((bundle, index) => { bundle.name = ... })] from [index] on *)
Fixpoint renameFrom (index : nat) (members : list nat) (heap : list Bundle)
: list Bundle :=
match members with
| [] => heap
| i :: rest =>
    renameFrom (S index) rest
      (updateAt i
         (fun bundle =>
            withName bundle
              (baseName bundle ++ " - " ++ numberToString (Z.of_nat index + 1))%string)
         heap)
end.

Definition renameGroup (heap : list Bundle) (group : list nat) : list Bundle :=
if Nat.leb (List.length group) 1 then heap
else renameFrom 0 (sortBy (createdTime heap) group) heap.

Definition applyBundleDisplayNames (bundles : list Bundle) : list Bundle :=
let groups := collectGroups 0 bundles [] in
fold_left (fun heap group => renameGroup heap (snd group)) groups bundles.

Section MapCutOrder.
Variable DATE_FORMATTER : string -> string.
Variable DATETIME_FORMATTER : Z -> string.

Definition mapCutOrder (order : SupabaseCutOrder) : CutOrder :=
  let bundles :=
    applyBundleDisplayNames
      (map (mapBundle DATETIME_FORMATTER) (orElse (bultos order) [])) in
  let bundleCount := orElse (cantidad_bultos order) (Z.of_nat (List.length bundles)) in
  let completedBundles := Z.min bundleCount (Z.of_nat (List.length bundles)) in
  let usedBundles :=
    Z.of_nat (List.length
      (filter (fun bundle => String.eqb (status bundle) "Utilizado") bundles)) in
  let pendingBundles := Z.max 0 (bundleCount - usedBundles) in
  let defaultLocation :=
    match bundles with
    | b :: _ => currentLocation b
    | [] => "Sin ubicación"%string
    end in
  let isActive := match activo order with Some true => true | _ => false end in
  {| order_id := orden_id order;
     code := numero_orden order;
     label := ("Orden de corte #" ++ numero_orden order)%string;
     order_date := formatDate DATE_FORMATTER (fecha order);
     order_status := if isActive then "Activo"%string else "Inactivo"%string;
     workflowStatus := if isActive then "Operativa"%string else "Pausada"%string;
     locationFilter := defaultLocation;
     completedBundles := completedBundles;
     pendingBundles := pendingBundles;
     bundles := bundles |}.
End MapCutOrder.

End Projection.

(** ** The store and the services that write to it (lines 292-332, 438-750) *)

Module Service.

(** Keys are issued by the store; the services only compare them. *)
Definition Id : Type := nat.

Record BultoRow : Type :=
{ bulto_id : Id;
  orden_corte_id : Id;
  numero_bulto : option Z;
  cantidad_laminas : option Z;
  ubicacion_id : option Id;
  estado : option BundleStatusEnum;
  SSCC : option string;
  LUID : option string }.

Record HistorialRow : Type :=
{ hist_bulto_id : Id;
  accion : BundleActionEnum;
  ubicacion_destino_id : option Id;
  numero_trabajo : option string;
  fecha_hora : Z }.

Record OrdenRow : Type :=
{ orden_id : Id;
  numero_orden : string;
  activo : option bool }.

Record UbicacionRow : Type :=
{ ubicacion_row_id : Id;
  codigo : option string }.

Record Store : Type :=
{ bultos : list BultoRow;
  historial_bultos : list HistorialRow;
  ordenes_corte : list OrdenRow;
  ubicaciones : list UbicacionRow;
  next_id : Id }.

Record World : Type :=
{ store : Store;
  faults : list bool }.

(** One constructor for each [throw new Error(...)] of the two services. *)
Inductive Error : Type :=
| ErrCantidadNoPositiva      (* La cantidad debe ser mayor a cero. *)
| ErrFaltanIdentificadores   (* Debes ingresar el SSCC y LUID para ambos bultos. *)
| ErrLeerBulto               (* No se pudo leer el bulto seleccionado. *)
| ErrOrdenAjena              (* El bulto no pertenece a la orden actual. *)
| ErrCantidadExcede          (* La cantidad a dividir debe ser menor ... *)
| ErrSinNumero               (* El bulto no tiene un numero asignado ... *)
| ErrLeerBultosOrden         (* No se pudieron leer los bultos de la orden *)
| ErrActualizarOriginal      (* No se pudo actualizar el bulto original *)
| ErrAjustarNumero           (* No se pudo ajustar el numero del bulto original *)
| ErrCrearBulto              (* No se pudo crear el nuevo bulto *)
| ErrSinIdNuevo              (* La respuesta ... no incluyo el id del bulto dividido. *)
| ErrHistorialDivision       (* No se pudo registrar el historial de la division *)
| ErrSinBultos               (* Selecciona al menos un bulto. *)
| ErrValidarBultos           (* No se pudieron validar los bultos seleccionados *)
| ErrNoAsignados             (* Solo se pueden marcar como utilizados ... *)
| ErrDestinoInvalido         (* Selecciona una ubicacion de destino valida. *)
| ErrLeerUbicaciones         (* No se pudieron leer las ubicaciones *)
| ErrCrearUbicaciones        (* No se pudieron crear ubicaciones *)
| ErrResolverUbicacion       (* No se pudo resolver la ubicacion seleccionada. *)
| ErrOrdenTrabajo            (* Ingresa un numero de orden valido. *)
| ErrActualizarBultos        (* No se pudieron actualizar los bultos *)
| ErrHistorial.              (* No se pudo registrar el historial *)

Inductive Result (A : Type) : Type :=
| Ok (a : A)
| Throw (e : Error).
Arguments Ok {A} a.
Arguments Throw {A} e.

(** A service is a computation on the world that returns or throws; what it
  wrote before it threw stays written. *)
Definition M (A : Type) : Type := World -> Result A * World.

Definition ret {A : Type} (a : A) : M A := fun w => (Ok a, w).
Definition throw {A : Type} (e : Error) : M A := fun w => (Throw e, w).
Definition bind {A B : Type} (m : M A) (k : A -> M B) : M B :=
fun w =>
  match m w with
  | (Ok a, w') => k a w'
  | (Throw e, w') => (Throw e, w')
  end.

Notation "x <- m ;; k" := (bind m (fun x => k))
(at level 61, m at next level, right associativity).
Notation "m ;;; k" := (bind m (fun _ => k))
(at level 61, right associativity).

(** The outcome of the next request to the store. *)
Definition request : M bool :=
fun w =>
  match faults w with
  | [] => (Ok true, w)
  | served :: rest => (Ok served, {| store := store w; faults := rest |})
  end.

Definition getStore : M Store := fun w => (Ok (store w), w).
Definition putStore (s : Store) : M unit :=
fun w => (Ok tt, {| store := s; faults := faults w |}).

Definition mem (i : Id) (l : list Id) : bool := existsb (Nat.eqb i) l.

(** *** Requests.  Each answers [None] for [{ data: null, error }]. *)

(** [from("bultos").select(...).eq("id", id).single()] *)
Definition selectBultoSingle (id : Id) : M (option BultoRow) :=
served <- request ;;
s <- getStore ;;
if served then
  match filter (fun r => Nat.eqb (bulto_id r) id) (bultos s) with
  | [r] => ret (Some r)
  | _ => ret None
  end
else ret None.

(** [from("bultos").select(...).eq("orden_corte_id", orderId)] *)
Definition selectBultosByOrden (orderId : Id) : M (option (list BultoRow)) :=
served <- request ;;
s <- getStore ;;
if served then
  ret (Some (filter (fun r => Nat.eqb (orden_corte_id r) orderId) (bultos s)))
else ret None.

(** [from("bultos").select(...).in("id", ids)] *)
Definition selectBultosIn (ids : list Id) : M (option (list BultoRow)) :=
served <- request ;;
s <- getStore ;;
if served then ret (Some (filter (fun r => mem (bulto_id r) ids) (bultos s)))
else ret None.

(** [from("bultos").update(payload)] on the rows that [sel] selects;
  the answer is [true] when there is no error. *)
Definition updateBultos (sel : BultoRow -> bool) (payload : BultoRow -> BultoRow)
: M bool :=
served <- request ;;
s <- getStore ;;
if served then
  putStore {| bultos := map (fun r => if sel r then payload r else r) (bultos s);
              historial_bultos := historial_bultos s;
              ordenes_corte := ordenes_corte s;
              ubicaciones := ubicaciones s;
              next_id := next_id s |} ;;;
  ret true
else ret false.

(** [from("bultos").insert(row).select("id")]: the row gets a fresh key. *)
Definition insertBulto (row : Id -> BultoRow) : M (option (list Id)) :=
served <- request ;;
s <- getStore ;;
if served then
  putStore {| bultos := bultos s ++ [row (next_id s)];
              historial_bultos := historial_bultos s;
              ordenes_corte := ordenes_corte s;
              ubicaciones := ubicaciones s;
              next_id := S (next_id s) |} ;;;
  ret (Some [next_id s])
else ret None.

(** [from("historial_bultos").insert(rows)] *)
Definition insertHistorial (rows : list HistorialRow) : M bool :=
served <- request ;;
s <- getStore ;;
if served then
  putStore {| bultos := bultos s;
              historial_bultos := historial_bultos s ++ rows;
              ordenes_corte := ordenes_corte s;
              ubicaciones := ubicaciones s;
              next_id := next_id s |} ;;;
  ret true
else ret false.

(** [from("ordenes_corte").update({ activo: false }).eq("id", orderId)] *)
Definition updateOrdenInactiva (orderId : Id) : M bool :=
served <- request ;;
s <- getStore ;;
if served then
  putStore {| bultos := bultos s;
              historial_bultos := historial_bultos s;
              ordenes_corte :=
                map (fun o =>
                       if Nat.eqb (orden_id o) orderId
                       then {| orden_id := orden_id o;
                               numero_orden := numero_orden o;
                               activo := Some false |}
                       else o)
                    (ordenes_corte s);
              ubicaciones := ubicaciones s;
              next_id := next_id s |} ;;;
  ret true
else ret false.

(** *** splitBundle (lines 433-599) *)

Record BundleIdentifiersInput : Type :=
{ sscc : string; luid : string }.

(** The argument of [splitBundle] when the quantity [sheets] is an integer.
  [Numeric.splitBundle], after this module, is the function on the other
  numbers too, NaN among them, and is this one on the integers. *)
Record SplitInput : Type :=
{ bundleId : Id;
  orderId : Id;
  sheets : Z;
  originalIdentifiers : BundleIdentifiersInput;
  newBundleIdentifiers : BundleIdentifiersInput }.

(** [.filter((variant) => variant !== null)] *)
Fixpoint nonNull (l : list (option Z)) : list Z :=
match l with
| [] => []
| Some v :: t => v :: nonNull t
| None :: t => nonNull t
end.

(** [usedVariants.length ? Math.max(...usedVariants) : 1] *)
Definition highestOf (usedVariants : list Z) : Z :=
match usedVariants with
| [] => 1
| v :: vs => fold_left Z.max vs v
end.

Definition relatedTo (bundleBaseNumber : Z) (orderBundles : list BultoRow)
: list BultoRow :=
filter
  (fun item =>
     match base (decodeBundleNumber (numero_bulto item)) with
     | Some b => b =? bundleBaseNumber
     | None => false
     end)
  orderBundles.

Definition nextVariantOf (bundleBaseNumber : Z) (orderBundles : list BultoRow) : Z :=
let relatedBundles := relatedTo bundleBaseNumber orderBundles in
let usedVariants :=
  nonNull (map (fun item => variant (decodeBundleNumber (numero_bulto item)))
             relatedBundles) in
let highestVariant := highestOf usedVariants in
highestVariant + 1.

Definition shouldNormalizeNumber (bundle : BultoRow) : bool :=
match numero_bulto bundle with
| None => true
| Some n => n <? BUNDLE_SPLIT_NUMBER_FACTOR
end.

(** [{ cantidad_laminas, SSCC, LUID }] *)
Definition withSheetsAndIdentifiers (remaining : Z) (newSSCC newLUID : string)
(r : BultoRow) : BultoRow :=
{| bulto_id := bulto_id r; orden_corte_id := orden_corte_id r;
   numero_bulto := numero_bulto r; cantidad_laminas := Some remaining;
   ubicacion_id := ubicacion_id r; estado := estado r;
   SSCC := Some newSSCC; LUID := Some newLUID |}.

(** [{ numero_bulto }] *)
Definition withNumero (n : Z) (r : BultoRow) : BultoRow :=
{| bulto_id := bulto_id r; orden_corte_id := orden_corte_id r;
   numero_bulto := Some n; cantidad_laminas := cantidad_laminas r;
   ubicacion_id := ubicacion_id r; estado := estado r;
   SSCC := SSCC r; LUID := LUID r |}.

Definition hasId (id : Id) (r : BultoRow) : bool := Nat.eqb (bulto_id r) id.

Definition splitBundle (now : Z) (inp : SplitInput) : M unit :=
if sheets inp <=? 0 then throw ErrCantidadNoPositiva
else
  let normalizedOriginalSSCC := trim (sscc (originalIdentifiers inp)) in
  let normalizedOriginalLUID := trim (luid (originalIdentifiers inp)) in
  let normalizedSplitSSCC := trim (sscc (newBundleIdentifiers inp)) in
  let normalizedSplitLUID := trim (luid (newBundleIdentifiers inp)) in
  if (isEmpty normalizedOriginalSSCC || isEmpty normalizedOriginalLUID
      || isEmpty normalizedSplitSSCC || isEmpty normalizedSplitLUID)%bool
  then throw ErrFaltanIdentificadores
  else
    fetched <- selectBultoSingle (bundleId inp) ;;
    match fetched with
    | None => throw ErrLeerBulto
    | Some bundle =>
        if negb (Nat.eqb (orden_corte_id bundle) (orderId inp))
        then throw ErrOrdenAjena
        else
          let currentSheets := orElse (cantidad_laminas bundle) 0 in
          if currentSheets <=? sheets inp then throw ErrCantidadExcede
          else
            match base (decodeBundleNumber (numero_bulto bundle)) with
            | None => throw ErrSinNumero
            | Some bundleBaseNumber =>
                if bundleBaseNumber =? 0 then throw ErrSinNumero
                else
                  siblings <- selectBultosByOrden (orderId inp) ;;
                  match siblings with
                  | None => throw ErrLeerBultosOrden
                  | Some orderBundles =>
                      let nextVariant := nextVariantOf bundleBaseNumber orderBundles in
                      let remainingSheets := currentSheets - sheets inp in
                      updated <-
                        updateBultos (hasId (bundleId inp))
                          (withSheetsAndIdentifiers remainingSheets
                             normalizedOriginalSSCC normalizedOriginalLUID) ;;
                      if negb updated then throw ErrActualizarOriginal
                      else
                        (if shouldNormalizeNumber bundle then
                           let encodedParentNumber :=
                             encodeBundleNumber bundleBaseNumber 1 in
                           adjusted <-
                             updateBultos (hasId (bundleId inp))
                               (withNumero encodedParentNumber) ;;
                           if negb adjusted then throw ErrAjustarNumero else ret tt
                         else ret tt) ;;;
                        let encodedSplitNumber :=
                          encodeBundleNumber bundleBaseNumber nextVariant in
                        inserted <-
                          insertBulto
                            (fun newId =>
                               {| bulto_id := newId;
                                  orden_corte_id := orderId inp;
                                  numero_bulto := Some encodedSplitNumber;
                                  cantidad_laminas := Some (sheets inp);
                                  ubicacion_id := ubicacion_id bundle;
                                  estado := Some (orElse (estado bundle) disponible);
                                  SSCC := Some normalizedSplitSSCC;
                                  LUID := Some normalizedSplitLUID |}) ;;
                        match inserted with
                        | None => throw ErrCrearBulto
                        | Some [] => throw ErrSinIdNuevo
                        | Some (newBundleId :: _) =>
                            let historyPayload :=
                              [ {| hist_bulto_id := bulto_id bundle;
                                   accion := dividir;
                                   ubicacion_destino_id := ubicacion_id bundle;
                                   numero_trabajo := None;
                                   fecha_hora := now |};
                                {| hist_bulto_id := newBundleId;
                                   accion := dividir;
                                   ubicacion_destino_id := ubicacion_id bundle;
                                   numero_trabajo := None;
                                   fecha_hora := now |} ] in
                            logged <- insertHistorial historyPayload ;;
                            if negb logged then throw ErrHistorialDivision
                            else ret tt
                        end
                  end
            end
    end.

(** *** ensureLocationMap (lines 292-332) *)

Definition LocationMap : Type := list (string * Id).

(** [map.set(key, value)] *)
Fixpoint mapSet (key : string) (value : Id) (m : LocationMap) : LocationMap :=
match m with
| [] => [(key, value)]
| (k, v) :: rest =>
    if String.eqb k key then (k, value) :: rest
    else (k, v) :: mapSet key value rest
end.

Definition mapGet (key : string) (m : LocationMap) : option Id :=
option_map snd (find (fun kv => String.eqb (fst kv) key) m).

Definition mapHas (key : string) (m : LocationMap) : bool :=
match mapGet key m with Some _ => true | None => false end.

(** [Array.from(new Set(codes))]: first occurrences, in order. *)
Fixpoint uniqueFrom {A : Type} (eqb : A -> A -> bool) (seen l : list A) : list A :=
match l with
| [] => []
| x :: t =>
    if existsb (eqb x) seen then uniqueFrom eqb seen t
    else x :: uniqueFrom eqb (x :: seen) t
end.

Definition unique {A : Type} (eqb : A -> A -> bool) (l : list A) : list A :=
uniqueFrom eqb [] l.

(** [if (location.codigo) map.set(location.codigo, location.id)] over the rows *)
Definition recordLocations (rows : list UbicacionRow) (m : LocationMap) : LocationMap :=
fold_left
  (fun acc location =>
     match codigo location with
     | Some c => if isEmpty c then acc else mapSet c (ubicacion_row_id location) acc
     | None => acc
     end)
  rows m.

(** [from("ubicaciones").select("id, codigo").in("codigo", codes)] *)
Definition selectUbicacionesIn (codes : list string) : M (option (list UbicacionRow)) :=
served <- request ;;
s <- getStore ;;
if served then
  ret (Some (filter
               (fun l =>
                  match codigo l with
                  | Some c => existsb (String.eqb c) codes
                  | None => false
                  end)
               (ubicaciones s)))
else ret None.

Fixpoint freshLocations (next : Id) (codes : list string) : list UbicacionRow :=
match codes with
| [] => []
| c :: t => {| ubicacion_row_id := next; codigo := Some c |} :: freshLocations (S next) t
end.

(** [from("ubicaciones").insert(rows).select("id, codigo")] *)
Definition insertUbicaciones (codes : list string) : M (option (list UbicacionRow)) :=
served <- request ;;
s <- getStore ;;
if served then
  let rows := freshLocations (next_id s) codes in
  putStore {| bultos := bultos s;
              historial_bultos := historial_bultos s;
              ordenes_corte := ordenes_corte s;
              ubicaciones := ubicaciones s ++ rows;
              next_id := (next_id s + List.length codes)%nat |} ;;;
  ret (Some rows)
else ret None.

Definition ensureLocationMap (codes : list string) : M LocationMap :=
match codes with
| [] => ret []
| _ :: _ =>
    let uniqueCodes := unique String.eqb codes in
    existing <- selectUbicacionesIn uniqueCodes ;;
    match existing with
    | None => throw ErrLeerUbicaciones
    | Some rows =>
        let map := recordLocations rows [] in
        let missing := filter (fun code => negb (mapHas code map)) uniqueCodes in
        match missing with
        | [] => ret map
        | _ :: _ =>
            inserted <- insertUbicaciones missing ;;
            match inserted with
            | None => throw ErrCrearUbicaciones
            | Some created => ret (recordLocations created map)
            end
        end
    end
end.

(** *** checkAndUpdateOrderStatus (lines 610-661) *)

Definition allUsed (orderBundles : list BultoRow) : bool :=
forallb (fun bundle => estado_is (estado bundle) usado) orderBundles.

Definition hasAvailableOrAssigned (orderBundles : list BultoRow) : bool :=
existsb
  (fun bundle =>
     (estado_is (estado bundle) disponible || estado_is (estado bundle) asignado)%bool)
  orderBundles.

(** The body of [for (const orderId of uniqueOrderIds)]; failures are logged,
  not thrown. *)
Definition checkOrder (orderId : Id) : M unit :=
fetched <- selectBultosByOrden orderId ;;
match fetched with
| None => ret tt
| Some [] => ret tt
| Some orderBundles =>
    if (allUsed orderBundles && negb (hasAvailableOrAssigned orderBundles))%bool
    then updateOrdenInactiva orderId ;;; ret tt
    else ret tt
end.

Fixpoint forEach {A : Type} (body : A -> M unit) (l : list A) : M unit :=
match l with
| [] => ret tt
| x :: t => body x ;;; forEach body t
end.

Definition checkAndUpdateOrderStatus (bundleIds : list Id) : M unit :=
fetched <- selectBultosIn bundleIds ;;
match fetched with
| None => ret tt
| Some bundlesWithOrder =>
    let uniqueOrderIds := unique Nat.eqb (map orden_corte_id bundlesWithOrder) in
    forEach checkOrder uniqueOrderIds
end.

(** *** applyBundleAction (lines 603-608, 663-750) *)

Record ApplyBundleActionInput : Type :=
{ bundleIds : list Id;
  action : BundleActionEnum;
  destinationCode : option string;
  orderNumber : option string }.

(** [updatePayload]: [ubicacion_id] when a location was resolved, [estado]
  when the action has a next status. *)
Definition withPayload (locationId : option Id) (nextStatus : option BundleStatusEnum)
(r : BultoRow) : BultoRow :=
{| bulto_id := bulto_id r; orden_corte_id := orden_corte_id r;
   numero_bulto := numero_bulto r; cantidad_laminas := cantidad_laminas r;
   ubicacion_id :=
     match locationId with Some l => Some l | None => ubicacion_id r end;
   estado :=
     match nextStatus with Some st => Some st | None => estado r end;
   SSCC := SSCC r; LUID := LUID r |}.

Definition isSome {A : Type} (o : option A) : bool :=
match o with Some _ => true | None => false end.

Definition applyBundleAction (now : Z) (inp : ApplyBundleActionInput) : M unit :=
match bundleIds inp with
| [] => throw ErrSinBultos
| _ :: _ =>
    (if action_eqb (action inp) utilizar then
       fetched <- selectBultosIn (bundleIds inp) ;;
       match fetched with
       | None => throw ErrValidarBultos
       | Some bundlesInfo =>
           let invalid :=
             filter (fun bundle => negb (estado_is (estado bundle) asignado))
               bundlesInfo in
           match invalid with
           | [] => ret tt
           | _ :: _ => throw ErrNoAsignados
           end
       end
     else ret tt) ;;;
    locationId <-
      (if action_eqb (action inp) mover then
         match normalizeLocationCode (destinationCode inp) with
         | None => throw ErrDestinoInvalido
         | Some normalizedDestination =>
             locationMap <- ensureLocationMap [normalizedDestination] ;;
             match mapGet normalizedDestination locationMap with
             | None => throw ErrResolverUbicacion
             | Some l => ret (Some l)
             end
         end
       else ret None) ;;
    let normalizedOrder :=
      match orderNumber inp with Some s => trim s | None => EmptyString end in
    let historyWorkOrder :=
      if isEmpty normalizedOrder then None else Some normalizedOrder in
    if (action_eqb (action inp) asignar && negb (isSome historyWorkOrder))%bool
    then throw ErrOrdenTrabajo
    else
      let nextStatus := bundleStatusByAction (action inp) in
      (if (isSome locationId || isSome nextStatus)%bool then
         updated <-
           updateBultos (fun r => mem (bulto_id r) (bundleIds inp))
             (withPayload locationId nextStatus) ;;
         if negb updated then throw ErrActualizarBultos else ret tt
       else ret tt) ;;;
      let historyPayload :=
        map (fun bundleId =>
               {| hist_bulto_id := bundleId;
                  accion := action inp;
                  ubicacion_destino_id := locationId;
                  numero_trabajo :=
                    if action_eqb (action inp) asignar then historyWorkOrder
                    else None;
                  fecha_hora := now |})
          (bundleIds inp) in
      logged <- insertHistorial historyPayload ;;
      if negb logged then throw ErrHistorial
      else checkAndUpdateOrderStatus (bundleIds inp)
end.

(** *** Sequences of actions

  A call of one of the two services, with the time of the call and the
  outcomes of the requests it makes. *)

Inductive Call : Type :=
| CallApply (now : Z) (inp : ApplyBundleActionInput) (outcomes : list bool)
| CallSplit (now : Z) (inp : SplitInput) (outcomes : list bool).

Definition runCall (c : Call) (s : Store) : Result unit * Store :=
match c with
| CallApply now inp outcomes =>
    let '(r, w) := applyBundleAction now inp {| store := s; faults := outcomes |} in
    (r, store w)
| CallSplit now inp outcomes =>
    let '(r, w) := splitBundle now inp {| store := s; faults := outcomes |} in
    (r, store w)
end.

Fixpoint runCalls (calls : list Call) (s : Store) : Store :=
match calls with
| [] => s
| c :: rest => runCalls rest (snd (runCall c s))
end.

End Service.

(** ** Auxiliary definitions for the statements *)

Import Service.

(** The outcome of the next request, and the world once it is consumed. *)
Definition served (w : World) : bool :=
  match faults w with [] => true | b :: _ => b end.

Definition after (w : World) : World :=
  {| store := store w; faults := tl (faults w) |}.

Definition withStore (s : Store) (w : World) : World :=
  {| store := s; faults := faults w |}.

Definition setBultos (rows : list BultoRow) (s : Store) : Store :=
  {| bultos := rows;
     historial_bultos := historial_bultos s;
     ordenes_corte := ordenes_corte s;
     ubicaciones := ubicaciones s;
     next_id := next_id s |}.

Definition updateRows (sel : BultoRow -> bool) (payload : BultoRow -> BultoRow)
  (s : Store) : Store :=
  setBultos (map (fun r => if sel r then payload r else r) (bultos s)) s.

Definition appendBulto (row : Id -> BultoRow) (s : Store) : Store :=
  {| bultos := bultos s ++ [row (next_id s)];
     historial_bultos := historial_bultos s;
     ordenes_corte := ordenes_corte s;
     ubicaciones := ubicaciones s;
     next_id := S (next_id s) |}.

Definition appendHistorial (rows : list HistorialRow) (s : Store) : Store :=
  {| bultos := bultos s;
     historial_bultos := historial_bultos s ++ rows;
     ordenes_corte := ordenes_corte s;
     ubicaciones := ubicaciones s;
     next_id := next_id s |}.

(** The row that a split targets: the only one with that key. *)
Definition targetOf (id : Id) (s : Store) : option BultoRow :=
  match filter (hasId id) (bultos s) with
  | [r] => Some r
  | _ => None
  end.

(** The store after each write of a split of [bundle], whose base is [b]. *)
Definition originalReduced (inp : SplitInput) (bundle : BultoRow) (s : Store) : Store :=
  updateRows (hasId (bundleId inp))
    (withSheetsAndIdentifiers
       (orElse (cantidad_laminas bundle) 0 - sheets inp)
       (trim (sscc (originalIdentifiers inp)))
       (trim (luid (originalIdentifiers inp))))
    s.

Definition originalPromoted (inp : SplitInput) (bundle : BultoRow) (b : Z)
  (s : Store) : Store :=
  if shouldNormalizeNumber bundle
  then updateRows (hasId (bundleId inp)) (withNumero (encodeBundleNumber b 1))
         (originalReduced inp bundle s)
  else originalReduced inp bundle s.

Definition siblingRow (inp : SplitInput) (bundle : BultoRow) (number : Z)
  (newId : Id) : BultoRow :=
  {| bulto_id := newId;
     orden_corte_id := orderId inp;
     numero_bulto := Some number;
     cantidad_laminas := Some (sheets inp);
     ubicacion_id := ubicacion_id bundle;
     estado := Some (orElse (estado bundle) disponible);
     SSCC := Some (trim (sscc (newBundleIdentifiers inp)));
     LUID := Some (trim (luid (newBundleIdentifiers inp))) |}.

Definition siblingNumber (inp : SplitInput) (b : Z) (s : Store) : Z :=
  encodeBundleNumber b
    (nextVariantOf b
       (filter (fun r => Nat.eqb (orden_corte_id r) (orderId inp)) (bultos s))).

Definition siblingInserted (inp : SplitInput) (bundle : BultoRow) (b : Z)
  (s : Store) : Store :=
  appendBulto (siblingRow inp bundle (siblingNumber inp b s))
    (originalPromoted inp bundle b s).

Definition splitLogged (now : Z) (inp : SplitInput) (bundle : BultoRow) (b : Z)
  (s : Store) : Store :=
  let s3 := siblingInserted inp bundle b s in
  appendHistorial
    [ {| hist_bulto_id := bulto_id bundle; accion := dividir;
         ubicacion_destino_id := ubicacion_id bundle;
         numero_trabajo := None; fecha_hora := now |};
      {| hist_bulto_id := next_id s; accion := dividir;
         ubicacion_destino_id := ubicacion_id bundle;
         numero_trabajo := None; fecha_hora := now |} ]
    s3.

(** The guards of [splitBundle] that need no request after the first read. *)
Definition identifiersGiven (inp : SplitInput) : bool :=
  negb (isEmpty (trim (sscc (originalIdentifiers inp)))
        || isEmpty (trim (luid (originalIdentifiers inp)))
        || isEmpty (trim (sscc (newBundleIdentifiers inp)))
        || isEmpty (trim (luid (newBundleIdentifiers inp))))%bool.

(** The errors that [splitBundle] throws before its first write goes through. *)
Definition beforeFirstWrite (e : Error) : bool :=
  match e with
  | ErrCantidadNoPositiva | ErrFaltanIdentificadores | ErrLeerBulto
  | ErrOrdenAjena | ErrCantidadExcede | ErrSinNumero | ErrLeerBultosOrden
  | ErrActualizarOriginal => true
  | _ => false
  end.

(** What [splitBundle] checks of the targeted row before it writes. *)
Record SplitAccepted (inp : SplitInput) (s : Store) (bundle : BultoRow) (b : Z)
  : Prop :=
  { acc_identifiers : identifiersGiven inp = true;
    acc_target : targetOf (bundleId inp) s = Some bundle;
    acc_order : orden_corte_id bundle = orderId inp;
    acc_sheets : 0 < sheets inp < orElse (cantidad_laminas bundle) 0;
    acc_base : base (decodeBundleNumber (numero_bulto bundle)) = Some b;
    acc_base_nonzero : b <> 0 }.

(** The result of a call of [splitBundle] on the store [s], with the store
    it leaves: rejected with the store untouched, stopped after one of its
    writes, or completed. *)
Inductive SplitOutcome (now : Z) (inp : SplitInput) (s : Store)
  : Result unit -> Store -> Prop :=
  | split_rejected (e : Error) :
      beforeFirstWrite e = true ->
      SplitOutcome now inp s (Throw e) s
  | split_stopped_at_number (bundle : BultoRow) (b : Z) :
      SplitAccepted inp s bundle b ->
      shouldNormalizeNumber bundle = true ->
      SplitOutcome now inp s (Throw ErrAjustarNumero) (originalReduced inp bundle s)
  | split_stopped_at_insert (bundle : BultoRow) (b : Z) :
      SplitAccepted inp s bundle b ->
      SplitOutcome now inp s (Throw ErrCrearBulto) (originalPromoted inp bundle b s)
  | split_stopped_at_history (bundle : BultoRow) (b : Z) :
      SplitAccepted inp s bundle b ->
      SplitOutcome now inp s (Throw ErrHistorialDivision)
        (siblingInserted inp bundle b s)
  | split_done (bundle : BultoRow) (b : Z) :
      SplitAccepted inp s bundle b ->
      SplitOutcome now inp s (Ok tt) (splitLogged now inp bundle b s).


(** The decoded base of the row of key [id]. *)
Definition baseOf (id : Id) (s : Store) : option Z :=
  match find (hasId id) (bultos s) with
  | Some r => base (decodeBundleNumber (numero_bulto r))
  | None => None
  end.

(** The variants in use in the sibling group of base [b] of the order [o],
    in the order of the table. *)
Definition groupVariants (o : Id) (b : Z) (s : Store) : list Z :=
  nonNull
    (map (fun item => variant (decodeBundleNumber (numero_bulto item)))
       (relatedTo b (filter (fun r => Nat.eqb (orden_corte_id r) o) (bultos s)))).

(** *** The order of the end-to-end scenario: order 1001 with two bundles of
    100 and 50 sheets at C1. *)

Definition ubicacionC1 : UbicacionRow :=
  {| ubicacion_row_id := 5%nat; codigo := Some "C1"%string |}.

Definition bulto1 : BultoRow :=
  {| bulto_id := 1%nat; orden_corte_id := 10%nat; numero_bulto := Some 1;
     cantidad_laminas := Some 100; ubicacion_id := Some 5%nat;
     estado := Some disponible; SSCC := None; LUID := None |}.

Definition bulto2 : BultoRow :=
  {| bulto_id := 2%nat; orden_corte_id := 10%nat; numero_bulto := Some 2;
     cantidad_laminas := Some 50; ubicacion_id := Some 5%nat;
     estado := Some disponible; SSCC := None; LUID := None |}.

Definition store1001 : Store :=
  {| bultos := [bulto1; bulto2];
     historial_bultos :=
       [ {| hist_bulto_id := 1%nat; accion := mover;
            ubicacion_destino_id := Some 5%nat; numero_trabajo := None;
            fecha_hora := 1000 |};
         {| hist_bulto_id := 2%nat; accion := mover;
            ubicacion_destino_id := Some 5%nat; numero_trabajo := None;
            fecha_hora := 1000 |} ];
     ordenes_corte :=
       [ {| orden_id := 10%nat; numero_orden := "1001"; activo := Some true |} ];
     ubicaciones := [ubicacionC1];
     next_id := 20%nat |}.

Definition split40 : SplitInput :=
  {| bundleId := 1%nat; orderId := 10%nat; sheets := 40;
     originalIdentifiers := {| sscc := "S-1"; luid := "L-1" |};
     newBundleIdentifiers := {| sscc := "S-2"; luid := "L-2" |} |}.

(** *** A bundle whose stored number is 0, in the same order. *)

Definition bultoCero : BultoRow :=
  {| bulto_id := 3%nat; orden_corte_id := 10%nat; numero_bulto := Some 0;
     cantidad_laminas := Some 30; ubicacion_id := Some 5%nat;
     estado := Some disponible; SSCC := None; LUID := None |}.

Definition storeCero : Store :=
  setBultos [bulto1; bulto2; bultoCero] store1001.

Definition splitCero : SplitInput :=
  {| bundleId := 3%nat; orderId := 10%nat; sheets := 10;
     originalIdentifiers := {| sscc := "S-3"; luid := "L-3" |};
     newBundleIdentifiers := {| sscc := "S-4"; luid := "L-4" |} |}.

(** A run of calls of [splitBundle], each one successful and each one on a
    bundle of the sibling group of base [b] of the order [o]; a call comes
    with its time and the outcomes of its requests. *)
Definition onGroup (o : Id) (b : Z) (inp : SplitInput) (s : Store) : bool :=
  (Nat.eqb (orderId inp) o
   && match baseOf (bundleId inp) s with
      | Some x => x =? b
      | None => false
      end)%bool.

Fixpoint splitsOfGroup (o : Id) (b : Z)
  (calls : list (Z * SplitInput * list bool)) (s : Store) : option Store :=
  match calls with
  | [] => Some s
  | (now, inp, outcomes) :: rest =>
      if onGroup o b inp s then
        match splitBundle now inp {| store := s; faults := outcomes |} with
        | (Ok _, w') => splitsOfGroup o b rest (store w')
        | (Throw _, _) => None
        end
      else None
  end.

(** *** The same order with 2000 sheets in the first bundle, split one sheet
    at a time. *)

Definition storeBig : Store :=
  setBultos
    [ {| bulto_id := 1%nat; orden_corte_id := 10%nat; numero_bulto := Some 1;
         cantidad_laminas := Some 2000; ubicacion_id := Some 5%nat;
         estado := Some disponible; SSCC := None; LUID := None |};
      bulto2 ]
    store1001.

Definition splitOne : SplitInput :=
  {| bundleId := 1%nat; orderId := 10%nat; sheets := 1;
     originalIdentifiers := {| sscc := "S"; luid := "L" |};
     newBundleIdentifiers := {| sscc := "T"; luid := "M" |} |}.

Definition split10OfNew : SplitInput :=
  {| bundleId := 20%nat; orderId := 10%nat; sheets := 10;
     originalIdentifiers := {| sscc := "S-2"; luid := "L-2" |};
     newBundleIdentifiers := {| sscc := "S-3"; luid := "L-3" |} |}.

(** *** The aggregator, for the statements *)

(** The rows of the order [o]. *)
Definition bundlesOf (o : Id) (s : Store) : list BultoRow :=
  filter (fun r => Nat.eqb (orden_corte_id r) o) (bultos s).

(** The test of [checkOrder] on the rows it reads: there is a row, every row
    is used, none is available or assigned. *)
Definition settled (o : Id) (s : Store) : bool :=
  (negb (Nat.eqb (List.length (bundlesOf o s)) 0)
   && allUsed (bundlesOf o s)
   && negb (hasAvailableOrAssigned (bundlesOf o s)))%bool.

(** The order [o] owns one of the bundles [ids]. *)
Definition touched (ids : list Id) (o : Id) (s : Store) : bool :=
  existsb (fun r => (mem (bulto_id r) ids && Nat.eqb (orden_corte_id r) o)%bool)
    (bultos s).

Definition inactive (o : OrdenRow) : OrdenRow :=
  {| orden_id := orden_id o; numero_orden := numero_orden o; activo := Some false |}.

Definition deactivate (o : Id) (s : Store) : Store :=
  {| bultos := bultos s;
     historial_bultos := historial_bultos s;
     ordenes_corte :=
       map (fun row => if Nat.eqb (orden_id row) o then inactive row else row)
         (ordenes_corte s);
     ubicaciones := ubicaciones s;
     next_id := next_id s |}.

(** The world after the body of the loop of the aggregator for the order [o]. *)
Definition checkOrderWorld (o : Id) (w : World) : World :=
  if (served w && settled o (store w))%bool then
    if served (after w) then withStore (deactivate o (store w)) (after (after w))
    else after (after w)
  else after w.

(** An order row keeps its key and its number, and its flag is kept, or set
    to false, which happens only for an order that satisfies [P]. *)
Definition clearedOnlyIf (P : Id -> bool) (o o' : OrdenRow) : Prop :=
  orden_id o' = orden_id o
  /\ numero_orden o' = numero_orden o
  /\ (activo o' = activo o \/ (activo o' = Some false /\ P (orden_id o) = true)).

Definition ordersClearedOnlyIf (P : Id -> bool) (s s' : Store) : Prop :=
  Forall2 (clearedOnlyIf P) (ordenes_corte s) (ordenes_corte s').


(** One step of the aggregator when every request is served. *)
Definition settle (s : Store) (o : Id) : Store :=
  if settled o s then deactivate o s else s.

(** The orders that the aggregator examines. *)
Definition examined (ids : list Id) (s : Store) : list Id :=
  unique Nat.eqb
    (map orden_corte_id (filter (fun r => mem (bulto_id r) ids) (bultos s))).


(** A computation whose every run relates the store it starts from to the
    store it leaves, whether it returns or throws. *)
Definition respects (R : Store -> Store -> Prop) {A : Type} (m : M A) : Prop :=
  forall w r w', m w = (r, w') -> R (store w) (store w').

(** The test that clears the flag of the order [o] after an action on the
    bundles [ids]: the order owns one of them, every bundle of the order is
    used, and none is available or assigned. *)
Definition allBundlesUsed (ids : list Id) (o : Id) (s : Store) : bool :=
  (touched ids o s
   && allUsed (bundlesOf o s)
   && negb (hasAvailableOrAssigned (bundlesOf o s)))%bool.

(** *** An order with bundles used, used and assigned *)

Definition storeUsedUsedAssigned : Store :=
  setBultos
    [ {| bulto_id := 1%nat; orden_corte_id := 10%nat; numero_bulto := Some 1;
         cantidad_laminas := Some 100; ubicacion_id := Some 5%nat;
         estado := Some usado; SSCC := None; LUID := None |};
      {| bulto_id := 2%nat; orden_corte_id := 10%nat; numero_bulto := Some 2;
         cantidad_laminas := Some 50; ubicacion_id := Some 5%nat;
         estado := Some usado; SSCC := None; LUID := None |};
      {| bulto_id := 3%nat; orden_corte_id := 10%nat; numero_bulto := Some 3;
         cantidad_laminas := Some 25; ubicacion_id := Some 5%nat;
         estado := Some asignado; SSCC := None; LUID := None |} ]
    store1001.

Definition useThird : ApplyBundleActionInput :=
  {| bundleIds := [3%nat]; action := utilizar;
     destinationCode := None; orderNumber := None |}.



(** *** The 'use' action, for the statements *)

(** The rows of the store that a batch targets. *)
Definition targeted (ids : list Id) (s : Store) : list BultoRow :=
  filter (fun r => mem (bulto_id r) ids) (bultos s).

(** Every targeted bundle has status assigned. *)
Definition allAssigned (ids : list Id) (s : Store) : bool :=
  forallb (fun r => estado_is (estado r) asignado) (targeted ids s).

Definition useOf (ids : list Id) (dest wo : option string) : ApplyBundleActionInput :=
  {| bundleIds := ids; action := utilizar;
     destinationCode := dest; orderNumber := wo |}.

Definition moveOf (ids : list Id) (dest wo : option string) : ApplyBundleActionInput :=
  {| bundleIds := ids; action := mover;
     destinationCode := dest; orderNumber := wo |}.

(** The store once the targeted bundles are marked used. *)
Definition markedUsed (ids : list Id) (s : Store) : Store :=
  updateRows (fun r => mem (bulto_id r) ids) (withPayload None (Some usado)) s.

Definition usePayload (now : Z) (ids : list Id) : list HistorialRow :=
  map (fun bundleId =>
         {| hist_bulto_id := bundleId; accion := utilizar;
            ubicacion_destino_id := None; numero_trabajo := None;
            fecha_hora := now |})
    ids.

(** The status column of the table. *)
Definition statuses (s : Store) : list (option BundleStatusEnum) :=
  map estado (bultos s).

(** *** An order with one assigned bundle *)

Definition storeAssigned : Store :=
  setBultos
    [ {| bulto_id := 1%nat; orden_corte_id := 10%nat; numero_bulto := Some 1;
         cantidad_laminas := Some 100; ubicacion_id := Some 5%nat;
         estado := Some asignado; SSCC := None; LUID := None |};
      bulto2 ]
    store1001.

(** *** History entries and bundles of the projection examples *)

(** Formatters for the examples: a date as it is written, a time as its
    number of milliseconds. *)
Definition plainDate (s : string) : string := s.
Definition plainDateTime (t : Z) : string := numberToString t.

Definition locationX : Projection.SupabaseLocation :=
  {| Projection.loc_id := "loc-x"; Projection.codigo := Some "X"%string |}.

Definition assignEntry (wo : string) (t : Z) : Projection.SupabaseBundleHistory :=
  {| Projection.hist_id := "h-assign";
     Projection.accion := Some asignar;
     Projection.numero_trabajo := Some wo;
     Projection.fecha_hora := Some t;
     Projection.ubicacion_destino := None |}.


Definition bundleWith (st : option BundleStatusEnum)
  (h : list Projection.SupabaseBundleHistory) : Projection.SupabaseBundle :=
  {| Projection.bulto_id := "b-1";
     Projection.numero_bulto := Some 7;
     Projection.cantidad_laminas := Some 100;
     Projection.estado := st;
     Projection.ubicacion := Some locationX;
     Projection.historial := Some h;
     Projection.creado_en := Some 0;
     Projection.SSCC := None;
     Projection.LUID := None;
     Projection.num_bobina_col := None |}.



(** *** Display names, for the statements *)

(** The indices, from [i] on, of the bundles whose grouping key is [k]. *)
Fixpoint membersFrom (i : nat) (k : string) (bundles : list Projection.Bundle)
  : list nat :=
  match bundles with
  | [] => []
  | b :: rest =>
      if String.eqb (Projection.groupKey b) k then i :: membersFrom (S i) k rest
      else membersFrom (S i) k rest
  end.

(** The indices, from [i] on, of the bundles whose base number is [n]: the
    sibling group of [n]. *)
Fixpoint siblingsFrom (i : nat) (n : Z) (bundles : list Projection.Bundle)
  : list nat :=
  match bundles with
  | [] => []
  | b :: rest =>
      match Projection.rawNumber b with
      | Some m =>
          if m =? n then i :: siblingsFrom (S i) n rest
          else siblingsFrom (S i) n rest
      | None => siblingsFrom (S i) n rest
      end
  end.

(** The position of [i] in [l]. *)
Fixpoint indexOf (i : nat) (l : list nat) : nat :=
  match l with
  | [] => O
  | j :: rest => if Nat.eqb j i then O else S (indexOf i rest)
  end.

(** The name of a member of [group]: the base name, followed by the 1-based
    position of the member in the group sorted by creation time when the
    group has more than one member. *)
Definition memberName (bundles : list Projection.Bundle) (group : list nat)
  (i : nat) (b : Projection.Bundle) : string :=
  if Nat.leb (List.length group) 1 then Projection.name b
  else
    (Projection.baseName b ++ " - "
     ++ numberToString
          (Z.of_nat (indexOf i (sortBy (Projection.createdTime bundles) group)) + 1))%string.

(** The display name by the grouping key, as the code groups. *)
Definition nameByKey (bundles : list Projection.Bundle) (i : nat)
  (b : Projection.Bundle) : string :=
  memberName bundles (membersFrom 0 (Projection.groupKey b) bundles) i b.

(** The claim's words: within the group sharing the decoded base number, the
    base name suffixed with the position by creation time when the group has
    more than one member; a bundle without a number is in no group. *)
Definition nameBySiblings (bundles : list Projection.Bundle) (i : nat)
  (b : Projection.Bundle) : string :=
  match Projection.rawNumber b with
  | Some n => memberName bundles (siblingsFrom 0 n bundles) i b
  | None => Projection.name b
  end.

(** [l.map((b, i) => f(i, b))], counting from [i]. *)
Fixpoint mapFrom {A B : Type} (i : nat) (f : nat -> A -> B) (l : list A) : list B :=
  match l with
  | [] => []
  | x :: rest => f i x :: mapFrom (S i) f rest
  end.

(** A bundle without a number shares its grouping key with no other bundle
    of the list. *)
Definition unnumberedAlone (bundles : list Projection.Bundle) : Prop :=
  forall i b,
    nth_error bundles i = Some b ->
    Projection.rawNumber b = None ->
    membersFrom 0 (Projection.groupKey b) bundles = [i].

(** *** An order with a bundle without number whose key is "7" and a bundle
    of number 7 *)

Definition rowWith (id : string) (number created : option Z)
  : Projection.SupabaseBundle :=
  {| Projection.bulto_id := id;
     Projection.numero_bulto := number;
     Projection.cantidad_laminas := Some 10;
     Projection.estado := Some disponible;
     Projection.ubicacion := None;
     Projection.historial := Some [];
     Projection.creado_en := created;
     Projection.SSCC := None;
     Projection.LUID := None;
     Projection.num_bobina_col := None |}.

Definition orderWithKeyClash : Projection.SupabaseCutOrder :=
  {| Projection.orden_id := "o-1";
     Projection.numero_orden := "1001";
     Projection.fecha := None;
     Projection.cantidad_bultos := Some 2;
     Projection.activo := Some true;
     Projection.bultos :=
       Some [rowWith "7" None (Some 100); rowWith "12" (Some 7) (Some 200)] |}.

Definition orderOfThree : Projection.SupabaseCutOrder :=
  {| Projection.orden_id := "o-2";
     Projection.numero_orden := "1002";
     Projection.fecha := None;
     Projection.cantidad_bultos := Some 4;
     Projection.activo := Some true;
     Projection.bultos :=
       Some [rowWith "a" (Some 7002) (Some 905);
             rowWith "b" (Some 8) (Some 900);
             rowWith "c" (Some 7001) (Some 900);
             rowWith "d" (Some 7003) (Some 910)] |}.

(** [groups.get(k)], an absent key giving no member. *)
Definition groupOf (k : string) (groups : list (string * list nat)) : list nat :=
  match find (fun g => String.eqb (fst g) k) groups with
  | Some g => snd g
  | None => []
  end.

(** The array while the groups are renamed: the members of the groups whose
    keys are [done] carry their display name, the others are as given. *)
Definition renamedUpTo (bundles : list Projection.Bundle) (done : list string)
  (heap : list Projection.Bundle) : Prop :=
  List.length heap = List.length bundles
  /\ forall i b,
      nth_error bundles i = Some b ->
      nth_error heap i
      = Some (if existsb (String.eqb (Projection.groupKey b)) done
              then Projection.withName b (nameByKey bundles i b)
              else b).

(** ** Auxiliary definitions for the further properties *)

(** *** ensureLocationMap *)

(** The rows that [ensureLocationMap] reads for [codes], the map it records
    from them, and the codes it finds missing. *)
Definition existingLocations (codes : list string) (s : Store) : list UbicacionRow :=
  filter
    (fun l =>
       match codigo l with
       | Some c => existsb (String.eqb c) (unique String.eqb codes)
       | None => false
       end)
    (ubicaciones s).

Definition knownMap (codes : list string) (s : Store) : LocationMap :=
  recordLocations (existingLocations codes s) [].

Definition missingCodes (codes : list string) (s : Store) : list string :=
  filter (fun code => negb (mapHas code (knownMap codes s)))
    (unique String.eqb codes).

(** The store once the locations of [codes] are inserted. *)
Definition withLocations (codes : list string) (s : Store) : Store :=
  {| bultos := bultos s;
     historial_bultos := historial_bultos s;
     ordenes_corte := ordenes_corte s;
     ubicaciones := ubicaciones s ++ freshLocations (next_id s) codes;
     next_id := (next_id s + List.length codes)%nat |}.

(** A location of the table carries the code [c]. *)
Definition hasLocation (c : string) (s : Store) : Prop :=
  exists row, In row (ubicaciones s) /\ codigo row = Some c.

(** The map binds [c] to the key of a location of the table that carries it. *)
Definition bindsLocation (m : LocationMap) (c : string) (s : Store) : Prop :=
  exists row,
    In row (ubicaciones s)
    /\ codigo row = Some c
    /\ mapGet c m = Some (ubicacion_row_id row).

(** *** applyBundleAction *)

(** [historyWorkOrder]: the order number trimmed, or nothing when it is
    blank or absent. *)
Definition workOrderOf (inp : ApplyBundleActionInput) : option string :=
  let normalizedOrder :=
    match orderNumber inp with Some s => trim s | None => EmptyString end in
  if isEmpty normalizedOrder then None else Some normalizedOrder.

(** [Object.keys(updatePayload).length > 0] *)
Definition needsUpdate (inp : ApplyBundleActionInput) (loc : option Id) : bool :=
  (isSome loc || isSome (bundleStatusByAction (action inp)))%bool.

(** The store once the targeted bundles are updated. *)
Definition updatedStore (inp : ApplyBundleActionInput) (loc : option Id)
  (s : Store) : Store :=
  if needsUpdate inp loc
  then updateRows (fun r => mem (bulto_id r) (bundleIds inp))
         (withPayload loc (bundleStatusByAction (action inp))) s
  else s.

(** [historyPayload]: one entry for each targeted key, in the order of the
    batch. *)
Definition historyOf (now : Z) (inp : ApplyBundleActionInput) (loc : option Id)
  : list HistorialRow :=
  map (fun bundleId =>
         {| hist_bulto_id := bundleId;
            accion := action inp;
            ubicacion_destino_id := loc;
            numero_trabajo :=
              if action_eqb (action inp) asignar then workOrderOf inp else None;
            fecha_hora := now |})
    (bundleIds inp).

(** What [applyBundleAction] has established when it starts to write: the
    batch is not empty, a 'use' found every targeted bundle assigned, an
    'assign' has an order number, a 'move' has resolved its destination to
    the location [loc]; so far the store [s] has at most gained a location. *)
Record Prepared (inp : ApplyBundleActionInput) (s s1 : Store) (loc : option Id)
  : Prop :=
  { prep_ids : bundleIds inp <> [];
    prep_use : action inp = utilizar -> allAssigned (bundleIds inp) s = true;
    prep_order : action inp = asignar -> isSome (workOrderOf inp) = true;
    prep_bultos : bultos s1 = bultos s;
    prep_historial : historial_bultos s1 = historial_bultos s;
    prep_ordenes : ordenes_corte s1 = ordenes_corte s;
    prep_ubicaciones : exists created, ubicaciones s1 = ubicaciones s ++ created;
    prep_location :
      match loc with
      | None => action inp <> mover /\ s1 = s
      | Some l =>
          action inp = mover
          /\ exists nd row,
              normalizeLocationCode (destinationCode inp) = Some nd
              /\ In row (ubicaciones s1)
              /\ codigo row = Some nd
              /\ ubicacion_row_id row = l
      end }.

(** The result of a call of [applyBundleAction] on the store [s], with the
    store it leaves: refused before it writes to the bundles, stopped by the
    failure of the history insertion after it updated them, or completed,
    the aggregator having run on the orders of the batch. *)
Inductive ApplyOutcome (now : Z) (inp : ApplyBundleActionInput) (s : Store)
  : Result unit -> Store -> Prop :=
  | apply_refused (e : Error) (s1 : Store) :
      e <> ErrHistorial ->
      bultos s1 = bultos s ->
      historial_bultos s1 = historial_bultos s ->
      ordenes_corte s1 = ordenes_corte s ->
      (exists created, ubicaciones s1 = ubicaciones s ++ created) ->
      (action inp <> mover -> s1 = s) ->
      ApplyOutcome now inp s (Throw e) s1
  | apply_unlogged (loc : option Id) (s1 : Store) :
      Prepared inp s s1 loc ->
      ApplyOutcome now inp s (Throw ErrHistorial) (updatedStore inp loc s1)
  | apply_done (loc : option Id) (s1 s' : Store) :
      Prepared inp s s1 loc ->
      bultos s' = bultos (updatedStore inp loc s1) ->
      historial_bultos s'
      = historial_bultos (updatedStore inp loc s1) ++ historyOf now inp loc ->
      ubicaciones s' = ubicaciones s1 ->
      ordersClearedOnlyIf
        (fun o => allBundlesUsed (bundleIds inp) o (updatedStore inp loc s1))
        s1 s' ->
      ApplyOutcome now inp s (Ok tt) s'.

(** The three parts of [applyBundleAction] after its test for an empty
    batch: the validation of a 'use' (lines 673-691), the resolution of the
    destination of a 'move' (lines 693-704), and the writes (lines 706-750). *)
Definition validateUse (inp : ApplyBundleActionInput) : M unit :=
  if action_eqb (action inp) utilizar then
    fetched <- selectBultosIn (bundleIds inp) ;;
    match fetched with
    | None => throw ErrValidarBultos
    | Some bundlesInfo =>
        match filter (fun bundle => negb (estado_is (estado bundle) asignado))
                bundlesInfo with
        | [] => ret tt
        | _ :: _ => throw ErrNoAsignados
        end
    end
  else ret tt.

Definition resolveDestination (inp : ApplyBundleActionInput) : M (option Id) :=
  if action_eqb (action inp) mover then
    match normalizeLocationCode (destinationCode inp) with
    | None => throw ErrDestinoInvalido
    | Some normalizedDestination =>
        locationMap <- ensureLocationMap [normalizedDestination] ;;
        match mapGet normalizedDestination locationMap with
        | None => throw ErrResolverUbicacion
        | Some l => ret (Some l)
        end
    end
  else ret None.

Definition applyWrites (now : Z) (inp : ApplyBundleActionInput)
  (locationId : option Id) : M unit :=
  if (action_eqb (action inp) asignar && negb (isSome (workOrderOf inp)))%bool
  then throw ErrOrdenTrabajo
  else
    (if needsUpdate inp locationId then
       updated <-
         updateBultos (fun r => mem (bulto_id r) (bundleIds inp))
           (withPayload locationId (bundleStatusByAction (action inp))) ;;
       if negb updated then throw ErrActualizarBultos else ret tt
     else ret tt) ;;;
    logged <- insertHistorial (historyOf now inp locationId) ;;
    if negb logged then throw ErrHistorial
    else checkAndUpdateOrderStatus (bundleIds inp).

(** *** What the two services keep *)

(** The columns of a bundle that [applyBundleAction] never writes. *)
Definition sameBundle (r r' : BultoRow) : Prop :=
  bulto_id r' = bulto_id r
  /\ orden_corte_id r' = orden_corte_id r
  /\ numero_bulto r' = numero_bulto r
  /\ cantidad_laminas r' = cantidad_laminas r
  /\ SSCC r' = SSCC r
  /\ LUID r' = LUID r.

(** [l'] is [l] with rows added at its end. *)
Definition extends {A : Type} (l l' : list A) : Prop := exists added, l' = l ++ added.

(** The key of a bundle with the order that owns it. *)
Definition bundleKey (r : BultoRow) : Id * Id := (bulto_id r, orden_corte_id r).

(** The sheets of every bundle of the table, [cantidad_laminas ?? 0] each. *)
Definition totalSheets (s : Store) : Z :=
  fold_right Z.add 0 (map (fun r => orElse (cantidad_laminas r) 0) (bultos s)).

(** An 'assign' with the order number [wo]. *)
Definition assignOf (ids : list Id) (dest wo : option string) : ApplyBundleActionInput :=
  {| bundleIds := ids; action := asignar;
     destinationCode := dest; orderNumber := wo |}.

(** Two calls of [splitBundle] with arguments it refuses: no sheets to take,
    and a blank identifier. *)
Definition splitNothing : SplitInput :=
  {| bundleId := 1%nat; orderId := 10%nat; sheets := 0;
     originalIdentifiers := {| sscc := "S-1"; luid := "L-1" |};
     newBundleIdentifiers := {| sscc := "S-2"; luid := "L-2" |} |}.

Definition splitBlank : SplitInput :=
  {| bundleId := 1%nat; orderId := 10%nat; sheets := 40;
     originalIdentifiers := {| sscc := "S-1"; luid := "  " |};
     newBundleIdentifiers := {| sscc := "S-2"; luid := "L-2" |} |}.

(** An order that stores no bundle count, with a used bundle and an
    available one. *)
Definition orderUncounted : Projection.SupabaseCutOrder :=
  {| Projection.orden_id := "o-3";
     Projection.numero_orden := "1003";
     Projection.fecha := None;
     Projection.cantidad_bultos := None;
     Projection.activo := Some true;
     Projection.bultos :=
       Some [ {| Projection.bulto_id := "a";
                 Projection.numero_bulto := Some 1;
                 Projection.cantidad_laminas := Some 10;
                 Projection.estado := Some usado;
                 Projection.ubicacion := None;
                 Projection.historial := Some [];
                 Projection.creado_en := Some 900;
                 Projection.SSCC := None;
                 Projection.LUID := None;
                 Projection.num_bobina_col := None |};
              rowWith "b" (Some 2) (Some 901) ] |}.

(** ** createCutOrder (lines 259-280 and 334-431)

    [createCutOrder] is embedded with the conventions of the two other
    services.  Of the columns it writes, [fecha] and [cantidad_bultos] of an
    order and [num_bobina] of a bundle are read by no service: they are in
    the payloads and not in the rows of the store.  The payload of a bundle
    carries as status what [bundleStatusFromInput] returns, be it a value of
    the enumeration or not.  A row of the store has the type at which the
    services read it, its [estado] a value of the enumeration or null: a
    status that is no value of the enumeration has no value there, and the
    row that stands for its bundle has none.  The count [sheets] of a
    bundle, when given, is an integer. *)

Module Creation.

Definition lower_char (c : ascii) : ascii :=
let n := nat_of_ascii c in
if (Nat.leb 65 n && Nat.leb n 90)%bool then ascii_of_nat (n + 32) else c.

(** [String.prototype.toLowerCase] *)
Fixpoint toLowerCase (s : string) : string :=
match s with
| EmptyString => EmptyString
| String c s' => String (lower_char c) (toLowerCase s')
end.

(** [a || b] on strings that may be absent *)
Definition orString (a b : option string) : option string :=
match a with
| Some s => if isEmpty s then b else Some s
| None => b
end.

(** The fields of [CreateBundleInput] that [createCutOrder] reads. *)
Record CreateBundleInput : Type :=
{ currentLocation : option string;
  sheets : option Z;
  status : option string;
  sscc : option string;
  luid : option string;
  num_bobina : option string }.

(** The fields of [CreateCutOrderInput] that [createCutOrder] reads;
  [order_status] is its field [status]. *)
Record CreateCutOrderInput : Type :=
{ code : string;
  date : string;
  order_status : option string;
  locationFilter : option string;
  bundles : list CreateBundleInput }.

Definition DEFAULT_BUNDLE_STATUS : BundleStatusEnum := disponible.

(** The own keys of [bundleStatusLabels]. *)
Definition ownStatus (key : string) : option BundleStatusEnum :=
if String.eqb key "disponible" then Some disponible
else if String.eqb key "asignado" then Some asignado
else if String.eqb key "usado" then Some usado
else None.

(** [key in bundleStatusLabels] also holds of the properties that the object
  inherits from [Object.prototype]; two of their names are in lower case. *)
Definition inheritedKey (key : string) : bool :=
(String.eqb key "constructor" || String.eqb key "__proto__")%bool.

(** What [bundleStatusFromInput] returns as a [BundleStatusEnum]: one of its
  values, or the inherited key that passed the test. *)
Inductive StatusValue : Type :=
| statusValue (s : BundleStatusEnum)
| foreignValue (key : string).

Definition bundleStatusFromInput (value : option string) : StatusValue :=
match value with
| None => statusValue DEFAULT_BUNDLE_STATUS
| Some v =>
    if isEmpty v then statusValue DEFAULT_BUNDLE_STATUS
    else
      let normalized := trim (toLowerCase v) in
      if isEmpty normalized then statusValue DEFAULT_BUNDLE_STATUS
      else
        match ownStatus normalized with
        | Some s => statusValue s
        | None =>
            if inheritedKey normalized then foreignValue normalized
            else statusValue DEFAULT_BUNDLE_STATUS
        end
end.

(** One constructor for each [throw new Error(...)] of [createCutOrder];
  [ErrServicio] carries what [ensureLocationMap] throws.  A key is never
  empty, so the test [if (!orderId)] passes whenever the insertion of the
  order is served. *)
Inductive CreateError : Type :=
| ErrServicio (e : Error)
| ErrCrearOrden            (* No se pudo crear la orden *)
| ErrGuardarBultos         (* No se pudieron guardar los bultos *)
| ErrHistorialInicial.     (* No se pudo registrar el historial inicial *)

Inductive Outcome (A : Type) : Type :=
| Returned (a : A)
| Thrown (e : CreateError).
Arguments Returned {A} a.
Arguments Thrown {A} e.

Definition C (A : Type) : Type := World -> Outcome A * World.

Definition returned {A : Type} (a : A) : C A := fun w => (Returned a, w).
Definition thrown {A : Type} (e : CreateError) : C A := fun w => (Thrown e, w).
Definition andThen {A B : Type} (m : C A) (k : A -> C B) : C B :=
fun w =>
  match m w with
  | (Returned a, w') => k a w'
  | (Thrown e, w') => (Thrown e, w')
  end.

(** A computation of the two other services, run from [createCutOrder]. *)
Definition lift {A : Type} (m : M A) : C A :=
fun w =>
  match m w with
  | (Ok a, w') => (Returned a, w')
  | (Throw e, w') => (Thrown (ErrServicio e), w')
  end.

Notation "x <~ m ;; k" := (andThen m (fun x => k))
(at level 61, m at next level, right associativity).

(** [from("ordenes_corte").insert({ numero_orden, fecha, cantidad_bultos,
  activo }).select("id").single()] *)
Definition insertOrden (numero : string) (isActive : bool) : M (option Id) :=
served <- request ;;
s <- getStore ;;
if served then
  putStore {| bultos := bultos s;
              historial_bultos := historial_bultos s;
              ordenes_corte :=
                ordenes_corte s
                ++ [ {| orden_id := next_id s; numero_orden := numero;
                        activo := Some isActive |} ];
              ubicaciones := ubicaciones s;
              next_id := S (next_id s) |} ;;;
  ret (Some (next_id s))
else ret None.

(** An element of [bundlesPayload]. *)
Record BultoPayload : Type :=
{ p_orden_corte_id : Id;
  p_numero_bulto : Z;
  p_ubicacion_id : option Id;
  p_cantidad_laminas : Z;
  p_estado : StatusValue;
  p_SSCC : option string;
  p_LUID : option string;
  p_num_bobina : option string }.

(** The rows of the store for a payload.  A status of the payload that is
  no value of the enumeration has no value in the type of [estado]: the row
  has none. *)
Fixpoint freshBultos (next : Id) (payload : list BultoPayload) : list BultoRow :=
match payload with
| [] => []
| p :: t =>
    {| bulto_id := next;
       orden_corte_id := p_orden_corte_id p;
       numero_bulto := Some (p_numero_bulto p);
       cantidad_laminas := Some (p_cantidad_laminas p);
       ubicacion_id := p_ubicacion_id p;
       estado :=
         match p_estado p with
         | statusValue s => Some s
         | foreignValue _ => None
         end;
       SSCC := p_SSCC p;
       LUID := p_LUID p |} :: freshBultos (S next) t
end.

(** [from("bultos").insert(bundlesPayload).select("id, ubicacion_id")]: all
  the rows are inserted, or none. *)
Definition insertBultos (payload : list BultoPayload) : M (option (list BultoRow)) :=
served <- request ;;
s <- getStore ;;
if served then
  let rows := freshBultos (next_id s) payload in
  putStore {| bultos := bultos s ++ rows;
              historial_bultos := historial_bultos s;
              ordenes_corte := ordenes_corte s;
              ubicaciones := ubicaciones s;
              next_id := (next_id s + List.length payload)%nat |} ;;;
  ret (Some rows)
else ret None.

(** [.filter((code) => Boolean(code))] *)
Fixpoint given (l : list (option string)) : list string :=
match l with
| [] => []
| Some c :: t => c :: given t
| None :: t => given t
end.

(** [normalizeLocationCode(input.locationFilter ||
  input.bundles[0]?.currentLocation)] *)
Definition defaultLocationCodeOf (input : CreateCutOrderInput) : option string :=
normalizeLocationCode
  (orString (locationFilter input)
     match bundles input with
     | b :: _ => currentLocation b
     | [] => None
     end).

Definition locationCodesOf (input : CreateCutOrderInput) : list string :=
given (map (fun bundle => normalizeLocationCode (currentLocation bundle))
         (bundles input))
++ match defaultLocationCodeOf input with
   | Some c => [c]
   | None => []
   end.

(** [input.bundles.map((bundle, index) => ...)] *)
Definition bundlesPayloadOf (input : CreateCutOrderInput) (locationsMap : LocationMap)
(orderId : Id) : list BultoPayload :=
mapFrom 0
  (fun index bundle =>
     let fallbackCode :=
       match normalizeLocationCode (currentLocation bundle) with
       | Some c => Some c
       | None => defaultLocationCodeOf input
       end in
     let locationId :=
       match fallbackCode with
       | Some c => mapGet c locationsMap
       | None => None
       end in
     {| p_orden_corte_id := orderId;
        p_numero_bulto := Z.of_nat index + 1;
        p_ubicacion_id := locationId;
        p_cantidad_laminas := orElse (sheets bundle) 0;
        p_estado := bundleStatusFromInput (status bundle);
        p_SSCC := orString (sscc bundle) None;
        p_LUID := orString (luid bundle) None;
        p_num_bobina := orString (num_bobina bundle) None |})
  (bundles input).

Definition initialHistory (now : Z) (createdBundles : list BultoRow)
: list HistorialRow :=
map (fun bundle =>
       {| hist_bulto_id := bulto_id bundle;
          accion := mover;
          ubicacion_destino_id := ubicacion_id bundle;
          numero_trabajo := None;
          fecha_hora := now |})
  createdBundles.

Definition createCutOrder (now : Z) (input : CreateCutOrderInput) : C Id :=
let isActive :=
  match order_status input with
  | Some s => negb (String.eqb s "Inactivo")
  | None => true
  end in
locationsMap <~ lift (ensureLocationMap (locationCodesOf input)) ;;
inserted <~ lift (insertOrden (code input) isActive) ;;
match inserted with
| None => thrown ErrCrearOrden
| Some orderId =>
    match bundles input with
    | [] => returned orderId
    | _ :: _ =>
        let bundlesPayload := bundlesPayloadOf input locationsMap orderId in
        created <~ lift (insertBultos bundlesPayload) ;;
        match created with
        | None => thrown ErrGuardarBultos
        | Some createdBundles =>
            match initialHistory now createdBundles with
            | [] => returned orderId
            | historyPayload =>
                logged <~ lift (insertHistorial historyPayload) ;;
                if negb logged then thrown ErrHistorialInicial
                else returned orderId
            end
        end
    end
end.

End Creation.

(** *** createCutOrder, for the statements *)

(** [input.status !== "Inactivo"] *)
Definition isActiveOf (input : Creation.CreateCutOrderInput) : bool :=
  match Creation.order_status input with
  | Some s => negb (String.eqb s "Inactivo")
  | None => true
  end.

(** The store once the order of [input] is inserted. *)
Definition withOrden (input : Creation.CreateCutOrderInput) (s : Store) : Store :=
  {| bultos := bultos s;
     historial_bultos := historial_bultos s;
     ordenes_corte :=
       ordenes_corte s
       ++ [ {| orden_id := next_id s; numero_orden := Creation.code input;
               activo := Some (isActiveOf input) |} ];
     ubicaciones := ubicaciones s;
     next_id := S (next_id s) |}.

(** The store once the bundles of a payload are inserted. *)
Definition withBultos (payload : list Creation.BultoPayload) (s : Store) : Store :=
  {| bultos := bultos s ++ Creation.freshBultos (next_id s) payload;
     historial_bultos := historial_bultos s;
     ordenes_corte := ordenes_corte s;
     ubicaciones := ubicaciones s;
     next_id := (next_id s + List.length payload)%nat |}.

(** What [createCutOrder] has when [ensureLocationMap] has returned the map
    [m]: the store [s] has at most gained locations, and [m] binds every
    code of the input to the key of a location that carries it. *)
Record CodesBound (input : Creation.CreateCutOrderInput) (s s1 : Store)
  (m : LocationMap) : Prop :=
  { loc_bultos : bultos s1 = bultos s;
    loc_historial : historial_bultos s1 = historial_bultos s;
    loc_ordenes : ordenes_corte s1 = ordenes_corte s;
    loc_ubicaciones : extends (ubicaciones s) (ubicaciones s1);
    loc_next : (next_id s <= next_id s1)%nat;
    loc_binds :
      forall c, In c (Creation.locationCodesOf input) -> bindsLocation m c s1;
    loc_bound :
      forall c id,
        mapGet c m = Some id ->
        exists row,
          In row (ubicaciones s1)
          /\ codigo row = Some c /\ ubicacion_row_id row = id }.

(** The result of a call of [createCutOrder] on the store [s], with the
    store it leaves: refused with the store untouched, stopped at the
    insertion of the order, of the bundles or of the history, or completed. *)
Inductive CreateOutcome (now : Z) (input : Creation.CreateCutOrderInput) (s : Store)
  : Creation.Outcome Id -> Store -> Prop :=
  | create_refused (e : Error) :
      e = ErrLeerUbicaciones \/ e = ErrCrearUbicaciones ->
      CreateOutcome now input s (Creation.Thrown (Creation.ErrServicio e)) s
  | create_stopped_at_order (m : LocationMap) (s1 : Store) :
      CodesBound input s s1 m ->
      CreateOutcome now input s (Creation.Thrown Creation.ErrCrearOrden) s1
  | create_stopped_at_bundles (m : LocationMap) (s1 : Store) :
      CodesBound input s s1 m ->
      Creation.bundles input <> [] ->
      CreateOutcome now input s (Creation.Thrown Creation.ErrGuardarBultos)
        (withOrden input s1)
  | create_stopped_at_history (m : LocationMap) (s1 : Store) :
      CodesBound input s s1 m ->
      Creation.bundles input <> [] ->
      CreateOutcome now input s (Creation.Thrown Creation.ErrHistorialInicial)
        (withBultos (Creation.bundlesPayloadOf input m (next_id s1))
           (withOrden input s1))
  | create_done (m : LocationMap) (s1 : Store) :
      CodesBound input s s1 m ->
      CreateOutcome now input s (Creation.Returned (next_id s1))
        (appendHistorial
           (Creation.initialHistory now
              (Creation.freshBultos (S (next_id s1))
                 (Creation.bundlesPayloadOf input m (next_id s1))))
           (withBultos (Creation.bundlesPayloadOf input m (next_id s1))
              (withOrden input s1))).

(** [normalizeLocationCode(bundle.currentLocation) || defaultLocationCode] *)
Definition fallbackCodeOf (input : Creation.CreateCutOrderInput)
  (bundle : Creation.CreateBundleInput) : option string :=
  match normalizeLocationCode (Creation.currentLocation bundle) with
  | Some c => Some c
  | None => Creation.defaultLocationCodeOf input
  end.

(** The bundle rows that the store [s'] has after those of [s]. *)
Definition createdBy (s s' : Store) : list BultoRow :=
  skipn (List.length (bultos s)) (bultos s').

(** The first entry of the history of a bundle: a move to where it is. *)
Definition firstEntry (now : Z) (row : BultoRow) : HistorialRow :=
  {| hist_bulto_id := bulto_id row; accion := mover;
     ubicacion_destino_id := ubicacion_id row;
     numero_trabajo := None; fecha_hora := now |}.

(** An order of two bundles, the second with a status that is the name of
    an inherited property, and the same order without that status. *)
Definition bundleAt (loc : option string) (st : option string)
  : Creation.CreateBundleInput :=
  {| Creation.currentLocation := loc; Creation.sheets := Some 100;
     Creation.status := st; Creation.sscc := None; Creation.luid := None;
     Creation.num_bobina := None |}.

Definition orderOfTwo : Creation.CreateCutOrderInput :=
  {| Creation.code := "1004"; Creation.date := "2024-05-01";
     Creation.order_status := None; Creation.locationFilter := Some "c1"%string;
     Creation.bundles := [bundleAt (Some "C2"%string) None; bundleAt None None] |}.

Definition orderForeign : Creation.CreateCutOrderInput :=
  {| Creation.code := "1005"; Creation.date := "2024-05-01";
     Creation.order_status := None; Creation.locationFilter := None;
     Creation.bundles :=
       [bundleAt (Some "C2"%string) None;
        bundleAt None (Some "Constructor"%string)] |}.

(** The row that the insertion of the bundles creates for an element of the
    payload, under the key [key]. *)
Definition rowOf (key : Id) (p : Creation.BultoPayload) : BultoRow :=
  {| bulto_id := key;
     orden_corte_id := Creation.p_orden_corte_id p;
     numero_bulto := Some (Creation.p_numero_bulto p);
     cantidad_laminas := Some (Creation.p_cantidad_laminas p);
     ubicacion_id := Creation.p_ubicacion_id p;
     estado :=
       match Creation.p_estado p with
       | Creation.statusValue s => Some s
       | Creation.foreignValue _ => None
       end;
     SSCC := Creation.p_SSCC p;
     LUID := Creation.p_LUID p |}.

(** No row of the bundles has a key that the store has yet to give. *)
Definition keysGiven (s : Store) : Prop :=
  forall row, In row (bultos s) -> (bulto_id row < next_id s)%nat.

(** A split of the first bundle that [createCutOrder] creates for
    [orderOfTwo] in the store [store1001]. *)
Definition splitCreated : SplitInput :=
  {| bundleId := 22%nat; orderId := 21%nat; sheets := 40;
     originalIdentifiers := {| sscc := "S-5"; luid := "L-5" |};
     newBundleIdentifiers := {| sscc := "S-6"; luid := "L-6" |} |}.

(** ** The panel of an order ([CutOrderPanel], lines 63-104 of its file)

    The values that the panel computes from the bundles of the order shown,
    the two filters and the bundle selected. *)

Module Panel.
Import Projection.

Definition filteredBundles (bundleStatusFilter bundleLocationFilter : string)
(bundles : list Bundle) : list Bundle :=
filter
  (fun bundle =>
     let normalizedStatus := Creation.toLowerCase (status bundle) in
     let matchesStatus :=
       (String.eqb bundleStatusFilter "todos"
        || String.eqb normalizedStatus bundleStatusFilter)%bool in
     let matchesLocation :=
       (String.eqb bundleLocationFilter "todos"
        || String.eqb (currentLocation bundle) bundleLocationFilter)%bool in
     (matchesStatus && matchesLocation)%bool)
  bundles.

(** [filteredBundles[0]?.id ?? null] *)
Definition firstId (filtered : list Bundle) : option string :=
match filtered with
| bundle :: _ => Some (id bundle)
| [] => None
end.

Definition effectiveBundleId (selectedBundleId : option string)
(filtered : list Bundle) : option string :=
match selectedBundleId with
| Some selected =>
    if (negb (isEmpty selected)
        && existsb (fun bundle => String.eqb (id bundle) selected) filtered)%bool
    then Some selected
    else firstId filtered
| None => firstId filtered
end.

Definition activeBundle (selectedBundleId : option string) (filtered : list Bundle)
: option Bundle :=
match effectiveBundleId selectedBundleId filtered with
| Some effective => find (fun bundle => String.eqb (id bundle) effective) filtered
| None => None
end.

Definition dialogDisabledActions (active : option Bundle) : list string :=
match active with
| None => []
| Some bundle =>
    if String.eqb (status bundle) "Asignado" then [] else ["Utilizar"%string]
end.

End Panel.

(** ** splitBundle on any quantity (lines 438-599)

    The argument [sheets] of [splitBundle] is a JavaScript number.
    [Service.splitBundle] is the function on the quantities that are
    integers.  Here the quantity is an integer, NaN or one of the two
    infinities: a comparison with NaN is false, a difference with NaN is
    NaN, and NaN and the infinities reach the store as null, the body of a
    request being JSON.  The quantities with a fractional part are not
    modelled. *)

Module Numeric.

Inductive JsNumber : Type :=
| integer (k : Z)
| NaN
| infinity (positive : bool).

(** [a <= b] *)
Definition leq (a b : JsNumber) : bool :=
match a, b with
| integer x, integer y => x <=? y
| NaN, _ | _, NaN => false
| infinity false, _ => true
| _, infinity true => true
| _, _ => false
end.

(** [a >= b] *)
Definition geq (a b : JsNumber) : bool := leq b a.

(** [a - b] *)
Definition minus (a b : JsNumber) : JsNumber :=
match a, b with
| integer x, integer y => integer (x - y)
| NaN, _ | _, NaN => NaN
| infinity p, infinity q => if Bool.eqb p q then NaN else infinity p
| infinity p, integer _ => infinity p
| integer _, infinity q => infinity (negb q)
end.

(** The value that a column receives for a number: [JSON.stringify]
    writes NaN and the infinities as null. *)
Definition column (a : JsNumber) : option Z :=
match a with
| integer x => Some x
| NaN | infinity _ => None
end.

Record SplitInput : Type :=
{ bundleId : Id;
  orderId : Id;
  sheets : JsNumber;
  originalIdentifiers : BundleIdentifiersInput;
  newBundleIdentifiers : BundleIdentifiersInput }.

(** [{ cantidad_laminas, SSCC, LUID }] *)
Definition withSheetsAndIdentifiers (remaining : option Z) (newSSCC newLUID : string)
(r : BultoRow) : BultoRow :=
{| bulto_id := bulto_id r; orden_corte_id := orden_corte_id r;
   numero_bulto := numero_bulto r; cantidad_laminas := remaining;
   ubicacion_id := ubicacion_id r; estado := estado r;
   SSCC := Some newSSCC; LUID := Some newLUID |}.

Definition splitBundle (now : Z) (inp : SplitInput) : M unit :=
if leq (sheets inp) (integer 0) then throw ErrCantidadNoPositiva
else
  let normalizedOriginalSSCC := trim (sscc (originalIdentifiers inp)) in
  let normalizedOriginalLUID := trim (luid (originalIdentifiers inp)) in
  let normalizedSplitSSCC := trim (sscc (newBundleIdentifiers inp)) in
  let normalizedSplitLUID := trim (luid (newBundleIdentifiers inp)) in
  if (isEmpty normalizedOriginalSSCC || isEmpty normalizedOriginalLUID
      || isEmpty normalizedSplitSSCC || isEmpty normalizedSplitLUID)%bool
  then throw ErrFaltanIdentificadores
  else
    fetched <- selectBultoSingle (bundleId inp) ;;
    match fetched with
    | None => throw ErrLeerBulto
    | Some bundle =>
        if negb (Nat.eqb (orden_corte_id bundle) (orderId inp))
        then throw ErrOrdenAjena
        else
          let currentSheets := integer (orElse (cantidad_laminas bundle) 0) in
          if geq (sheets inp) currentSheets then throw ErrCantidadExcede
          else
            match base (decodeBundleNumber (numero_bulto bundle)) with
            | None => throw ErrSinNumero
            | Some bundleBaseNumber =>
                if bundleBaseNumber =? 0 then throw ErrSinNumero
                else
                  siblings <- selectBultosByOrden (orderId inp) ;;
                  match siblings with
                  | None => throw ErrLeerBultosOrden
                  | Some orderBundles =>
                      let nextVariant := nextVariantOf bundleBaseNumber orderBundles in
                      let remainingSheets := minus currentSheets (sheets inp) in
                      updated <-
                        updateBultos (hasId (bundleId inp))
                          (withSheetsAndIdentifiers (column remainingSheets)
                             normalizedOriginalSSCC normalizedOriginalLUID) ;;
                      if negb updated then throw ErrActualizarOriginal
                      else
                        (if shouldNormalizeNumber bundle then
                           let encodedParentNumber :=
                             encodeBundleNumber bundleBaseNumber 1 in
                           adjusted <-
                             updateBultos (hasId (bundleId inp))
                               (withNumero encodedParentNumber) ;;
                           if negb adjusted then throw ErrAjustarNumero else ret tt
                         else ret tt) ;;;
                        let encodedSplitNumber :=
                          encodeBundleNumber bundleBaseNumber nextVariant in
                        inserted <-
                          insertBulto
                            (fun newId =>
                               {| bulto_id := newId;
                                  orden_corte_id := orderId inp;
                                  numero_bulto := Some encodedSplitNumber;
                                  cantidad_laminas := column (sheets inp);
                                  ubicacion_id := ubicacion_id bundle;
                                  estado := Some (orElse (estado bundle) disponible);
                                  SSCC := Some normalizedSplitSSCC;
                                  LUID := Some normalizedSplitLUID |}) ;;
                        match inserted with
                        | None => throw ErrCrearBulto
                        | Some [] => throw ErrSinIdNuevo
                        | Some (newBundleId :: _) =>
                            let historyPayload :=
                              [ {| hist_bulto_id := bulto_id bundle;
                                   accion := dividir;
                                   ubicacion_destino_id := ubicacion_id bundle;
                                   numero_trabajo := None;
                                   fecha_hora := now |};
                                {| hist_bulto_id := newBundleId;
                                   accion := dividir;
                                   ubicacion_destino_id := ubicacion_id bundle;
                                   numero_trabajo := None;
                                   fecha_hora := now |} ] in
                            logged <- insertHistorial historyPayload ;;
                            if negb logged then throw ErrHistorialDivision
                            else ret tt
                        end
                  end
            end
    end.

End Numeric.

(** *** splitBundle on any quantity, for the statements *)


(** The input of a split of any quantity, from that of a split of an
    integer. *)
Definition quantityInput (inp : SplitInput) (q : Numeric.JsNumber) : Numeric.SplitInput :=
  {| Numeric.bundleId := bundleId inp;
     Numeric.orderId := orderId inp;
     Numeric.sheets := q;
     Numeric.originalIdentifiers := originalIdentifiers inp;
     Numeric.newBundleIdentifiers := newBundleIdentifiers inp |}.

(** What the two rows receive as count: [currentSheets - sheets] and
    [sheets]. *)
Definition remainingOf (inp : Numeric.SplitInput) (bundle : BultoRow) : option Z :=
  Numeric.column
    (Numeric.minus (Numeric.integer (orElse (cantidad_laminas bundle) 0))
       (Numeric.sheets inp)).

Definition takenOf (inp : Numeric.SplitInput) : option Z :=
  Numeric.column (Numeric.sheets inp).

(** The store after each write of a split of [bundle], whose base is [b]. *)
Definition quantityReduced (inp : Numeric.SplitInput) (bundle : BultoRow)
  (s : Store) : Store :=
  updateRows (hasId (Numeric.bundleId inp))
    (Numeric.withSheetsAndIdentifiers (remainingOf inp bundle)
       (trim (sscc (Numeric.originalIdentifiers inp)))
       (trim (luid (Numeric.originalIdentifiers inp))))
    s.

Definition quantityPromoted (inp : Numeric.SplitInput) (bundle : BultoRow) (b : Z)
  (s : Store) : Store :=
  if shouldNormalizeNumber bundle
  then updateRows (hasId (Numeric.bundleId inp)) (withNumero (encodeBundleNumber b 1))
         (quantityReduced inp bundle s)
  else quantityReduced inp bundle s.

Definition quantitySibling (inp : Numeric.SplitInput) (bundle : BultoRow) (b : Z)
  (s : Store) (newId : Id) : BultoRow :=
  {| bulto_id := newId;
     orden_corte_id := Numeric.orderId inp;
     numero_bulto :=
       Some (encodeBundleNumber b
               (nextVariantOf b
                  (filter (fun r => Nat.eqb (orden_corte_id r) (Numeric.orderId inp))
                     (bultos s))));
     cantidad_laminas := takenOf inp;
     ubicacion_id := ubicacion_id bundle;
     estado := Some (orElse (estado bundle) disponible);
     SSCC := Some (trim (sscc (Numeric.newBundleIdentifiers inp)));
     LUID := Some (trim (luid (Numeric.newBundleIdentifiers inp))) |}.

Definition quantityInserted (inp : Numeric.SplitInput) (bundle : BultoRow) (b : Z)
  (s : Store) : Store :=
  appendBulto (quantitySibling inp bundle b s) (quantityPromoted inp bundle b s).

Definition quantityLogged (now : Z) (inp : Numeric.SplitInput) (bundle : BultoRow)
  (b : Z) (s : Store) : Store :=
  appendHistorial
    [ {| hist_bulto_id := bulto_id bundle; accion := dividir;
         ubicacion_destino_id := ubicacion_id bundle;
         numero_trabajo := None; fecha_hora := now |};
      {| hist_bulto_id := next_id s; accion := dividir;
         ubicacion_destino_id := ubicacion_id bundle;
         numero_trabajo := None; fecha_hora := now |} ]
    (quantityInserted inp bundle b s).

(** The two tests of [splitBundle] on the quantity let it through: it is an
    integer more than zero and less than the count of the row, or it is
    NaN. *)
Definition quantityPasses (q : Numeric.JsNumber) (current : Z) : Prop :=
  match q with
  | Numeric.integer k => 0 < k < current
  | Numeric.NaN => True
  | Numeric.infinity _ => False
  end.

Definition identifiersOf (inp : Numeric.SplitInput) : bool :=
  negb (isEmpty (trim (sscc (Numeric.originalIdentifiers inp)))
        || isEmpty (trim (luid (Numeric.originalIdentifiers inp)))
        || isEmpty (trim (sscc (Numeric.newBundleIdentifiers inp)))
        || isEmpty (trim (luid (Numeric.newBundleIdentifiers inp))))%bool.

(** What [splitBundle] checks of its input and of the targeted row before
    it writes. *)
Record QuantityAccepted (inp : Numeric.SplitInput) (s : Store) (bundle : BultoRow)
  (b : Z) : Prop :=
  { qacc_identifiers : identifiersOf inp = true;
    qacc_target : targetOf (Numeric.bundleId inp) s = Some bundle;
    qacc_order : orden_corte_id bundle = Numeric.orderId inp;
    qacc_sheets :
      quantityPasses (Numeric.sheets inp) (orElse (cantidad_laminas bundle) 0);
    qacc_base : base (decodeBundleNumber (numero_bulto bundle)) = Some b;
    qacc_base_nonzero : b <> 0 }.

(** The result of a call of [splitBundle] on the store [s], with the store
    it leaves. *)
Inductive QuantityOutcome (now : Z) (inp : Numeric.SplitInput) (s : Store)
  : Result unit -> Store -> Prop :=
  | quantity_rejected (e : Error) :
      beforeFirstWrite e = true ->
      QuantityOutcome now inp s (Throw e) s
  | quantity_stopped_at_number (bundle : BultoRow) (b : Z) :
      QuantityAccepted inp s bundle b ->
      shouldNormalizeNumber bundle = true ->
      QuantityOutcome now inp s (Throw ErrAjustarNumero) (quantityReduced inp bundle s)
  | quantity_stopped_at_insert (bundle : BultoRow) (b : Z) :
      QuantityAccepted inp s bundle b ->
      QuantityOutcome now inp s (Throw ErrCrearBulto) (quantityPromoted inp bundle b s)
  | quantity_stopped_at_history (bundle : BultoRow) (b : Z) :
      QuantityAccepted inp s bundle b ->
      QuantityOutcome now inp s (Throw ErrHistorialDivision)
        (quantityInserted inp bundle b s)
  | quantity_done (bundle : BultoRow) (b : Z) :
      QuantityAccepted inp s bundle b ->
      QuantityOutcome now inp s (Ok tt) (quantityLogged now inp bundle b s).

(** No bundle of the store has a negative count. *)
Definition counted (s : Store) : Prop :=
  Forall (fun r => 0 <= orElse (cantidad_laminas r) 0) (bultos s).

(** A call of one of the two services, the split being of any quantity. *)
Inductive QuantityCall : Type :=
  | QuantityApply (now : Z) (inp : ApplyBundleActionInput) (outcomes : list bool)
  | QuantitySplit (now : Z) (inp : Numeric.SplitInput) (outcomes : list bool).

Definition runQuantityCall (c : QuantityCall) (s : Store) : Result unit * Store :=
  match c with
  | QuantityApply now inp outcomes =>
      let '(r, w) := applyBundleAction now inp {| store := s; faults := outcomes |} in
      (r, store w)
  | QuantitySplit now inp outcomes =>
      let '(r, w) := Numeric.splitBundle now inp {| store := s; faults := outcomes |} in
      (r, store w)
  end.

Fixpoint runQuantityCalls (calls : list QuantityCall) (s : Store) : Store :=
  match calls with
  | [] => s
  | c :: rest => runQuantityCalls rest (snd (runQuantityCall c s))
  end.

(** Every request of the call is served, and a split is of an integer. *)
Definition servedCount (c : QuantityCall) : bool :=
  match c with
  | QuantityApply _ _ [] => true
  | QuantitySplit _ inp [] =>
      match Numeric.sheets inp with
      | Numeric.integer _ => true
      | Numeric.NaN | Numeric.infinity _ => false
      end
  | _ => false
  end.

(** A split of the first bundle of [store1001], of 40 sheets, of NaN and of
    an infinity. *)
Definition split40Quantity : Numeric.SplitInput :=
  quantityInput split40 (Numeric.integer 40).

Definition splitNaN : Numeric.SplitInput := quantityInput split40 Numeric.NaN.

Definition splitInfinity (positive : bool) : Numeric.SplitInput :=
  quantityInput split40 (Numeric.infinity positive).

(** * Properties *)

(** ** Codec *)

Lemma decode_encoded (b v : Z) :
  1 <= b -> 1 <= v <= 999 ->
  decodeBundleNumber (Some (encodeBundleNumber b v))
  = {| base := Some b; variant := Some v |}.
Proof.
  intros Hb Hv.
  unfold decodeBundleNumber, encodeBundleNumber, BUNDLE_SPLIT_NUMBER_FACTOR.
  assert (Hq : (b * 1000 + v) / 1000 = b)
    by (symmetry; apply (Z.div_unique _ _ b v); lia).
  assert (Hr : (b * 1000 + v) mod 1000 = v)
    by (symmetry; apply (Z.mod_unique _ _ b v); lia).
  destruct (Z.leb_spec 1000 (b * 1000 + v)) as [_ | Hlt]; [ | lia ].
  cbv zeta. rewrite Hq, Hr.
  destruct (Z.eqb_spec v 0) as [H0 | _]; [ lia | reflexivity ].
Qed.

(** C7. Codec round trip: for every base in [1, 998] and every variant in
    [1, 998], decoding the encoding of (base, variant) gives back exactly
    (base, variant). *)
Theorem codec_round_trip (b v : Z) :
  1 <= b <= 998 -> 1 <= v <= 998 ->
  decodeBundleNumber (Some (encodeBundleNumber b v))
  = {| base := Some b; variant := Some v |}.
Proof.
  intros Hb Hv. apply decode_encoded; lia.
Qed.

Lemma codec_round_trip_witness :
  decodeBundleNumber (Some (encodeBundleNumber 7 2))
  = {| base := Some 7; variant := Some 2 |}.
Proof.
  apply (codec_round_trip 7 2); lia.
Defined.

(** ** Requests, run *)

Lemma request_run (w : World) : request w = (Ok (served w), after w).
Proof.
  destruct w as [s [ | b fs]]; reflexivity.
Qed.

Lemma served_withStore (s : Store) (w : World) :
  served (withStore s w) = served w.
Proof. reflexivity. Qed.

Lemma after_withStore (s : Store) (w : World) :
  after (withStore s w) = withStore s (after w).
Proof. reflexivity. Qed.

Lemma store_after (w : World) : store (after w) = store w.
Proof. reflexivity. Qed.

Lemma selectBultoSingle_run (id : Id) (w : World) :
  selectBultoSingle id w
  = (Ok (if served w then targetOf id (store w) else None), after w).
Proof.
  unfold selectBultoSingle, bind, getStore, targetOf, hasId.
  rewrite request_run. simpl.
  destruct (served w); [ | reflexivity ].
  destruct (filter _ _) as [ | r [ | r' l]]; reflexivity.
Qed.

Lemma selectBultosByOrden_run (o : Id) (w : World) :
  selectBultosByOrden o w
  = (Ok (if served w
         then Some (filter (fun r => Nat.eqb (orden_corte_id r) o) (bultos (store w)))
         else None),
     after w).
Proof.
  unfold selectBultosByOrden, bind, getStore.
  rewrite request_run. simpl. destruct (served w); reflexivity.
Qed.

Lemma selectBultosIn_run (ids : list Id) (w : World) :
  selectBultosIn ids w
  = (Ok (if served w
         then Some (filter (fun r => mem (bulto_id r) ids) (bultos (store w)))
         else None),
     after w).
Proof.
  unfold selectBultosIn, bind, getStore.
  rewrite request_run. simpl. destruct (served w); reflexivity.
Qed.

Lemma updateBultos_run sel payload (w : World) :
  updateBultos sel payload w
  = (Ok (served w),
     if served w then withStore (updateRows sel payload (store w)) (after w)
     else after w).
Proof.
  unfold updateBultos, bind, getStore, putStore.
  rewrite request_run. simpl. destruct (served w); reflexivity.
Qed.

Lemma insertBulto_run row (w : World) :
  insertBulto row w
  = (if served w then Ok (Some [next_id (store w)]) else Ok None,
     if served w then withStore (appendBulto row (store w)) (after w)
     else after w).
Proof.
  unfold insertBulto, bind, getStore, putStore.
  rewrite request_run. simpl. destruct (served w); reflexivity.
Qed.

Lemma insertHistorial_run rows (w : World) :
  insertHistorial rows w
  = (Ok (served w),
     if served w then withStore (appendHistorial rows (store w)) (after w)
     else after w).
Proof.
  unfold insertHistorial, bind, getStore, putStore.
  rewrite request_run. simpl. destruct (served w); reflexivity.
Qed.

(** ** splitBundle, run *)

Ltac thrown E :=
  unfold throw, ret in E; injection E as <- <-; cbn [store after withStore].

Lemma splitBundle_outcome (now : Z) (inp : SplitInput) (w w' : World)
  (r : Result unit) :
  splitBundle now inp w = (r, w') ->
  SplitOutcome now inp (store w) r (store w').
Proof.
  intros E. unfold splitBundle in E.
  destruct (Z.leb_spec (sheets inp) 0) as [Hk | Hk];
    [ thrown E; now apply split_rejected | ].
  destruct (isEmpty _ || _ || _ || _)%bool eqn:Hid;
    [ thrown E; now apply split_rejected | ].
  unfold bind at 1 in E. rewrite selectBultoSingle_run in E.
  destruct (served w) eqn:Hs1; [ | thrown E; now apply split_rejected ].
  destruct (targetOf (bundleId inp) (store w)) as [bundle | ] eqn:Ht;
    [ | thrown E; now apply split_rejected ].
  destruct (Nat.eqb_spec (orden_corte_id bundle) (orderId inp)) as [Ho | Ho];
    [ | thrown E; now apply split_rejected ].
  cbn [negb] in E.
  destruct (Z.leb_spec (orElse (cantidad_laminas bundle) 0) (sheets inp)) as [Hc | Hc];
    [ thrown E; now apply split_rejected | ].
  destruct (base (decodeBundleNumber (numero_bulto bundle))) as [b | ] eqn:Hb;
    [ | thrown E; now apply split_rejected ].
  destruct (Z.eqb_spec b 0) as [Hz | Hz]; [ thrown E; now apply split_rejected | ].
  assert (Hadm : SplitAccepted inp (store w) bundle b).
  { constructor;
      [ unfold identifiersGiven; now rewrite Hid
      | assumption | assumption | lia | assumption | assumption ]. }
  unfold bind at 1 in E. rewrite selectBultosByOrden_run in E.
  destruct (served (after w)) eqn:Hs2; [ | thrown E; now apply split_rejected ].
  unfold bind at 1 in E. rewrite updateBultos_run in E.
  destruct (served (after (after w))) eqn:Hs3;
    [ | thrown E; now apply split_rejected ].
  cbn [negb] in E.
  change (withStore _ (after (after (after w))))
    with (withStore (originalReduced inp bundle (store w)) (after (after (after w))))
    in E.
  set (w3 := withStore _ (after (after (after w)))) in E.
  unfold bind at 1 in E.
  assert (Hnum :
    exists w4,
      ((if shouldNormalizeNumber bundle
        then adjusted <- updateBultos (hasId (bundleId inp))
                           (withNumero (encodeBundleNumber b 1)) ;;
             (if negb adjusted then throw ErrAjustarNumero else ret tt)
        else ret tt) w3 = (Throw ErrAjustarNumero, w4)
       /\ store w4 = originalReduced inp bundle (store w)
       /\ shouldNormalizeNumber bundle = true)
      \/ ((if shouldNormalizeNumber bundle
           then adjusted <- updateBultos (hasId (bundleId inp))
                              (withNumero (encodeBundleNumber b 1)) ;;
                (if negb adjusted then throw ErrAjustarNumero else ret tt)
           else ret tt) w3 = (Ok tt, w4)
          /\ store w4 = originalPromoted inp bundle b (store w)
          /\ next_id (store w4) = next_id (store w))).
  { unfold originalPromoted.
    destruct (shouldNormalizeNumber bundle).
    - unfold bind. rewrite updateBultos_run.
      destruct (served w3); cbn [negb]; eexists; [ right | left ];
        (split; [ reflexivity | split; reflexivity ]).
    - eexists; right. split; [ reflexivity | split; reflexivity ]. }
  destruct Hnum as [w4 [[E4 [Hs4 Hn]] | [E4 [Hs4 Hn]]]]; rewrite E4 in E.
  { injection E as <- <-. rewrite Hs4. now apply split_stopped_at_number with b. }
  unfold bind at 1 in E. rewrite insertBulto_run in E.
  destruct (served w4) eqn:Hs5.
  2:{ thrown E. rewrite Hs4. now apply split_stopped_at_insert. }
  unfold bind at 1 in E. rewrite insertHistorial_run in E.
  rewrite served_withStore in E.
  destruct (served (after w4)) eqn:Hs6; cbn [negb] in E; thrown E.
  - rewrite Hn, Hs4. now apply split_done.
  - rewrite Hs4. now apply split_stopped_at_history.
Qed.

(** ** Rows by key *)

Lemma filter_single_find {A : Type} (p : A -> bool) (l : list A) (r : A) :
  filter p l = [r] -> find p l = Some r.
Proof.
  induction l as [ | x l IH]; simpl; [ discriminate | ].
  destruct (p x); [ now intros [= ->] | exact IH ].
Qed.

Lemma find_map_same {A : Type} (p : A -> bool) (f : A -> A) (l : list A) :
  (forall x, p (f x) = p x) ->
  find p (map f l) = option_map f (find p l).
Proof.
  intros Hp. induction l as [ | x l IH]; simpl; [ reflexivity | ].
  rewrite Hp. destruct (p x); [ reflexivity | exact IH ].
Qed.


Lemma targetOf_find (id : Id) (s : Store) (r : BultoRow) :
  targetOf id s = Some r -> find (hasId id) (bultos s) = Some r.
Proof.
  unfold targetOf. intros H. apply filter_single_find.
  destruct (filter _ _) as [ | x [ | y l]]; congruence.
Qed.

Lemma targetOf_hasId (id : Id) (s : Store) (r : BultoRow) :
  targetOf id s = Some r -> hasId id r = true.
Proof.
  intros H. apply targetOf_find in H. now apply find_some in H.
Qed.












(** ** C1: what a failed split leaves behind *)




(** ** C10: a bundle numbered 0 *)

Lemma splitBundle_reaches_number_guard (now : Z) (inp : SplitInput) (w : World)
  (bundle : BultoRow) :
  0 < sheets inp ->
  identifiersGiven inp = true ->
  served w = true ->
  targetOf (bundleId inp) (store w) = Some bundle ->
  orden_corte_id bundle = orderId inp ->
  sheets inp < orElse (cantidad_laminas bundle) 0 ->
  splitBundle now inp w
  = match base (decodeBundleNumber (numero_bulto bundle)) with
    | None => (Throw ErrSinNumero, after w)
    | Some b =>
        if b =? 0 then (Throw ErrSinNumero, after w)
        else splitBundle now inp w
    end.
Proof.
  intros Hk Hid Hs Ht Ho Hc.
  destruct (base (decodeBundleNumber (numero_bulto bundle))) as [b | ] eqn:Hb.
  - destruct (Z.eqb_spec b 0) as [Hz | Hz]; [ | reflexivity ].
    unfold splitBundle.
    destruct (Z.leb_spec (sheets inp) 0); [ lia | ].
    unfold identifiersGiven in Hid. apply negb_true_iff in Hid. rewrite Hid.
    unfold bind at 1. rewrite selectBultoSingle_run, Hs, Ht.
    rewrite Ho, Nat.eqb_refl. cbn [negb].
    destruct (Z.leb_spec (orElse (cantidad_laminas bundle) 0) (sheets inp)); [ lia | ].
    rewrite Hb. subst b. reflexivity.
  - unfold splitBundle.
    destruct (Z.leb_spec (sheets inp) 0); [ lia | ].
    unfold identifiersGiven in Hid. apply negb_true_iff in Hid. rewrite Hid.
    unfold bind at 1. rewrite selectBultoSingle_run, Hs, Ht.
    rewrite Ho, Nat.eqb_refl. cbn [negb].
    destruct (Z.leb_spec (orElse (cantidad_laminas bundle) 0) (sheets inp)); [ lia | ].
    rewrite Hb. reflexivity.
Qed.

(** C10. A stored number 0 decodes to (base 0, variant 1), yet the bundle
    that carries it can never be split: every call of [splitBundle] on it
    throws and leaves the store as it was, and a call that passes the guards
    on the quantity, the identifiers and the order is rejected with the
    error "no number assigned", exactly as for a bundle whose number is
    missing. *)
Theorem split_of_number_zero_rejected (now : Z) (inp : SplitInput) (w : World)
  (bundle : BultoRow) :
  targetOf (bundleId inp) (store w) = Some bundle ->
  numero_bulto bundle = Some 0 \/ numero_bulto bundle = None ->
  decodeBundleNumber (Some 0) = {| base := Some 0; variant := Some 1 |}
  /\ (exists e, fst (splitBundle now inp w) = Throw e)
  /\ store (snd (splitBundle now inp w)) = store w
  /\ (0 < sheets inp ->
      identifiersGiven inp = true ->
      served w = true ->
      orden_corte_id bundle = orderId inp ->
      sheets inp < orElse (cantidad_laminas bundle) 0 ->
      fst (splitBundle now inp w) = Throw ErrSinNumero).
Proof.
  intros Ht Hn.
  assert (Hbase : forall b, base (decodeBundleNumber (numero_bulto bundle)) = Some b
                            -> b = 0).
  { intros b. destruct Hn as [-> | ->]; cbn; congruence. }
  split; [ reflexivity | ].
  destruct (splitBundle now inp w) as [r w'] eqn:E. cbn [fst snd].
  pose proof (splitBundle_outcome _ _ _ _ _ E) as Hout.
  assert (Hrej : (exists e, r = Throw e) /\ store w' = store w).
  { destruct Hout as [e He | b0 b Hadm Hnn | b0 b Hadm | b0 b Hadm | b0 b Hadm];
      [ split; [ now exists e | reflexivity ] | | | | ];
      destruct Hadm as [_ Ht' _ _ Hb Hz];
      rewrite Ht in Ht'; injection Ht' as <-;
      elim Hz; now apply Hbase. }
  destruct Hrej as [Hthrow Hsame].
  split; [ exact Hthrow | split; [ exact Hsame | ] ].
  intros Hk Hid Hs Ho Hc.
  rewrite (splitBundle_reaches_number_guard now inp w bundle Hk Hid Hs Ht Ho Hc) in E.
  destruct (base (decodeBundleNumber (numero_bulto bundle))) as [b | ] eqn:Hb.
  - rewrite (Hbase b eq_refl) in E. cbn in E. now injection E as <- _.
  - now injection E as <- _.
Qed.

Lemma split_of_number_zero_rejected_witness :
  fst (splitBundle 2000 splitCero {| store := storeCero; faults := [] |})
  = Throw ErrSinNumero
  /\ store (snd (splitBundle 2000 splitCero {| store := storeCero; faults := [] |}))
     = storeCero.
Proof.
  destruct (split_of_number_zero_rejected 2000 splitCero
              {| store := storeCero; faults := [] |} bultoCero
              eq_refl (or_introl eq_refl))
    as [_ [_ [Hsame Herr]]].
  split; [ apply Herr; reflexivity | exact Hsame ].
Defined.

(** ** Variants of a sibling group *)

Lemma variant_decoded_range (v : option Z) (x : Z) :
  variant (decodeBundleNumber v) = Some x -> 1 <= x <= 999.
Proof.
  destruct v as [v | ]; [ | discriminate ].
  unfold decodeBundleNumber, BUNDLE_SPLIT_NUMBER_FACTOR.
  destruct (Z.leb_spec 1000 v) as [Hge | Hlt]; cbn [variant].
  - pose proof (Z.mod_pos_bound v 1000 ltac:(lia)) as Hm.
    destruct (Z.eqb_spec (v mod 1000) 0); intros [= <-]; lia.
  - intros [= <-]; lia.
Qed.

Lemma base_of_plain_number (n b : Z) :
  n < 1000 -> base (decodeBundleNumber (Some n)) = Some b -> n = b.
Proof.
  unfold decodeBundleNumber, BUNDLE_SPLIT_NUMBER_FACTOR. intros Hn.
  destruct (Z.leb_spec 1000 n); [ lia | ]. now intros [= ->].
Qed.

Lemma decode_plain_number (n : Z) :
  n < 1000 ->
  decodeBundleNumber (Some n) = {| base := Some n; variant := Some 1 |}.
Proof.
  unfold decodeBundleNumber, BUNDLE_SPLIT_NUMBER_FACTOR. intros Hn.
  destruct (Z.leb_spec 1000 n); [ lia | reflexivity ].
Qed.

Lemma fold_max_le (l : list Z) (a : Z) : a <= fold_left Z.max l a.
Proof.
  revert a. induction l as [ | x l IH]; intros a; simpl; [ lia | ].
  specialize (IH (Z.max a x)). lia.
Qed.

Lemma fold_max_bound (l : list Z) (a c : Z) :
  a <= c -> Forall (fun x => x <= c) l -> fold_left Z.max l a <= c.
Proof.
  revert a. induction l as [ | x l IH]; intros a Ha Hl; simpl; [ exact Ha | ].
  inversion Hl; subst. apply IH; [ lia | assumption ].
Qed.

Lemma highestOf_lower (l : list Z) :
  Forall (fun x => 1 <= x) l -> 1 <= highestOf l.
Proof.
  destruct l as [ | v vs]; simpl; [ lia | ].
  intros H. inversion H; subst. pose proof (fold_max_le vs v). lia.
Qed.

Lemma highestOf_snoc (l : list Z) (x : Z) :
  l <> [] -> highestOf (l ++ [x]) = Z.max (highestOf l) x.
Proof.
  destruct l as [ | v vs]; [ congruence | intros _ ].
  simpl. now rewrite fold_left_app.
Qed.

Lemma highestOf_upto (m : nat) :
  (1 <= m)%nat -> highestOf (map Z.of_nat (seq 1 m)) = Z.of_nat m.
Proof.
  induction m as [ | m IH]; [ lia | intros _ ].
  destruct m as [ | m]; [ reflexivity | ].
  rewrite seq_S, map_app. cbn [map].
  rewrite highestOf_snoc by (simpl; discriminate).
  rewrite IH by lia. lia.
Qed.

Lemma nonNull_app (l l' : list (option Z)) :
  nonNull (l ++ l') = nonNull l ++ nonNull l'.
Proof.
  induction l as [ | [v | ] l IH]; simpl; [ reflexivity | | exact IH ].
  now rewrite IH.
Qed.

(** The variants of the group, read off the rows of the table. *)
Lemma groupVariants_rows (o : Id) (b : Z) (s : Store) :
  groupVariants o b s
  = nonNull
      (map (fun item => variant (decodeBundleNumber (numero_bulto item)))
         (relatedTo b
            (filter (fun r => Nat.eqb (orden_corte_id r) o) (bultos s)))).
Proof. reflexivity. Qed.

Lemma groupVariants_positive (o : Id) (b : Z) (s : Store) :
  Forall (fun x => 1 <= x) (groupVariants o b s).
Proof.
  unfold groupVariants.
  induction (relatedTo b _) as [ | r l IH]; simpl; [ constructor | ].
  destruct (variant (decodeBundleNumber (numero_bulto r))) as [x | ] eqn:Hx;
    [ | exact IH ].
  constructor; [ | exact IH ].
  apply variant_decoded_range in Hx. lia.
Qed.

(** Rows that keep their order and what their number decodes to keep the
    variants of every group. *)
Lemma groupVariants_same_decoding (o : Id) (b : Z) (rows rows' : list BultoRow)
  (s s' : Store) :
  bultos s = rows -> bultos s' = rows' ->
  Forall2
    (fun r r' =>
       orden_corte_id r' = orden_corte_id r
       /\ decodeBundleNumber (numero_bulto r') = decodeBundleNumber (numero_bulto r))
    rows rows' ->
  groupVariants o b s' = groupVariants o b s.
Proof.
  intros <- <- H. unfold groupVariants, relatedTo.
  induction H as [ | r r' l l' [Ho Hd] _ IH]; [ reflexivity | ].
  cbn [filter]. rewrite Ho.
  destruct (Nat.eqb (orden_corte_id r) o); [ | exact IH ].
  cbn [filter]. rewrite Hd.
  destruct (base (decodeBundleNumber (numero_bulto r))) as [x | ]; [ | exact IH ].
  destruct (x =? b); [ | exact IH ].
  cbn [map nonNull]. rewrite Hd.
  destruct (variant (decodeBundleNumber (numero_bulto r))); [ | exact IH ].
  cbn [nonNull]. now rewrite IH.
Qed.

Lemma groupVariants_appended (o : Id) (b : Z) (s : Store) (row : Id -> BultoRow) :
  groupVariants o b (appendBulto row s)
  = groupVariants o b s
    ++ (if Nat.eqb (orden_corte_id (row (next_id s))) o
        then
          match base (decodeBundleNumber (numero_bulto (row (next_id s)))) with
          | Some x =>
              if x =? b
              then nonNull [variant (decodeBundleNumber (numero_bulto (row (next_id s))))]
              else []
          | None => []
          end
        else []).
Proof.
  unfold groupVariants, appendBulto, relatedTo. cbn [bultos].
  rewrite !filter_app, map_app, nonNull_app. f_equal.
  cbn [filter].
  destruct (Nat.eqb (orden_corte_id (row (next_id s))) o); [ | reflexivity ].
  cbn [filter].
  destruct (base (decodeBundleNumber (numero_bulto (row (next_id s))))) as [x | ];
    [ | reflexivity ].
  destruct (x =? b); reflexivity.
Qed.

(** ** The writes of a split and the sibling group *)

Lemma target_unique (id : Id) (s : Store) (bundle r : BultoRow) :
  targetOf id s = Some bundle -> In r (bultos s) -> hasId id r = true -> r = bundle.
Proof.
  unfold targetOf. intros Ht Hin Hid.
  assert (Hf : In r (filter (hasId id) (bultos s))) by (apply filter_In; auto).
  destruct (filter (hasId id) (bultos s)) as [ | x [ | y l]]; try discriminate.
  injection Ht as <-. destruct Hf as [-> | []]. reflexivity.
Qed.

Lemma Forall2_map_right {A : Type} (R : A -> A -> Prop) (g : A -> A) (l : list A) :
  (forall r, In r l -> R r (g r)) -> Forall2 R l (map g l).
Proof.
  induction l as [ | x l IH]; intros H; simpl; constructor.
  - apply H. now left.
  - apply IH. intros r Hr. apply H. now right.
Qed.

Lemma siblingNumber_next (inp : SplitInput) (b : Z) (s : Store) :
  siblingNumber inp b s
  = encodeBundleNumber b (highestOf (groupVariants (orderId inp) b s) + 1).
Proof. reflexivity. Qed.

Lemma originalPromoted_rows (inp : SplitInput) (bundle : BultoRow) (b : Z)
  (s : Store) :
  bultos (originalPromoted inp bundle b s)
  = map (fun r =>
           if hasId (bundleId inp) r
           then
             (if shouldNormalizeNumber bundle
              then withNumero (encodeBundleNumber b 1)
              else fun x => x)
               (withSheetsAndIdentifiers
                  (orElse (cantidad_laminas bundle) 0 - sheets inp)
                  (trim (sscc (originalIdentifiers inp)))
                  (trim (luid (originalIdentifiers inp))) r)
           else r)
      (bultos s).
Proof.
  unfold originalPromoted, originalReduced, updateRows, setBultos.
  destruct (shouldNormalizeNumber bundle); cbn [bultos].
  - rewrite map_map. apply map_ext. intros r.
    destruct (hasId (bundleId inp) r) eqn:Hr; [ | now rewrite Hr ].
    unfold hasId in *. cbn [bulto_id withSheetsAndIdentifiers]. now rewrite Hr.
  - reflexivity.
Qed.

Lemma originalPromoted_same_decoding (inp : SplitInput) (bundle : BultoRow)
  (b : Z) (s : Store) :
  SplitAccepted inp s bundle b -> 1 <= b ->
  Forall2
    (fun r r' =>
       orden_corte_id r' = orden_corte_id r
       /\ decodeBundleNumber (numero_bulto r') = decodeBundleNumber (numero_bulto r))
    (bultos s) (bultos (originalPromoted inp bundle b s)).
Proof.
  intros [_ Ht _ _ Hb _] Hpos. rewrite originalPromoted_rows.
  apply Forall2_map_right. intros r Hin.
  destruct (hasId (bundleId inp) r) eqn:Hr; [ | split; reflexivity ].
  rewrite (target_unique _ _ _ _ Ht Hin Hr).
  unfold shouldNormalizeNumber.
  destruct (numero_bulto bundle) as [n | ] eqn:Hn; [ | discriminate Hb ].
  destruct (Z.ltb_spec n BUNDLE_SPLIT_NUMBER_FACTOR) as [Hlt | Hge];
    cbn [orden_corte_id numero_bulto withNumero withSheetsAndIdentifiers];
    [ | now rewrite Hn ].
  split; [ reflexivity | ].
  unfold BUNDLE_SPLIT_NUMBER_FACTOR in Hlt.
  pose proof (base_of_plain_number n b Hlt Hb) as Hnb. subst n.
  rewrite decode_encoded by lia.
  rewrite decode_plain_number by lia. reflexivity.
Qed.

Lemma groupVariants_originalPromoted (o : Id) (inp : SplitInput)
  (bundle : BultoRow) (b b' : Z) (s : Store) :
  SplitAccepted inp s bundle b -> 1 <= b ->
  groupVariants o b' (originalPromoted inp bundle b s) = groupVariants o b' s.
Proof.
  intros Hadm Hpos.
  apply (groupVariants_same_decoding o b' _ _ s _ eq_refl eq_refl).
  now apply originalPromoted_same_decoding.
Qed.

Lemma groupVariants_after_split (now : Z) (inp : SplitInput) (bundle : BultoRow)
  (b : Z) (s : Store) :
  SplitAccepted inp s bundle b -> 1 <= b ->
  highestOf (groupVariants (orderId inp) b s) <= 998 ->
  groupVariants (orderId inp) b (splitLogged now inp bundle b s)
  = groupVariants (orderId inp) b s
    ++ [highestOf (groupVariants (orderId inp) b s) + 1].
Proof.
  intros Hadm Hpos Hhigh.
  pose proof (highestOf_lower _ (groupVariants_positive (orderId inp) b s)) as Hlow.
  change (groupVariants (orderId inp) b (splitLogged now inp bundle b s))
    with (groupVariants (orderId inp) b (siblingInserted inp bundle b s)).
  unfold siblingInserted. rewrite groupVariants_appended.
  rewrite (groupVariants_originalPromoted _ _ _ _ _ _ Hadm Hpos). f_equal.
  cbn [siblingRow orden_corte_id numero_bulto].
  rewrite Nat.eqb_refl, siblingNumber_next, decode_encoded by lia.
  cbn [base variant]. rewrite Z.eqb_refl. reflexivity.
Qed.

(** ** C3: variants allocated by successive splits *)

Lemma upto_snoc (m : nat) :
  map Z.of_nat (seq 1 m) ++ [Z.of_nat m + 1] = map Z.of_nat (seq 1 (S m)).
Proof.
  rewrite seq_S, map_app. cbn [map]. do 2 f_equal. lia.
Qed.

Lemma upto_NoDup (m : nat) : NoDup (map Z.of_nat (seq 1 m)).
Proof.
  apply Finite.Injective_map_NoDup; [ | apply seq_NoDup ].
  intros x y. apply Nat2Z.inj.
Qed.

Lemma accepted_baseOf (inp : SplitInput) (s : Store) (bundle : BultoRow) (b : Z) :
  SplitAccepted inp s bundle b -> baseOf (bundleId inp) s = Some b.
Proof.
  intros [_ Ht _ _ Hb _]. unfold baseOf. now rewrite (targetOf_find _ _ _ Ht).
Qed.

Lemma splitsOfGroup_extend (o : Id) (b : Z) :
  1 <= b ->
  forall calls s s' (m : nat),
    (1 <= m)%nat ->
    groupVariants o b s = map Z.of_nat (seq 1 m) ->
    (m + List.length calls <= 999)%nat ->
    splitsOfGroup o b calls s = Some s' ->
    groupVariants o b s' = map Z.of_nat (seq 1 (m + List.length calls)).
Proof.
  intros Hb. induction calls as [ | [[now inp] outcomes] calls IH];
    intros s s' m Hm Hg Hlen Hrun.
  - injection Hrun as <-. now rewrite Nat.add_0_r.
  - cbn [splitsOfGroup] in Hrun.
    destruct (onGroup o b inp s) eqn:Hon; [ | discriminate ].
    apply andb_true_iff in Hon. destruct Hon as [Ho Hbase].
    apply Nat.eqb_eq in Ho.
    destruct (splitBundle now inp _) as [[[] | e] w'] eqn:E; [ | discriminate ].
    apply splitBundle_outcome in E. cbn [store] in E.
    inversion E as [ | | | | bundle b0 Hadm Hr Hs ]; subst.
    rewrite (accepted_baseOf _ _ _ _ Hadm) in Hbase.
    apply Z.eqb_eq in Hbase. subst b0.
    cbn [List.length] in *.
    replace (m + S (List.length calls))%nat with (S m + List.length calls)%nat by lia.
    apply (IH (store w') s' (S m)); [ lia | | lia | exact Hrun ].
    rewrite <- Hs.
    rewrite groupVariants_after_split; [ | assumption | assumption | ].
    + rewrite Hg, highestOf_upto by lia. apply upto_snoc.
    + rewrite Hg, highestOf_upto by lia. lia.
Qed.


(** C3 (counterexample). Splitting the same group 999 times in sequence does
    not give the variants 1 to 1000: the 999th sibling gets the number
    1 * 1000 + 1000 = 2000, which decodes to base 2 and variant 1, so the
    group of base 1 has the 999 variants 1 to 999 and the new bundle shares
    base 2 and variant 1 with the second bundle of the order. *)
Lemma split_variants_overflow :
  groupVariants 10%nat 1 storeBig = [1]
  /\ match splitsOfGroup 10%nat 1 (repeat (2000, splitOne, []) 999) storeBig with
     | Some s' =>
         groupVariants 10%nat 1 s' = map Z.of_nat (seq 1 999)
         /\ groupVariants 10%nat 1 s' <> map Z.of_nat (seq 1 1000)
         /\ groupVariants 10%nat 2 s' = [1; 1]
     | None => False
     end.
Proof.
  split; [ reflexivity | ].
  vm_compute.
  split; [ reflexivity | split; [ discriminate | reflexivity ] ].
Qed.

(** C3 (amended). A successful [splitBundle] gives the new sibling the
    number [encode(base, highest + 1)], where [highest] is the greatest
    variant decoded over the sibling group (1 when there is none); and
    splitting a group that starts as one bundle of variant 1, with a base of
    at least 1, [n] times in sequence, for [n] up to 998, yields siblings
    whose variants are exactly 1, 2, ..., n + 1, with no duplicates. *)
Theorem split_variant_allocation :
  (forall now inp w w',
      splitBundle now inp w = (Ok tt, w') ->
      exists b rows sibling,
        baseOf (bundleId inp) (store w) = Some b
        /\ bultos (store w') = rows ++ [sibling]
        /\ numero_bulto sibling
           = Some (encodeBundleNumber b
                     (highestOf (groupVariants (orderId inp) b (store w)) + 1)))
  /\ (forall o b calls s s',
         1 <= b ->
         groupVariants o b s = [1] ->
         (List.length calls <= 998)%nat ->
         splitsOfGroup o b calls s = Some s' ->
         groupVariants o b s' = map Z.of_nat (seq 1 (S (List.length calls)))
         /\ NoDup (groupVariants o b s')).
Proof.
  split.
  - intros now inp w w' E. apply splitBundle_outcome in E.
    inversion E as [ | | | | bundle b Hadm Hr Hs ]; subst.
    exists b. eexists. eexists.
    split; [ now apply accepted_baseOf with bundle | ].
    unfold splitLogged, appendHistorial, siblingInserted, appendBulto.
    cbn [bultos]. split; [ reflexivity | ].
    cbn [siblingRow numero_bulto]. now rewrite siblingNumber_next.
  - intros o b calls s s' Hb Hg Hlen Hrun.
    assert (Hv : groupVariants o b s' = map Z.of_nat (seq 1 (S (List.length calls)))).
    { apply (splitsOfGroup_extend o b Hb calls s s' 1);
        [ lia | exact Hg | lia | exact Hrun ]. }
    split; [ exact Hv | ]. rewrite Hv. apply upto_NoDup.
Qed.

Lemma split_variant_allocation_witness :
  (exists b rows sibling,
      baseOf 1%nat store1001 = Some b
      /\ bultos
           (store (snd (splitBundle 2000 split40
                          {| store := store1001; faults := [] |})))
         = rows ++ [sibling]
      /\ numero_bulto sibling
         = Some (encodeBundleNumber b
                   (highestOf (groupVariants 10%nat b store1001) + 1)))
  /\ forall s',
      splitsOfGroup 10%nat 1
        [(2000, split40, []); (2001, split10OfNew, [])] store1001 = Some s' ->
      groupVariants 10%nat 1 s' = [1; 2; 3]
      /\ NoDup (groupVariants 10%nat 1 s').
Proof.
  split.
  - exact (proj1 split_variant_allocation 2000 split40
             {| store := store1001; faults := [] |} _ eq_refl).
  - intros s' Hrun.
    exact (proj2 split_variant_allocation 10%nat 1
             [(2000, split40, []); (2001, split10OfNew, [])] store1001 s'
             ltac:(lia) eq_refl ltac:(simpl; lia) Hrun).
Defined.

(** ** C4: conservation of sheets, for a quantity that is an integer *)


(** A call that passes the guards, with every request served, completes. *)
Lemma splitBundle_completes (now : Z) (inp : SplitInput) (s : Store)
  (bundle : BultoRow) (b : Z) :
  SplitAccepted inp s bundle b ->
  splitBundle now inp {| store := s; faults := [] |}
  = (Ok tt, {| store := splitLogged now inp bundle b s; faults := [] |}).
Proof.
  intros [Hid Ht Ho Hk Hb Hz]. unfold splitBundle.
  destruct (Z.leb_spec (sheets inp) 0); [ lia | ].
  unfold identifiersGiven in Hid. apply negb_true_iff in Hid. rewrite Hid.
  unfold bind at 1. rewrite selectBultoSingle_run.
  unfold served at 1. cbn [faults store]. rewrite Ht, Ho, Nat.eqb_refl.
  cbn [negb].
  destruct (Z.leb_spec (orElse (cantidad_laminas bundle) 0) (sheets inp)); [ lia | ].
  rewrite Hb. destruct (Z.eqb_spec b 0); [ contradiction | ].
  unfold bind at 1. rewrite selectBultosByOrden_run.
  unfold served, after. cbn [faults store tl].
  unfold bind at 1. rewrite updateBultos_run.
  unfold served, after. cbn [faults store tl negb withStore].
  unfold splitLogged, siblingInserted, originalPromoted.
  fold (originalReduced inp bundle s).
  destruct (shouldNormalizeNumber bundle).
  - unfold bind at 1. unfold bind at 1. rewrite updateBultos_run.
    unfold served, after. cbn [faults store tl negb withStore ret].
    unfold bind at 1. rewrite insertBulto_run.
    unfold served, after. cbn [faults store tl negb withStore].
    unfold bind at 1. rewrite insertHistorial_run.
    unfold served, after. cbn [faults store tl negb withStore ret].
    reflexivity.
  - unfold bind at 1. unfold ret at 1.
    unfold bind at 1. rewrite insertBulto_run.
    unfold served, after. cbn [faults store tl negb withStore].
    unfold bind at 1. rewrite insertHistorial_run.
    unfold served, after. cbn [faults store tl negb withStore ret].
    reflexivity.
Qed.

(** The end-to-end scenario: order 1001 with bundles of 100 and 50 sheets at
    C1; splitting the first bundle by 40 sheets leaves it with 60 sheets and
    variant 1, creates a bundle of 40 sheets and variant 2 at the same
    location, and appends one history entry for each of the two. *)
Example end_to_end_split :
  let s' := store (snd (splitBundle 2000 split40
                          {| store := store1001; faults := [] |})) in
  map (fun r => (bulto_id r, cantidad_laminas r,
                 decodeBundleNumber (numero_bulto r), ubicacion_id r))
    (bultos s')
  = [ (1%nat, Some 60, {| base := Some 1; variant := Some 1 |}, Some 5%nat);
      (2%nat, Some 50, {| base := Some 2; variant := Some 1 |}, Some 5%nat);
      (20%nat, Some 40, {| base := Some 1; variant := Some 2 |}, Some 5%nat) ]
  /\ map (fun h => (hist_bulto_id h, accion h)) (historial_bultos s')
     = [ (1%nat, mover); (2%nat, mover); (1%nat, dividir); (20%nat, dividir) ].
Proof. split; vm_compute; reflexivity. Qed.


(** ** The aggregator, run *)

Lemma updateOrdenInactiva_run (o : Id) (w : World) :
  updateOrdenInactiva o w
  = (Ok (served w),
     if served w then withStore (deactivate o (store w)) (after w) else after w).
Proof.
  unfold updateOrdenInactiva, bind, getStore, putStore.
  rewrite request_run. simpl. destruct (served w); reflexivity.
Qed.

Lemma checkOrder_run (o : Id) (w : World) :
  checkOrder o w = (Ok tt, checkOrderWorld o w).
Proof.
  unfold checkOrder, checkOrderWorld, settled, bundlesOf.
  unfold bind at 1. rewrite selectBultosByOrden_run.
  destruct (served w); [ | reflexivity ]. cbn [andb].
  destruct (filter _ (bultos (store w))) as [ | r l] eqn:Hf; [ reflexivity | ].
  cbn [List.length Nat.eqb negb andb].
  destruct (allUsed (r :: l) && negb (hasAvailableOrAssigned (r :: l)))%bool;
    [ | reflexivity ].
  unfold bind. rewrite updateOrdenInactiva_run.
  destruct (served (after w)); reflexivity.
Qed.

Lemma forEach_checkOrder_run (l : list Id) (w : World) :
  forEach checkOrder l w
  = (Ok tt, fold_left (fun acc o => checkOrderWorld o acc) l w).
Proof.
  revert w. induction l as [ | o l IH]; intros w; [ reflexivity | ].
  cbn [forEach fold_left]. unfold bind. rewrite checkOrder_run. apply IH.
Qed.

Lemma checkAndUpdateOrderStatus_run (ids : list Id) (w : World) :
  checkAndUpdateOrderStatus ids w
  = (Ok tt,
     if served w
     then fold_left (fun acc o => checkOrderWorld o acc) (examined ids (store w))
            (after w)
     else after w).
Proof.
  unfold checkAndUpdateOrderStatus, examined.
  unfold bind. rewrite selectBultosIn_run.
  destruct (served w); [ | reflexivity ].
  apply forEach_checkOrder_run.
Qed.

(** ** The aggregator and the flags of the orders *)

Lemma clearedOnlyIf_refl (P : Id -> bool) (l : list OrdenRow) :
  Forall2 (clearedOnlyIf P) l l.
Proof.
  induction l; constructor; [ | assumption ].
  split; [ reflexivity | split; [ reflexivity | now left ] ].
Qed.

Lemma clearedOnlyIf_trans (P : Id -> bool) (l1 l2 l3 : list OrdenRow) :
  Forall2 (clearedOnlyIf P) l1 l2 -> Forall2 (clearedOnlyIf P) l2 l3 ->
  Forall2 (clearedOnlyIf P) l1 l3.
Proof.
  intros H12. revert l3.
  induction H12 as [ | a b l1 l2 [Hi [Hn Ha]] _ IH]; intros l3 H23;
    inversion H23 as [ | b' c l2' l3' [Hi' [Hn' Ha']] Hrest ]; subst;
    constructor; [ | now apply IH ].
  split; [ congruence | split; [ congruence | ] ].
  destruct Ha' as [Hk | [Hc Hp]].
  - destruct Ha as [Hk0 | [Hc0 Hp0]]; [ left; congruence | right ].
    split; [ congruence | assumption ].
  - right. split; [ assumption | now rewrite <- Hi ].
Qed.

Lemma clearedOnlyIf_weaken (P Q : Id -> bool) (l l' : list OrdenRow) :
  (forall o, P o = true -> Q o = true) ->
  Forall2 (clearedOnlyIf P) l l' -> Forall2 (clearedOnlyIf Q) l l'.
Proof.
  intros HPQ H. induction H as [ | a b l l' [Hi [Hn Ha]] _ IH]; constructor;
    [ | assumption ].
  split; [ assumption | split; [ assumption | ] ].
  destruct Ha as [Hk | [Hc Hp]]; [ now left | right; auto ].
Qed.

Lemma deactivate_cleared (o : Id) (s : Store) :
  ordersClearedOnlyIf (fun x => Nat.eqb x o) s (deactivate o s).
Proof.
  unfold ordersClearedOnlyIf, deactivate. cbn [ordenes_corte].
  induction (ordenes_corte s) as [ | row l IH]; constructor; [ | exact IH ].
  destruct (Nat.eqb (orden_id row) o) eqn:Ho.
  - split; [ reflexivity | split; [ reflexivity | right ] ].
    split; [ reflexivity | exact Ho ].
  - split; [ reflexivity | split; [ reflexivity | now left ] ].
Qed.

Lemma settled_same_bultos (o : Id) (s s' : Store) :
  bultos s' = bultos s -> settled o s' = settled o s.
Proof.
  intros H. unfold settled, bundlesOf. now rewrite H.
Qed.

Lemma checkOrderWorld_bultos (o : Id) (w : World) :
  bultos (store (checkOrderWorld o w)) = bultos (store w)
  /\ historial_bultos (store (checkOrderWorld o w)) = historial_bultos (store w)
  /\ ubicaciones (store (checkOrderWorld o w)) = ubicaciones (store w).
Proof.
  unfold checkOrderWorld.
  destruct (served w && settled o (store w))%bool; [ | now repeat split ].
  destruct (served (after w)); now repeat split.
Qed.

Lemma checkOrderWorld_cleared (o : Id) (w : World) :
  ordersClearedOnlyIf (fun x => (Nat.eqb x o && settled o (store w))%bool)
    (store w) (store (checkOrderWorld o w)).
Proof.
  unfold checkOrderWorld.
  destruct (served w); cbn [andb]; [ | apply clearedOnlyIf_refl ].
  destruct (settled o (store w)) eqn:Hs; [ | apply clearedOnlyIf_refl ].
  destruct (served (after w)); [ | apply clearedOnlyIf_refl ].
  cbn [store withStore].
  apply clearedOnlyIf_weaken with (P := fun x => Nat.eqb x o);
    [ | apply deactivate_cleared ].
  intros x ->. reflexivity.
Qed.

Lemma fold_checkOrderWorld_bultos (l : list Id) (w : World) :
  let w' := fold_left (fun acc o => checkOrderWorld o acc) l w in
  bultos (store w') = bultos (store w)
  /\ historial_bultos (store w') = historial_bultos (store w)
  /\ ubicaciones (store w') = ubicaciones (store w).
Proof.
  revert w. induction l as [ | o l IH]; intros w; cbn [fold_left];
    [ now repeat split | ].
  destruct (IH (checkOrderWorld o w)) as [Hb [Hh Hu]].
  destruct (checkOrderWorld_bultos o w) as [Hb' [Hh' Hu']].
  cbv zeta. repeat split; congruence.
Qed.

Lemma fold_checkOrderWorld_cleared (l : list Id) (w : World) :
  ordersClearedOnlyIf (fun x => (mem x l && settled x (store w))%bool)
    (store w) (store (fold_left (fun acc o => checkOrderWorld o acc) l w)).
Proof.
  revert w. induction l as [ | o l IH]; intros w; cbn [fold_left].
  - apply clearedOnlyIf_refl.
  - unfold ordersClearedOnlyIf.
    apply clearedOnlyIf_trans with (ordenes_corte (store (checkOrderWorld o w))).
    + apply clearedOnlyIf_weaken
        with (P := fun x => (Nat.eqb x o && settled o (store w))%bool);
        [ | apply checkOrderWorld_cleared ].
      intros x Hx. apply andb_true_iff in Hx. destruct Hx as [Hx Hs].
      apply Nat.eqb_eq in Hx. subst x.
      unfold mem. cbn [existsb]. now rewrite Nat.eqb_refl, Hs.
    + apply clearedOnlyIf_weaken
        with (P := fun x => (mem x l && settled x (store (checkOrderWorld o w)))%bool);
        [ | apply IH ].
      intros x Hx. apply andb_true_iff in Hx. destruct Hx as [Hx Hs].
      rewrite (settled_same_bultos x _ _ (proj1 (checkOrderWorld_bultos o w))) in Hs.
      unfold mem in *. cbn [existsb]. rewrite Hx, Hs. now rewrite orb_true_r.
Qed.

Lemma mem_cons (x y : Id) (l : list Id) :
  mem x (y :: l) = (Nat.eqb x y || mem x l)%bool.
Proof. reflexivity. Qed.

Lemma mem_uniqueFrom (x : Id) (seen l : list Id) :
  mem x (uniqueFrom Nat.eqb seen l) = (mem x l && negb (mem x seen))%bool.
Proof.
  revert seen. induction l as [ | y l IH]; intros seen; [ reflexivity | ].
  cbn [uniqueFrom]. fold (mem y seen).
  destruct (mem y seen) eqn:Hy.
  - rewrite IH, mem_cons.
    destruct (Nat.eqb_spec x y) as [-> | Hxy]; [ | reflexivity ].
    rewrite Hy. cbn. now rewrite andb_false_r.
  - rewrite !mem_cons, IH, mem_cons.
    destruct (Nat.eqb_spec x y) as [-> | Hxy]; cbn [orb negb].
    + now rewrite Hy.
    + reflexivity.
Qed.

Lemma mem_unique (x : Id) (l : list Id) : mem x (unique Nat.eqb l) = mem x l.
Proof.
  unfold unique. rewrite mem_uniqueFrom. cbn. apply andb_true_r.
Qed.

Lemma mem_examined (ids : list Id) (o : Id) (s : Store) :
  mem o (examined ids s) = touched ids o s.
Proof.
  unfold examined, touched. rewrite mem_unique.
  induction (bultos s) as [ | r l IH]; [ reflexivity | ].
  cbn [filter existsb].
  destruct (mem (bulto_id r) ids); cbn [andb orb]; [ | exact IH ].
  cbn [map]. rewrite mem_cons, IH. now rewrite (Nat.eqb_sym o).
Qed.

Lemma checkOrderWorld_served (o : Id) (s : Store) :
  checkOrderWorld o {| store := s; faults := [] |}
  = {| store := settle s o; faults := [] |}.
Proof.
  unfold checkOrderWorld, settle. cbn [served faults andb store].
  destruct (settled o s); reflexivity.
Qed.

Lemma fold_checkOrderWorld_served (l : list Id) (s : Store) :
  fold_left (fun acc o => checkOrderWorld o acc) l {| store := s; faults := [] |}
  = {| store := fold_left settle l s; faults := [] |}.
Proof.
  revert s. induction l as [ | o l IH]; intros s; [ reflexivity | ].
  cbn [fold_left]. rewrite checkOrderWorld_served. apply IH.
Qed.

Lemma settle_bultos (s : Store) (o : Id) : bultos (settle s o) = bultos s.
Proof. unfold settle. destruct (settled o s); reflexivity. Qed.

Lemma fold_settle_orders (l : list Id) (s : Store) :
  ordenes_corte (fold_left settle l s)
  = map (fun row =>
           if (mem (orden_id row) l && settled (orden_id row) s)%bool
           then inactive row else row)
      (ordenes_corte s).
Proof.
  revert s. induction l as [ | o l IH]; intros s; cbn [fold_left].
  - symmetry. erewrite map_ext; [ apply map_id | reflexivity ].
  - rewrite IH.
    assert (Hs : forall x, settled x (settle s o) = settled x s)
      by (intros x; apply settled_same_bultos, settle_bultos).
    unfold settle at 2. destruct (settled o s) eqn:Ho.
    + cbn [deactivate ordenes_corte]. rewrite map_map. apply map_ext.
      intros row. rewrite Hs, mem_cons.
      destruct (Nat.eqb_spec (orden_id row) o) as [Heq | Hne].
      * cbn [inactive orden_id orb andb]. rewrite Heq, Ho.
        destruct (mem o l); reflexivity.
      * cbn [orb]. reflexivity.
    + apply map_ext. intros row. rewrite Hs, mem_cons.
      destruct (Nat.eqb_spec (orden_id row) o) as [Heq | Hne]; [ | reflexivity ].
      rewrite Heq. cbn [orb andb]. rewrite Ho. now rewrite andb_false_r.
Qed.

Lemma allUsed_none_open (rows : list BultoRow) :
  allUsed rows = true -> hasAvailableOrAssigned rows = false.
Proof.
  unfold allUsed, hasAvailableOrAssigned.
  induction rows as [ | r l IH]; [ reflexivity | ].
  cbn [forallb existsb]. intros H. apply andb_true_iff in H. destruct H as [Hr Hl].
  rewrite (IH Hl). destruct (estado r) as [[ | | ] | ]; try discriminate Hr.
  reflexivity.
Qed.

(** ** Relations that every run respects *)

Section Respects.
Variable R : Store -> Store -> Prop.
Hypothesis R_refl : forall s, R s s.
Hypothesis R_trans : forall s1 s2 s3, R s1 s2 -> R s2 s3 -> R s1 s3.





Lemma respects_selectBultoSingle (id : Id) : respects R (selectBultoSingle id).
Proof. intros w r w' E. rewrite selectBultoSingle_run in E.
       injection E as _ <-. apply R_refl. Qed.




(** Writes that leave the table of orders alone. *)
Hypothesis R_orders :
  forall s s', ordenes_corte s' = ordenes_corte s -> R s s'.


Lemma respects_insertBulto row : respects R (insertBulto row).
Proof.
  intros w r w' E. rewrite insertBulto_run in E. injection E as _ <-.
  destruct (served w); [ now apply R_orders | apply R_refl ].
Qed.




(** Clearing the flag of an order. *)
Hypothesis R_deactivate : forall o s, R s (deactivate o s).




End Respects.

(** ** C6: the flag of an order *)

Lemma touched_has_bundle (ids : list Id) (o : Id) (s : Store) :
  touched ids o s = true -> Nat.eqb (List.length (bundlesOf o s)) 0 = false.
Proof.
  unfold touched, bundlesOf.
  induction (bultos s) as [ | r l IH]; cbn [existsb filter]; [ discriminate | ].
  destruct (Nat.eqb (orden_corte_id r) o); [ reflexivity | ].
  rewrite andb_false_r. exact IH.
Qed.

Lemma touched_settled (ids : list Id) (o : Id) (s : Store) :
  (touched ids o s && settled o s)%bool = allBundlesUsed ids o s.
Proof.
  unfold allBundlesUsed, settled.
  destruct (touched ids o s) eqn:Ht; [ | reflexivity ].
  now rewrite (touched_has_bundle _ _ _ Ht).
Qed.









(** ** applyBundleAction, run for the 'use' action *)

Lemma filter_negb_nil {A : Type} (p : A -> bool) (l : list A) :
  match filter (fun x => negb (p x)) l with [] => true | _ :: _ => false end
  = forallb p l.
Proof.
  induction l as [ | x l IH]; [ reflexivity | ].
  cbn [filter forallb]. destruct (p x); cbn [negb andb]; [ exact IH | reflexivity ].
Qed.

Lemma applyBundleAction_use_run (now : Z) (i : Id) (ids : list Id)
  (dest wo : option string) (w : World) :
  applyBundleAction now (useOf (i :: ids) dest wo) w
  = if served w then
      if allAssigned (i :: ids) (store w) then
        if served (after w) then
          if served (after (after w)) then
            checkAndUpdateOrderStatus (i :: ids)
              (withStore
                 (appendHistorial (usePayload now (i :: ids))
                    (markedUsed (i :: ids) (store w)))
                 (after (after (after w))))
          else
            (Throw ErrHistorial,
             withStore (markedUsed (i :: ids) (store w)) (after (after (after w))))
        else (Throw ErrActualizarBultos, after (after w))
      else (Throw ErrNoAsignados, after w)
    else (Throw ErrValidarBultos, after w).
Proof.
  unfold applyBundleAction, useOf.
  cbn [bundleIds action action_eqb destinationCode orderNumber
       bundleStatusByAction isSome orb andb].
  unfold bind at 1. unfold bind at 1. rewrite selectBultosIn_run.
  destruct (served w); [ | reflexivity ].
  unfold allAssigned, targeted. rewrite <- filter_negb_nil.
  destruct (filter (fun bundle => negb _) _); [ | reflexivity ].
  unfold ret at 1. unfold bind at 1. unfold ret at 1.
  cbn [isSome orb].
  unfold bind at 1. unfold bind at 1. rewrite updateBultos_run.
  destruct (served (after w)); [ | reflexivity ].
  cbn [negb]. unfold ret at 1.
  unfold bind at 1. rewrite insertHistorial_run, served_withStore.
  destruct (served (after (after w))); reflexivity.
Qed.

(** ** C2: the 'use' action on a batch *)

Lemma served_no_faults (s : Store) :
  served {| store := s; faults := [] |} = true
  /\ after {| store := s; faults := [] |} = {| store := s; faults := [] |}.
Proof. split; reflexivity. Qed.

(** C2 (counterexample). With an empty batch every targeted bundle is
    assigned, there being none, and the 'use' action fails; and when the
    history insertion of a batch of one assigned bundle fails, the action
    fails although the bundle has gone from assigned to used. *)
Lemma use_fails_without_rollback :
  (allAssigned [] storeAssigned = true
   /\ fst (applyBundleAction 3000 (useOf [] None None)
             {| store := storeAssigned; faults := [] |})
      = Throw ErrSinBultos)
  /\ (allAssigned [1%nat] storeAssigned = true
      /\ fst (applyBundleAction 3000 (useOf [1%nat] None None)
                {| store := storeAssigned; faults := [true; true; false] |})
         = Throw ErrHistorial
      /\ statuses storeAssigned = [Some asignado; Some disponible]
      /\ statuses
           (store (snd (applyBundleAction 3000 (useOf [1%nat] None None)
                          {| store := storeAssigned;
                             faults := [true; true; false] |})))
         = [Some usado; Some disponible]).
Proof.
  repeat split; vm_compute; reflexivity.
Qed.

(** C2 (amended). For every batch of target bundle ids, the 'use' action
    succeeds only if the batch is not empty and every targeted bundle of the
    store has status assigned, and it does succeed then when every request
    is served.  When the batch is empty or one targeted bundle is not
    assigned, the action fails and the store is left as it was: no status
    changes and no history entry is appended; the same holds when the read
    that validates the batch or the update fails.  Only a failure of the
    history insertion leaves the targeted bundles marked used with no
    history entry. *)
Theorem use_action_on_batch (now : Z) (ids : list Id) (dest wo : option string)
  (w w' : World) (r : Result unit) :
  applyBundleAction now (useOf ids dest wo) w = (r, w') ->
  (r = Ok tt -> ids <> [] /\ allAssigned ids (store w) = true)
  /\ (faults w = [] -> ids <> [] -> allAssigned ids (store w) = true -> r = Ok tt)
  /\ (ids = [] \/ allAssigned ids (store w) = false ->
      (exists e, r = Throw e) /\ store w' = store w)
  /\ (forall e, r = Throw e -> e <> ErrHistorial -> store w' = store w)
  /\ (r = Throw ErrHistorial ->
      bultos (store w') = bultos (markedUsed ids (store w))
      /\ historial_bultos (store w') = historial_bultos (store w)).
Proof.
  intros E. destruct ids as [ | i ids].
  { cbn in E. injection E as <- <-.
    split; [ discriminate | ].
    split; [ intros _ Hne; now elim Hne | ].
    split; [ intros _; split; [ now exists ErrSinBultos | reflexivity ] | ].
    split; [ reflexivity | discriminate ]. }
  rewrite applyBundleAction_use_run in E.
  destruct (served w) eqn:Hs1.
  2:{ injection E as <- <-.
      split; [ discriminate | ].
      split; [ intros Hf; unfold served in Hs1; rewrite Hf in Hs1; discriminate | ].
      split; [ intros _; split; [ now exists ErrValidarBultos | reflexivity ] | ].
      split; [ reflexivity | discriminate ]. }
  destruct (allAssigned (i :: ids) (store w)) eqn:Ha.
  2:{ injection E as <- <-.
      split; [ discriminate | ].
      split; [ discriminate | ].
      split; [ intros _; split; [ now exists ErrNoAsignados | reflexivity ] | ].
      split; [ reflexivity | discriminate ]. }
  destruct (served (after w)) eqn:Hs2.
  2:{ injection E as <- <-.
      split; [ discriminate | ].
      split; [ intros Hf; unfold served, after in Hs2; cbn in Hs2;
               rewrite Hf in Hs2; discriminate | ].
      split; [ intros [Hnil | Hfalse]; discriminate | ].
      split; [ reflexivity | discriminate ]. }
  destruct (served (after (after w))) eqn:Hs3.
  2:{ injection E as <- <-.
      split; [ discriminate | ].
      split; [ intros Hf; unfold served, after in Hs3; cbn in Hs3;
               rewrite Hf in Hs3; discriminate | ].
      split; [ intros [Hnil | Hfalse]; discriminate | ].
      split; [ intros e [= <-] Hne; now elim Hne | ].
      intros _. split; reflexivity. }
  rewrite checkAndUpdateOrderStatus_run in E. injection E as <- <-.
  split; [ intros _; split; [ discriminate | reflexivity ] | ].
  split; [ reflexivity | ].
  split; [ intros [Hnil | Hfalse]; discriminate | ].
  split; discriminate.
Qed.

Lemma use_action_on_batch_witness :
  fst (applyBundleAction 3000 (useOf [1%nat] None None)
         {| store := storeAssigned; faults := [] |})
  = Ok tt
  /\ store (snd (applyBundleAction 3000 (useOf [2%nat] None None)
                   {| store := storeAssigned; faults := [] |}))
     = storeAssigned.
Proof.
  split.
  - destruct (applyBundleAction 3000 (useOf [1%nat] None None)
                {| store := storeAssigned; faults := [] |}) as [r w'] eqn:E.
    cbn [fst].
    apply (proj1 (proj2 (use_action_on_batch _ _ _ _ _ _ _ E)));
      [ reflexivity | discriminate | reflexivity ].
  - destruct (applyBundleAction 3000 (useOf [2%nat] None None)
                {| store := storeAssigned; faults := [] |}) as [r w'] eqn:E.
    cbn [snd].
    apply (proj1 (proj2 (proj2 (use_action_on_batch _ _ _ _ _ _ _ E)))).
    right. reflexivity.
Defined.

(** ** C9: the destination of a move *)

Lemma isValidLocationCode_In (c : string) :
  isValidLocationCode c = true <-> In c LOCATION_CODES.
Proof.
  unfold isValidLocationCode. rewrite existsb_exists. split.
  - intros [x [Hin Heq]]. apply String.eqb_eq in Heq. now subst.
  - intros Hin. exists c. split; [ exact Hin | apply String.eqb_refl ].
Qed.

Lemma listed_code_not_empty (c : string) : In c LOCATION_CODES -> isEmpty c = false.
Proof.
  unfold LOCATION_CODES. cbn [In].
  intros H; repeat (destruct H as [<- | H]; [ reflexivity | ]); destruct H.
Qed.

Lemma normalizeLocationCode_Some (dest : option string) (c : string) :
  normalizeLocationCode dest = Some c
  <-> exists v, dest = Some v /\ c = toUpperCase (trim v) /\ In c LOCATION_CODES.
Proof.
  unfold normalizeLocationCode. split.
  - destruct dest as [v | ]; [ | discriminate ].
    destruct (isEmpty v); [ discriminate | ].
    destruct (isEmpty (toUpperCase (trim v))); [ discriminate | ].
    destruct (isValidLocationCode (toUpperCase (trim v))) eqn:Hv; [ | discriminate ].
    intros [= <-]. exists v. repeat split. now apply isValidLocationCode_In.
  - intros [v [-> [-> Hin]]].
    pose proof (listed_code_not_empty _ Hin) as Hne.
    destruct v as [ | a v]; [ discriminate Hne | ]. cbn [isEmpty].
    rewrite Hne. apply isValidLocationCode_In in Hin. now rewrite Hin.
Qed.

Lemma applyBundleAction_move_rejected (now : Z) (ids : list Id)
  (dest wo : option string) (w : World) :
  normalizeLocationCode dest = None ->
  applyBundleAction now (moveOf ids dest wo) w
  = (Throw (match ids with [] => ErrSinBultos | _ :: _ => ErrDestinoInvalido end), w).
Proof.
  intros Hn. unfold applyBundleAction, moveOf.
  cbn [bundleIds action action_eqb destinationCode].
  destruct ids as [ | i ids]; [ reflexivity | ].
  rewrite Hn. reflexivity.
Qed.

Lemma mapGet_mapSet (key : string) (value : Id) (m : LocationMap) :
  mapGet key (mapSet key value m) = Some value.
Proof.
  unfold mapGet. induction m as [ | [k v] m IH]; cbn [mapSet].
  - cbn. now rewrite String.eqb_refl.
  - destruct (String.eqb k key) eqn:Hk; cbn [find fst]; rewrite Hk;
      [ reflexivity | exact IH ].
Qed.

Lemma ensureLocationMap_creates (c : string) (s : Store) :
  isEmpty c = false ->
  exists m w',
    ensureLocationMap [c] {| store := s; faults := [] |} = (Ok m, w')
    /\ isSome (mapGet c m) = true.
Proof.
  intros Hc. unfold ensureLocationMap, unique. cbn [uniqueFrom existsb].
  unfold bind at 1. unfold selectUbicacionesIn, bind at 1, getStore.
  rewrite request_run. cbn [served faults after store tl].
  unfold bind at 1. cbn [ret].
  set (map0 := recordLocations _ []).
  cbn [filter]. unfold mapHas.
  destruct (mapGet c map0) as [l | ] eqn:Hg; cbn [negb].
  - eexists. eexists. split; [ reflexivity | ]. now rewrite Hg.
  - unfold bind at 1. unfold insertUbicaciones, bind at 1, getStore, putStore.
    rewrite request_run. cbn [served faults after store tl freshLocations].
    eexists. eexists. split; [ reflexivity | ].
    unfold recordLocations. cbn [fold_left codigo ubicacion_row_id].
    rewrite Hc. now rewrite mapGet_mapSet.
Qed.

(** C9. [applyBundleAction] with the action 'mover' accepts a destination
    only if, trimmed and put in upper case, it is one of the ten codes
    C1 to C10: for every other destination (none, empty, or a code that is
    not in the list) it throws a validation error and leaves store and
    requests untouched, although [ensureLocationMap] gets or creates a
    location for any non-empty code it is given. *)
Theorem move_requires_listed_code (now : Z) (ids : list Id)
  (dest wo : option string) (w w' : World) (r : Result unit) :
  applyBundleAction now (moveOf ids dest wo) w = (r, w') ->
  LOCATION_CODES
  = ["C1"; "C2"; "C3"; "C4"; "C5"; "C6"; "C7"; "C8"; "C9"; "C10"]%string
  /\ ((forall v, dest = Some v -> ~ In (toUpperCase (trim v)) LOCATION_CODES) ->
      (r = Throw ErrSinBultos \/ r = Throw ErrDestinoInvalido) /\ w' = w)
  /\ (r = Ok tt ->
      exists v, dest = Some v /\ In (toUpperCase (trim v)) LOCATION_CODES)
  /\ (forall c s,
         isEmpty c = false ->
         exists m w1,
           ensureLocationMap [c] {| store := s; faults := [] |} = (Ok m, w1)
           /\ isSome (mapGet c m) = true).
Proof.
  intros E. split; [ reflexivity | ].
  assert (Hrej : (forall v, dest = Some v -> ~ In (toUpperCase (trim v)) LOCATION_CODES)
                 -> normalizeLocationCode dest = None).
  { intros Hno. destruct (normalizeLocationCode dest) as [c | ] eqn:Hn;
      [ | reflexivity ].
    apply normalizeLocationCode_Some in Hn. destruct Hn as [v [Hd [Hc Hin]]].
    subst c. elim (Hno v Hd Hin). }
  split; [ | split ].
  - intros Hno. rewrite (applyBundleAction_move_rejected _ _ _ _ _ (Hrej Hno)) in E.
    injection E as <- <-. split; [ | reflexivity ].
    destruct ids; [ now left | now right ].
  - intros ->. destruct (normalizeLocationCode dest) as [c | ] eqn:Hn.
    + apply normalizeLocationCode_Some in Hn. destruct Hn as [v [Hd [Hc Hin]]].
      exists v. subst c. now split.
    + rewrite (applyBundleAction_move_rejected _ _ _ _ _ Hn) in E. discriminate E.
  - intros c s Hc. now apply ensureLocationMap_creates.
Qed.

Lemma move_requires_listed_code_witness :
  (fst (applyBundleAction 3000 (moveOf [1%nat] (Some "C11"%string) None)
          {| store := store1001; faults := [] |})
   = Throw ErrSinBultos
   \/ fst (applyBundleAction 3000 (moveOf [1%nat] (Some "C11"%string) None)
             {| store := store1001; faults := [] |})
      = Throw ErrDestinoInvalido)
  /\ snd (applyBundleAction 3000 (moveOf [1%nat] (Some "C11"%string) None)
            {| store := store1001; faults := [] |})
     = {| store := store1001; faults := [] |}.
Proof.
  destruct (applyBundleAction 3000 (moveOf [1%nat] (Some "C11"%string) None)
              {| store := store1001; faults := [] |}) as [r w'] eqn:E.
  cbn [fst snd].
  apply (proj1 (proj2 (move_requires_listed_code _ _ _ _ _ _ _ E))).
  intros v [= <-]. vm_compute.
  intros H; repeat (destruct H as [H | H]; [ discriminate H | ]); exact H.
Defined.

(** A destination written in lower case with blanks around is accepted, and
    the bundle is moved to the location of that code. *)
Example move_to_trimmed_upper_code :
  normalizeLocationCode (Some "  c1 "%string) = Some "C1"%string
  /\ normalizeLocationCode (Some "C-1"%string) = None
  /\ fst (applyBundleAction 3000 (moveOf [1%nat] (Some "  c1 "%string) None)
            {| store := store1001; faults := [] |})
     = Ok tt.
Proof. repeat split; vm_compute; reflexivity. Qed.

(** ** The stable sort *)

Section SortFacts.
Context {A : Type} (key : A -> Z).

Lemma insertBy_perm (x : A) (l : list A) : Permutation (x :: l) (insertBy key x l).
Proof.
  induction l as [ | y l IH]; cbn [insertBy]; [ reflexivity | ].
  destruct (key x <=? key y); [ reflexivity | ].
  rewrite perm_swap. now constructor.
Qed.

Lemma sortBy_perm (l : list A) : Permutation l (sortBy key l).
Proof.
  induction l as [ | x l IH]; cbn [sortBy]; [ constructor | ].
  rewrite <- insertBy_perm. now constructor.
Qed.



Lemma sortBy_length (l : list A) : List.length (sortBy key l) = List.length l.
Proof. symmetry. apply Permutation_length, sortBy_perm. Qed.
End SortFacts.



(** ** C5: the work order of a projected bundle *)



(** ** C8: display names *)

(** C8 (failing input). A bundle without a number whose key is "7" and the
    only bundle of base number 7 are put in one group: the bundle of base 7,
    alone in its sibling group, is shown as "Bulto #7 - 2" and the bundle
    without number gets a suffix too. *)
Lemma display_names_key_clash :
  let shown := Projection.bundles
                 (Projection.mapCutOrder plainDate plainDateTime orderWithKeyClash) in
  map Projection.rawNumber shown = [None; Some 7]
  /\ map Projection.baseName shown = ["Bulto sin número"; "Bulto #7"]%string
  /\ map Projection.name shown = ["Bulto sin número - 1"; "Bulto #7 - 2"]%string.
Proof.
  repeat split; reflexivity.
Qed.

(** Three siblings created at 9:00, 9:05 and 9:10, listed out of order, and a
    bundle alone in its group. *)
Example display_names_of_three :
  map Projection.name
    (Projection.bundles (Projection.mapCutOrder plainDate plainDateTime orderOfThree))
  = ["Bulto #7 - 2"; "Bulto #8"; "Bulto #7 - 1"; "Bulto #7 - 3"]%string.
Proof. reflexivity. Qed.

Module DisplayNames.
Import Projection.

Lemma numberToString_inj (n m : Z) : numberToString n = numberToString m -> n = m.
Proof.
  unfold numberToString. intros H. apply DecimalZ.to_int_inj.
  assert (Hnn : forall z, Z.to_int z <> Decimal.Pos Decimal.Nil
                          /\ Z.to_int z <> Decimal.Neg Decimal.Nil).
  { intros [ | p | p]; cbn; split; try discriminate;
      intros [= Hp]; now apply (DecimalPos.Unsigned.to_uint_nonnil p). }
  assert (Hsome : Some (Z.to_int n) = Some (Z.to_int m)).
  { rewrite <- (NilZero.isi (Z.to_int n)), <- (NilZero.isi (Z.to_int m));
      try apply Hnn. now rewrite H. }
  now injection Hsome.
Qed.

Lemma withName_name (b : Bundle) : withName b (name b) = b.
Proof. now destruct b. Qed.

Lemma nth_error_updateAt (f : Bundle -> Bundle) (heap : list Bundle) (i j : nat) :
  nth_error (updateAt i f heap) j
  = if Nat.eqb j i then option_map f (nth_error heap j) else nth_error heap j.
Proof.
  revert i j. induction heap as [ | b heap IH]; intros i j.
  - destruct i, j; cbn; try reflexivity; now destruct (Nat.eqb j i).
  - destruct i as [ | i], j as [ | j]; cbn [updateAt nth_error Nat.eqb option_map];
      try reflexivity.
    apply IH.
Qed.

Lemma length_updateAt (f : Bundle -> Bundle) (heap : list Bundle) (i : nat) :
  List.length (updateAt i f heap) = List.length heap.
Proof.
  revert i. induction heap as [ | b heap IH]; intros [ | i]; cbn; auto.
Qed.

Lemma indexOf_head (i : nat) (l : list nat) : indexOf i (i :: l) = O.
Proof. cbn. now rewrite Nat.eqb_refl. Qed.

Lemma indexOf_tail (i j : nat) (l : list nat) :
  j <> i -> indexOf i (j :: l) = S (indexOf i l).
Proof. intros H. cbn. now destruct (Nat.eqb_spec j i). Qed.

(** What [renameFrom] leaves at each index. *)
Lemma nth_error_renameFrom (members : list nat) :
  NoDup members ->
  forall (index : nat) (heap : list Bundle) (j : nat),
    nth_error (renameFrom index members heap) j
    = if existsb (Nat.eqb j) members
      then option_map
             (fun bundle =>
                withName bundle
                  (baseName bundle ++ " - "
                   ++ numberToString (Z.of_nat (index + indexOf j members) + 1))%string)
             (nth_error heap j)
      else nth_error heap j.
Proof.
  induction 1 as [ | i rest Hnotin Hnd IH]; intros index heap j; [ reflexivity | ].
  cbn [renameFrom existsb]. rewrite IH, nth_error_updateAt.
  destruct (Nat.eqb_spec j i) as [-> | Hne]; cbn [orb].
  - assert (Hno : existsb (Nat.eqb i) rest = false).
    { destruct (existsb (Nat.eqb i) rest) eqn:Hex; [ | reflexivity ].
      apply existsb_exists in Hex. destruct Hex as [x [Hx Hxi]].
      apply Nat.eqb_eq in Hxi. subst x. contradiction. }
    rewrite Hno, indexOf_head, Nat.add_0_r. reflexivity.
  - rewrite indexOf_tail by congruence.
    destruct (existsb (Nat.eqb j) rest); [ | reflexivity ].
    destruct (nth_error heap j); cbn [option_map]; [ | reflexivity ].
    do 5 f_equal. lia.
Qed.

Lemma length_renameFrom (members : list nat) (index : nat) (heap : list Bundle) :
  List.length (renameFrom index members heap) = List.length heap.
Proof.
  revert index heap. induction members as [ | i rest IH]; intros index heap;
    [ reflexivity | ].
  cbn [renameFrom]. now rewrite IH, length_updateAt.
Qed.

Lemma insertBy_ext {A : Type} (key key' : A -> Z) (x : A) (l : list A) :
  key x = key' x -> (forall y, In y l -> key y = key' y) ->
  insertBy key x l = insertBy key' x l.
Proof.
  intros Hx. induction l as [ | y l IH]; intros H; [ reflexivity | ].
  cbn [insertBy]. rewrite Hx, (H y (or_introl eq_refl)).
  destruct (key' x <=? key' y); [ reflexivity | ].
  f_equal. apply IH. intros z Hz. apply H. now right.
Qed.

Lemma sortBy_ext {A : Type} (key key' : A -> Z) (l : list A) :
  (forall x, In x l -> key x = key' x) -> sortBy key l = sortBy key' l.
Proof.
  induction l as [ | x l IH]; intros H; [ reflexivity | ].
  cbn [sortBy]. rewrite IH by (intros y Hy; apply H; now right).
  apply insertBy_ext; [ apply H; now left | ].
  intros y Hy. apply H. right.
  apply Permutation_in with (sortBy key' l); [ | exact Hy ].
  symmetry. apply sortBy_perm.
Qed.

(** *** The groups that [collectGroups] builds *)

Lemma membersFrom_shift (i : nat) (k : string) (l : list Bundle) :
  membersFrom (S i) k l = map S (membersFrom i k l).
Proof.
  revert i. induction l as [ | b l IH]; intros i; [ reflexivity | ].
  cbn [membersFrom]. destruct (String.eqb (groupKey b) k); cbn [map]; now rewrite IH.
Qed.

Lemma In_membersFrom (k : string) (l : list Bundle) (j : nat) :
  In j (membersFrom 0 k l)
  <-> exists b, nth_error l j = Some b /\ String.eqb (groupKey b) k = true.
Proof.
  revert j. induction l as [ | b l IH]; intros j.
  - cbn. split; [ intros [] | intros [b [H _]]; now destruct j ].
  - cbn [membersFrom]. rewrite membersFrom_shift.
    destruct j as [ | j]; cbn [nth_error].
    + destruct (String.eqb (groupKey b) k) eqn:Hk.
      * split; [ intros _; now exists b | intros _; now left ].
      * split.
        -- intros H. apply in_map_iff in H. destruct H as [x [Hx _]]. discriminate.
        -- intros [b' [[= <-] Hb]]. congruence.
    + rewrite <- IH. destruct (String.eqb (groupKey b) k).
      * split.
        -- intros [H | H]; [ discriminate | ].
           apply in_map_iff in H. destruct H as [x [[= ->] Hx]]. exact Hx.
        -- intros H. right. now apply in_map.
      * split.
        -- intros H. apply in_map_iff in H. destruct H as [x [[= ->] Hx]]. exact Hx.
        -- intros H. now apply in_map.
Qed.

Lemma NoDup_membersFrom (k : string) (l : list Bundle) : NoDup (membersFrom 0 k l).
Proof.
  induction l as [ | b l IH]; [ constructor | ].
  cbn [membersFrom]. rewrite membersFrom_shift.
  assert (Hs : NoDup (map S (membersFrom 0 k l))).
  { apply Injective_map_NoDup; [ | exact IH ]. intros x y [= ->]. reflexivity. }
  destruct (String.eqb (groupKey b) k); [ | exact Hs ].
  constructor; [ | exact Hs ].
  intros H. apply in_map_iff in H. destruct H as [x [Hx _]]. discriminate.
Qed.

Lemma groupOf_pushToGroup (k key : string) (i : nat)
  (groups : list (string * list nat)) :
  groupOf k (pushToGroup key i groups)
  = if String.eqb key k then groupOf k groups ++ [i] else groupOf k groups.
Proof.
  unfold groupOf. induction groups as [ | [k0 m] rest IH]; cbn [pushToGroup find fst].
  - destruct (String.eqb key k); reflexivity.
  - destruct (String.eqb_spec k0 key) as [-> | Hne]; cbn [find fst snd].
    + destruct (String.eqb key k); reflexivity.
    + destruct (String.eqb_spec k0 k) as [-> | Hne'].
      * destruct (String.eqb_spec key k) as [-> | _]; [ congruence | reflexivity ].
      * exact IH.
Qed.

Lemma groupOf_collectGroups (k : string) (l : list Bundle) (i : nat)
  (groups : list (string * list nat)) :
  groupOf k (collectGroups i l groups) = groupOf k groups ++ membersFrom i k l.
Proof.
  revert i groups. induction l as [ | b l IH]; intros i groups; cbn [collectGroups membersFrom].
  - now rewrite app_nil_r.
  - rewrite IH, groupOf_pushToGroup.
    destruct (String.eqb (groupKey b) k); [ | reflexivity ].
    now rewrite <- app_assoc.
Qed.

Lemma keys_pushToGroup (key : string) (i : nat) (groups : list (string * list nat)) :
  map fst (pushToGroup key i groups)
  = if existsb (fun k0 => String.eqb k0 key) (map fst groups)
    then map fst groups else map fst groups ++ [key].
Proof.
  induction groups as [ | [k0 m] rest IH]; cbn [pushToGroup map fst existsb];
    [ reflexivity | ].
  destruct (String.eqb k0 key); cbn [orb map fst]; [ reflexivity | ].
  rewrite IH. destruct (existsb _ (map fst rest)); reflexivity.
Qed.

Lemma NoDup_keys_pushToGroup (key : string) (i : nat)
  (groups : list (string * list nat)) :
  NoDup (map fst groups) -> NoDup (map fst (pushToGroup key i groups)).
Proof.
  intros H. rewrite keys_pushToGroup.
  destruct (existsb _ (map fst groups)) eqn:Hex; [ exact H | ].
  apply NoDup_app; [ exact H | repeat constructor; intros [] | ].
  intros x Hx [Heq | []]. subst x.
  assert (Ht : existsb (fun k0 => String.eqb k0 key) (map fst groups) = true).
  { apply existsb_exists. exists key. split; [ exact Hx | apply String.eqb_refl ]. }
  congruence.
Qed.

Lemma NoDup_keys_collectGroups (l : list Bundle) (i : nat)
  (groups : list (string * list nat)) :
  NoDup (map fst groups) -> NoDup (map fst (collectGroups i l groups)).
Proof.
  revert i groups. induction l as [ | b l IH]; intros i groups H; [ exact H | ].
  cbn [collectGroups]. apply IH. now apply NoDup_keys_pushToGroup.
Qed.

Lemma groupOf_entry (k : string) (m : list nat) (groups : list (string * list nat)) :
  NoDup (map fst groups) -> In (k, m) groups -> groupOf k groups = m.
Proof.
  unfold groupOf. induction groups as [ | [k0 m0] rest IH]; intros Hnd Hin;
    [ destruct Hin | ].
  cbn [map fst] in Hnd. inversion Hnd as [ | x xs Hnotin Hnd' ]; subst.
  cbn [find fst]. destruct Hin as [[= -> ->] | Hin].
  - now rewrite String.eqb_refl.
  - destruct (String.eqb_spec k0 k) as [-> | _]; [ | now apply IH ].
    elim Hnotin. change k with (fst (k, m)). now apply in_map.
Qed.

Lemma groupOf_key (k : string) (groups : list (string * list nat)) :
  groupOf k groups <> [] -> In k (map fst groups).
Proof.
  unfold groupOf. destruct (find _ groups) as [g | ] eqn:Hf; [ | congruence ].
  intros _. apply find_some in Hf. destruct Hf as [Hin Hk].
  apply String.eqb_eq in Hk. subst k. now apply in_map.
Qed.

(** *** Renaming group after group *)

Lemma createdTime_renamed (bundles heap : list Bundle) (done : list string) (j : nat) :
  renamedUpTo bundles done heap -> createdTime heap j = createdTime bundles j.
Proof.
  intros [Hlen Hnth]. unfold createdTime.
  destruct (nth_error bundles j) as [b | ] eqn:Hb.
  - rewrite (Hnth _ _ Hb). now destruct (existsb _ done).
  - apply nth_error_None in Hb. rewrite <- Hlen in Hb.
    apply nth_error_None in Hb. now rewrite Hb.
Qed.

Lemma existsb_eqb_In (i : nat) (l : list nat) :
  existsb (Nat.eqb i) l = true <-> In i l.
Proof.
  rewrite existsb_exists. split.
  - intros [x [Hx Hi]]. apply Nat.eqb_eq in Hi. now subst.
  - intros H. exists i. split; [ exact H | apply Nat.eqb_refl ].
Qed.

Lemma renameGroup_step (bundles heap : list Bundle) (done : list string)
  (k : string) :
  renamedUpTo bundles done heap ->
  existsb (String.eqb k) done = false ->
  renamedUpTo bundles (done ++ [k]) (renameGroup heap (membersFrom 0 k bundles)).
Proof.
  intros Hinv Hk. pose proof Hinv as [Hlen Hnth].
  set (m := membersFrom 0 k bundles).
  assert (Hdone : forall b,
             existsb (String.eqb (groupKey b)) (done ++ [k])
             = (existsb (String.eqb (groupKey b)) done || String.eqb (groupKey b) k)%bool).
  { intros b. rewrite existsb_app. cbn [existsb]. now rewrite orb_false_r. }
  assert (Hfresh : forall b, String.eqb (groupKey b) k = true ->
                             existsb (String.eqb (groupKey b)) done = false).
  { intros b Hb. apply String.eqb_eq in Hb. now rewrite Hb. }
  unfold renameGroup. fold m.
  destruct (Nat.leb (List.length m) 1) eqn:Hsmall.
  - split; [ exact Hlen | ]. intros i b Hb. rewrite (Hnth _ _ Hb), Hdone.
    destruct (String.eqb (groupKey b) k) eqn:Hbk.
    + rewrite (Hfresh b Hbk). cbn [orb]. unfold nameByKey, memberName.
      apply String.eqb_eq in Hbk. rewrite Hbk. fold m. rewrite Hsmall.
      now rewrite withName_name.
    + now rewrite orb_false_r.
  - assert (Hsort : sortBy (createdTime heap) m = sortBy (createdTime bundles) m).
    { apply sortBy_ext. intros j _. now apply createdTime_renamed with done. }
    rewrite Hsort. set (sorted := sortBy (createdTime bundles) m).
    assert (Hnd : NoDup sorted).
    { apply Permutation_NoDup with m; [ apply sortBy_perm | apply NoDup_membersFrom ]. }
    split; [ now rewrite length_renameFrom | ].
    intros i b Hb. rewrite (nth_error_renameFrom sorted Hnd), Hdone.
    rewrite (Hnth _ _ Hb).
    destruct (String.eqb (groupKey b) k) eqn:Hbk.
    + assert (Hin : existsb (Nat.eqb i) sorted = true).
      { apply existsb_eqb_In.
        apply Permutation_in with m; [ apply sortBy_perm | ].
        apply In_membersFrom. now exists b. }
      rewrite Hin, (Hfresh b Hbk), orb_true_r. cbn [option_map].
      unfold nameByKey, memberName.
      apply String.eqb_eq in Hbk. rewrite Hbk. fold m. rewrite Hsmall.
      fold sorted. reflexivity.
    + assert (Hout : existsb (Nat.eqb i) sorted = false).
      { destruct (existsb (Nat.eqb i) sorted) eqn:Hex; [ | reflexivity ].
        apply existsb_eqb_In in Hex.
        apply Permutation_in with (l' := m) in Hex;
          [ | symmetry; apply sortBy_perm ].
        apply In_membersFrom in Hex. destruct Hex as [b' [Hb' Hk']].
        rewrite Hb in Hb'. injection Hb' as <-. congruence. }
      rewrite Hout. now rewrite orb_false_r.
Qed.

Lemma fold_renameGroup (bundles : list Bundle) (gs : list (string * list nat)) :
  forall (done : list string) (heap : list Bundle),
    renamedUpTo bundles done heap ->
    NoDup (map fst gs) ->
    (forall k, In k (map fst gs) -> existsb (String.eqb k) done = false) ->
    (forall g, In g gs -> snd g = membersFrom 0 (fst g) bundles) ->
    renamedUpTo bundles (done ++ map fst gs)
      (fold_left (fun h g => renameGroup h (snd g)) gs heap).
Proof.
  induction gs as [ | [k m] gs IH]; intros done heap Hinv Hnd Hfresh Hmem.
  - cbn. now rewrite app_nil_r.
  - cbn [fold_left map fst snd]. cbn [map fst] in Hnd.
    inversion Hnd as [ | x xs Hnotin Hnd' ]; subst.
    pose proof (Hmem (k, m) (or_introl eq_refl)) as Hm. cbn [fst snd] in Hm.
    subst m.
    replace (done ++ k :: map fst gs) with ((done ++ [k]) ++ map fst gs)
      by (now rewrite <- app_assoc).
    apply IH.
    + apply renameGroup_step; [ exact Hinv | ]. apply Hfresh. now left.
    + exact Hnd'.
    + intros k' Hk'. rewrite existsb_app. cbn [existsb].
      rewrite (Hfresh k' (or_intror Hk')). cbn [orb]. rewrite orb_false_r.
      destruct (String.eqb_spec k' k) as [-> | _]; [ contradiction | reflexivity ].
    + intros g Hg. apply Hmem. now right.
Qed.

Lemma display_names_by_key (bundles : list Bundle) (i : nat) (b : Bundle) :
  nth_error bundles i = Some b ->
  nth_error (applyBundleDisplayNames bundles) i
  = Some (withName b (nameByKey bundles i b)).
Proof.
  intros Hb. unfold applyBundleDisplayNames.
  set (groups := collectGroups 0 bundles []).
  assert (Hnd : NoDup (map fst groups))
    by (apply NoDup_keys_collectGroups; constructor).
  assert (Hgo : forall k, groupOf k groups = membersFrom 0 k bundles)
    by (intros k; unfold groups; now rewrite groupOf_collectGroups).
  assert (Hinv : renamedUpTo bundles ([] ++ map fst groups)
                   (fold_left (fun h g => renameGroup h (snd g)) groups bundles)).
  { apply fold_renameGroup.
    - split; [ reflexivity | ]. intros j c Hc. exact Hc.
    - exact Hnd.
    - reflexivity.
    - intros [k m] Hg. cbn [fst snd]. rewrite <- Hgo. symmetry.
      now apply groupOf_entry. }
  destruct Hinv as [_ Hnth]. rewrite (Hnth _ _ Hb). cbn [app].
  assert (Hkey : In (groupKey b) (map fst groups)).
  { apply groupOf_key. rewrite Hgo. intros Hnil.
    assert (Hin : In i (membersFrom 0 (groupKey b) bundles)).
    { apply In_membersFrom. exists b. split; [ exact Hb | apply String.eqb_refl ]. }
    rewrite Hnil in Hin. destruct Hin. }
  assert (Hex : existsb (String.eqb (groupKey b)) (map fst groups) = true).
  { apply existsb_exists. exists (groupKey b).
    split; [ exact Hkey | apply String.eqb_refl ]. }
  now rewrite Hex.
Qed.

(** *** Groups by key and sibling groups *)

Lemma nth_error_mapFrom {A B : Type} (f : nat -> A -> B) (l : list A) (i j : nat) :
  nth_error (mapFrom i f l) j = option_map (f (i + j)%nat) (nth_error l j).
Proof.
  revert i j. induction l as [ | x l IH]; intros i j.
  - now destruct j.
  - destruct j as [ | j]; cbn [mapFrom nth_error option_map].
    + now rewrite Nat.add_0_r.
    + rewrite IH. do 2 f_equal. lia.
Qed.

Lemma length_applyBundleDisplayNames (bundles : list Bundle) :
  List.length (applyBundleDisplayNames bundles) = List.length bundles.
Proof.
  unfold applyBundleDisplayNames.
  assert (Hnd : NoDup (map fst (collectGroups 0 bundles [])))
    by (apply NoDup_keys_collectGroups; constructor).
  assert (Hinv : renamedUpTo bundles ([] ++ map fst (collectGroups 0 bundles []))
                   (fold_left (fun h g => renameGroup h (snd g))
                      (collectGroups 0 bundles []) bundles)).
  { apply fold_renameGroup.
    - split; [ reflexivity | ]. intros j c Hc. exact Hc.
    - exact Hnd.
    - reflexivity.
    - intros [k m] Hg. cbn [fst snd].
      rewrite <- (groupOf_entry k m _ Hnd Hg).
      now rewrite groupOf_collectGroups. }
  exact (proj1 Hinv).
Qed.

Lemma membersFrom_siblings (n : Z) (l : list Bundle) (i : nat) :
  (forall b, In b l -> rawNumber b = None -> id b <> numberToString n) ->
  membersFrom i (numberToString n) l = siblingsFrom i n l.
Proof.
  revert i. induction l as [ | b l IH]; intros i H; [ reflexivity | ].
  cbn [membersFrom siblingsFrom]. unfold groupKey.
  rewrite IH by (intros c Hc; apply H; now right).
  destruct (rawNumber b) as [m | ] eqn:Hm.
  - destruct (Z.eqb_spec m n) as [-> | Hne].
    + now rewrite String.eqb_refl.
    + destruct (String.eqb_spec (numberToString m) (numberToString n)) as [He | _];
        [ | reflexivity ].
      elim Hne. now apply numberToString_inj.
  - destruct (String.eqb_spec (id b) (numberToString n)) as [He | _];
      [ | reflexivity ].
    elim (H b (or_introl eq_refl) Hm He).
Qed.

Lemma nameByKey_nameBySiblings (bundles : list Bundle) (i : nat) (b : Bundle) :
  unnumberedAlone bundles ->
  nth_error bundles i = Some b ->
  nameByKey bundles i b = nameBySiblings bundles i b.
Proof.
  intros Halone Hb. unfold nameByKey, nameBySiblings.
  destruct (rawNumber b) as [n | ] eqn:Hn.
  - assert (Hkey : groupKey b = numberToString n)
      by (unfold groupKey; now rewrite Hn).
    rewrite Hkey, membersFrom_siblings; [ reflexivity | ].
    intros c Hc Hcn Hid.
    apply In_nth_error in Hc. destruct Hc as [j Hj].
    pose proof (Halone j c Hj Hcn) as Hgroup.
    assert (Hi : In i (membersFrom 0 (groupKey c) bundles)).
    { apply In_membersFrom. exists b. split; [ exact Hb | ].
      rewrite Hkey. unfold groupKey. rewrite Hcn, Hid. apply String.eqb_refl. }
    rewrite Hgroup in Hi. destruct Hi as [<- | []]. congruence.
  - unfold memberName. now rewrite (Halone i b Hb Hn).
Qed.

(** Display names, whenever no bundle without a number shares its grouping
    key with another bundle: within each group sharing the same base number,
    a group of more than one member shows each member with its base name
    followed by " - i", where i is the 1-based position of the member in the
    group sorted by creation time (a stable sort, see [sortBy_perm] and
    [sortBy_sorted]); a group of one member, and a bundle without a number,
    keep their name.  Compare C8. *)
Theorem display_names_by_siblings (bundles : list Bundle) :
  unnumberedAlone bundles ->
  applyBundleDisplayNames bundles
  = mapFrom 0 (fun i b => withName b (nameBySiblings bundles i b)) bundles.
Proof.
  intros Halone. apply nth_error_ext. intros i.
  rewrite nth_error_mapFrom. cbn [Nat.add].
  destruct (nth_error bundles i) as [b | ] eqn:Hb; cbn [option_map].
  - rewrite (display_names_by_key _ _ _ Hb).
    now rewrite (nameByKey_nameBySiblings _ _ _ Halone Hb).
  - apply nth_error_None. rewrite length_applyBundleDisplayNames.
    now apply nth_error_None.
Qed.

Lemma display_names_by_siblings_witness :
  map name
    (applyBundleDisplayNames
       (map (mapBundle plainDateTime) (orElse (bultos orderOfThree) [])))
  = ["Bulto #7 - 2"; "Bulto #8"; "Bulto #7 - 1"; "Bulto #7 - 3"]%string.
Proof.
  rewrite display_names_by_siblings; [ reflexivity | ].
  intros i b Hb Hn.
  do 4 (destruct i as [ | i]; [ injection Hb as <-; discriminate Hn | ]).
  destruct i; discriminate Hb.
Defined.
End DisplayNames.

(** * Further properties of the code *)

(** ** The codec on stored numbers *)

(** X1. Whatever number is stored, [decodeBundleNumber] gives a base and a
    variant, and the variant lies between 1 and 999: a remainder 0 is read
    as variant 1.  A missing number decodes to no base and no variant. *)
Theorem decoded_variant_in_range (v : Z) :
  exists b x,
    decodeBundleNumber (Some v) = {| base := Some b; variant := Some x |}
    /\ 1 <= x <= 999
    /\ (v < 1000 -> b = v /\ x = 1)
    /\ (1000 <= v -> 1 <= b /\ b * 1000 <= v < (b + 1) * 1000).
Proof.
  unfold decodeBundleNumber, BUNDLE_SPLIT_NUMBER_FACTOR.
  destruct (Z.leb_spec 1000 v) as [Hge | Hlt].
  - pose proof (Z.mod_pos_bound v 1000 ltac:(lia)) as Hm.
    pose proof (Z.div_mod v 1000 ltac:(lia)) as Hd.
    exists (v / 1000), (if v mod 1000 =? 0 then 1 else v mod 1000).
    split; [ reflexivity | ].
    split; [ destruct (Z.eqb_spec (v mod 1000) 0); lia | ].
    split; [ lia | ]. intros _.
    assert (1 <= v / 1000) by (apply Z.div_le_lower_bound; lia).
    lia.
  - exists v, 1. split; [ reflexivity | ]. repeat split; lia.
Qed.

Lemma decoded_variant_in_range_witness :
  exists b x,
    decodeBundleNumber (Some 7000) = {| base := Some b; variant := Some x |}
    /\ 1 <= x <= 999
    /\ 1 <= b /\ b * 1000 <= 7000 < (b + 1) * 1000.
Proof.
  destruct (decoded_variant_in_range 7000) as [b [x [Hd [Hx [_ Hb]]]]].
  exists b, x. split; [ exact Hd | ]. split; [ exact Hx | ].
  apply Hb. lia.
Defined.

(** X2. Encoding what a stored number of at least 1000 decodes to gives the
    number back, except for a multiple of 1000, which comes back increased
    by one: [b * 1000] and [b * 1000 + 1] decode to the same pair (b, 1), and
    so does the plain number [b] when it is below 1000. *)
Theorem reencoded_number (v : Z) :
  1000 <= v ->
  (forall b x,
      decodeBundleNumber (Some v) = {| base := Some b; variant := Some x |} ->
      encodeBundleNumber b x = (if v mod 1000 =? 0 then v + 1 else v))
  /\ (forall b,
         1 <= b ->
         decodeBundleNumber (Some (b * 1000)) = {| base := Some b; variant := Some 1 |}
         /\ decodeBundleNumber (Some (b * 1000 + 1))
            = {| base := Some b; variant := Some 1 |}
         /\ (b < 1000 ->
             decodeBundleNumber (Some b) = {| base := Some b; variant := Some 1 |})).
Proof.
  intros Hv. split.
  - intros b x. unfold decodeBundleNumber, encodeBundleNumber,
      BUNDLE_SPLIT_NUMBER_FACTOR.
    destruct (Z.leb_spec 1000 v) as [_ | Hlt]; [ | lia ].
    intros [= <- <-].
    pose proof (Z.div_mod v 1000 ltac:(lia)) as Hd.
    destruct (Z.eqb_spec (v mod 1000) 0); lia.
  - intros b Hb. split; [ | split ].
    + unfold decodeBundleNumber, BUNDLE_SPLIT_NUMBER_FACTOR.
      destruct (Z.leb_spec 1000 (b * 1000)) as [_ | Hlt]; [ | lia ].
      rewrite Z.div_mul, Z.mod_mul by lia. reflexivity.
    + apply (decode_encoded b 1); lia.
    + intros Hlt. now apply decode_plain_number.
Qed.

Lemma reencoded_number_witness :
  encodeBundleNumber 7 1 = 7001
  /\ decodeBundleNumber (Some 7000) = decodeBundleNumber (Some 7001).
Proof.
  destruct (reencoded_number 7000 ltac:(lia)) as [Henc Hsame].
  split.
  - exact (Henc 7 1 eq_refl).
  - destruct (Hsame 7 ltac:(lia)) as [H0 [H1 _]].
    exact (eq_trans H0 (eq_sym H1)).
Defined.

(** ** Trimming and upper case *)

Lemma trimStart_head (s : string) :
  trimStart s = EmptyString
  \/ exists c t, trimStart s = String c t /\ is_space c = false.
Proof.
  induction s as [ | c s IH]; [ now left | ].
  cbn [trimStart]. destruct (is_space c) eqn:Hc; [ exact IH | ].
  right. now exists c, s.
Qed.

Lemma trimEnd_idem (s : string) : trimEnd (trimEnd s) = trimEnd s.
Proof.
  induction s as [ | c s IH]; [ reflexivity | ].
  cbn [trimEnd]. destruct (is_space c && isEmpty (trimEnd s))%bool eqn:Hc;
    [ reflexivity | ].
  cbn [trimEnd]. now rewrite IH, Hc.
Qed.

Lemma trimStart_trimEnd (c : ascii) (t : string) :
  is_space c = false ->
  trimStart (trimEnd (String c t)) = trimEnd (String c t).
Proof.
  intros Hc. cbn [trimEnd]. rewrite Hc. cbn [andb trimStart]. now rewrite Hc.
Qed.

Lemma trim_idem (s : string) : trim (trim s) = trim s.
Proof.
  unfold trim. destruct (trimStart_head s) as [-> | [c [t [-> Hc]]]];
    [ reflexivity | ].
  now rewrite trimStart_trimEnd, trimEnd_idem.
Qed.

Lemma is_space_upper (c : ascii) : is_space (upper_char c) = is_space c.
Proof.
  destruct c as [[ | ] [ | ] [ | ] [ | ] [ | ] [ | ] [ | ] [ | ]]; reflexivity.
Qed.

Lemma upper_char_idem (c : ascii) : upper_char (upper_char c) = upper_char c.
Proof.
  destruct c as [[ | ] [ | ] [ | ] [ | ] [ | ] [ | ] [ | ] [ | ]]; reflexivity.
Qed.

Lemma toUpperCase_idem (s : string) : toUpperCase (toUpperCase s) = toUpperCase s.
Proof.
  induction s as [ | c s IH]; [ reflexivity | ].
  cbn [toUpperCase]. now rewrite upper_char_idem, IH.
Qed.

Lemma isEmpty_toUpperCase (s : string) : isEmpty (toUpperCase s) = isEmpty s.
Proof. now destruct s. Qed.

Lemma toUpperCase_trimStart (s : string) :
  toUpperCase (trimStart s) = trimStart (toUpperCase s).
Proof.
  induction s as [ | c s IH]; [ reflexivity | ].
  cbn [trimStart toUpperCase]. rewrite is_space_upper.
  destruct (is_space c); [ exact IH | reflexivity ].
Qed.

Lemma toUpperCase_trimEnd (s : string) :
  toUpperCase (trimEnd s) = trimEnd (toUpperCase s).
Proof.
  induction s as [ | c s IH]; [ reflexivity | ].
  cbn [trimEnd toUpperCase]. rewrite is_space_upper, <- IH, isEmpty_toUpperCase.
  destruct (is_space c && isEmpty (trimEnd s))%bool; reflexivity.
Qed.

Lemma toUpperCase_trim (s : string) : toUpperCase (trim s) = trim (toUpperCase s).
Proof.
  unfold trim. now rewrite toUpperCase_trimEnd, toUpperCase_trimStart.
Qed.

Lemma isEmpty_not_listed (c : string) :
  isEmpty c = true -> isValidLocationCode c = false.
Proof. destruct c; [ reflexivity | discriminate ]. Qed.

Lemma trim_empty_of_empty (v : string) : isEmpty v = true -> trim v = EmptyString.
Proof. destruct v; [ reflexivity | discriminate ]. Qed.

(** [normalizeLocationCode] without its two tests for the empty string, which
    the test of the list subsumes. *)
Lemma normalizeLocationCode_listed (v : string) :
  normalizeLocationCode (Some v)
  = if isValidLocationCode (toUpperCase (trim v))
    then Some (toUpperCase (trim v)) else None.
Proof.
  unfold normalizeLocationCode.
  destruct (isEmpty v) eqn:Hv.
  - rewrite (trim_empty_of_empty v Hv). reflexivity.
  - destruct (isEmpty (toUpperCase (trim v))) eqn:He; [ | reflexivity ].
    now rewrite (isEmpty_not_listed _ He).
Qed.

(** ** Normalising a location code *)

(** X3. [normalizeLocationCode] answers nothing or one of the ten listed
    codes, namely the destination trimmed and in upper case; its answer does
    not depend on the case of the destination nor on the blanks around it,
    and a code it answers normalises to itself. *)
Theorem normalizeLocationCode_stable (v : string) :
  (forall c, normalizeLocationCode (Some v) = Some c ->
             In c LOCATION_CODES /\ c = toUpperCase (trim v)
             /\ normalizeLocationCode (Some c) = Some c)
  /\ normalizeLocationCode (Some (toUpperCase v)) = normalizeLocationCode (Some v)
  /\ normalizeLocationCode (Some (trim v)) = normalizeLocationCode (Some v)
  /\ normalizeLocationCode None = None
  /\ normalizeLocationCode (Some EmptyString) = None.
Proof.
  split; [ | split; [ | split; [ | split; reflexivity ] ] ].
  - intros c Hc. pose proof Hc as Hc'.
    apply normalizeLocationCode_Some in Hc'.
    destruct Hc' as [v' [[= <-] [Heq Hin]]].
    split; [ exact Hin | split; [ exact Heq | ] ].
    rewrite normalizeLocationCode_listed.
    assert (Hfix : toUpperCase (trim c) = c).
    { subst c.
      rewrite (toUpperCase_trim (toUpperCase (trim v))), toUpperCase_idem.
      now rewrite <- (toUpperCase_trim (trim v)), trim_idem. }
    rewrite Hfix. apply isValidLocationCode_In in Hin. now rewrite Hin.
  - rewrite !normalizeLocationCode_listed.
    now rewrite <- toUpperCase_trim, toUpperCase_idem.
  - rewrite !normalizeLocationCode_listed. now rewrite trim_idem.
Qed.

Lemma normalizeLocationCode_stable_witness :
  In "C10"%string LOCATION_CODES
  /\ "C10"%string = toUpperCase (trim "  c10 ")
  /\ normalizeLocationCode (Some "C10"%string) = Some "C10"%string.
Proof.
  exact (proj1 (normalizeLocationCode_stable "  c10 ") "C10"%string eq_refl).
Defined.

(** ** ensureLocationMap, run *)

Lemma selectUbicacionesIn_run (codes : list string) (w : World) :
  selectUbicacionesIn codes w
  = (Ok (if served w
         then Some (filter
                      (fun l =>
                         match codigo l with
                         | Some c => existsb (String.eqb c) codes
                         | None => false
                         end)
                      (ubicaciones (store w)))
         else None),
     after w).
Proof.
  unfold selectUbicacionesIn, bind, getStore.
  rewrite request_run. simpl. destruct (served w); reflexivity.
Qed.

Lemma insertUbicaciones_run (codes : list string) (w : World) :
  insertUbicaciones codes w
  = (Ok (if served w then Some (freshLocations (next_id (store w)) codes) else None),
     if served w then withStore (withLocations codes (store w)) (after w)
     else after w).
Proof.
  unfold insertUbicaciones, bind, getStore, putStore.
  rewrite request_run. simpl. destruct (served w); reflexivity.
Qed.

Lemma ensureLocationMap_run (c0 : string) (cs : list string) (w : World) :
  ensureLocationMap (c0 :: cs) w
  = if served w then
      match missingCodes (c0 :: cs) (store w) with
      | [] => (Ok (knownMap (c0 :: cs) (store w)), after w)
      | m :: ms =>
          if served (after w) then
            (Ok (recordLocations (freshLocations (next_id (store w)) (m :: ms))
                   (knownMap (c0 :: cs) (store w))),
             withStore (withLocations (m :: ms) (store w)) (after (after w)))
          else (Throw ErrCrearUbicaciones, after (after w))
      end
    else (Throw ErrLeerUbicaciones, after w).
Proof.
  unfold ensureLocationMap. cbv zeta.
  unfold bind at 1. rewrite selectUbicacionesIn_run.
  destruct (served w); [ | reflexivity ].
  fold (existingLocations (c0 :: cs) (store w)).
  fold (knownMap (c0 :: cs) (store w)).
  fold (missingCodes (c0 :: cs) (store w)).
  destruct (missingCodes (c0 :: cs) (store w)) as [ | m ms] eqn:Hm; [ reflexivity | ].
  unfold bind at 1. rewrite insertUbicaciones_run.
  destruct (served (after w)); reflexivity.
Qed.

(** ** Maps of locations *)

Lemma In_uniqueFrom {A : Type} (eqb : A -> A -> bool)
  (Heqb : forall x y, eqb x y = true <-> x = y) (seen l : list A) (x : A) :
  In x (uniqueFrom eqb seen l) <-> In x l /\ ~ In x seen.
Proof.
  revert seen. induction l as [ | y l IH]; intros seen; cbn [uniqueFrom].
  - cbn. tauto.
  - destruct (existsb (eqb y) seen) eqn:Hy.
    + apply existsb_exists in Hy. destruct Hy as [z [Hz Hyz]].
      apply Heqb in Hyz. subst z. rewrite IH. cbn [In]. split.
      * intros [H1 H2]. tauto.
      * intros [[Heq | H1] H2]; [ subst y; contradiction | tauto ].
    + assert (Hny : ~ In y seen).
      { intros Hin. assert (existsb (eqb y) seen = true); [ | congruence ].
        apply existsb_exists. exists y. split; [ exact Hin | now apply Heqb ]. }
      cbn [In]. rewrite IH. cbn [In]. split.
      * intros [Heq | [H1 H2]]; [ subst y; tauto | tauto ].
      * intros [Hor H2]. destruct (eqb y x) eqn:E.
        -- left. now apply Heqb.
        -- right. destruct Hor as [Heq | H1].
           ++ apply Heqb in Heq. congruence.
           ++ split; [ exact H1 | ]. intros [Heq | H3]; [ | contradiction ].
              apply Heqb in Heq. congruence.
Qed.

Lemma NoDup_uniqueFrom {A : Type} (eqb : A -> A -> bool)
  (Heqb : forall x y, eqb x y = true <-> x = y) (seen l : list A) :
  NoDup (uniqueFrom eqb seen l).
Proof.
  revert seen. induction l as [ | y l IH]; intros seen; cbn [uniqueFrom];
    [ constructor | ].
  destruct (existsb (eqb y) seen); [ apply IH | ].
  constructor; [ | apply IH ].
  intros Hin. apply (In_uniqueFrom eqb Heqb) in Hin.
  destruct Hin as [_ Hn]. apply Hn. now left.
Qed.

Lemma In_unique_codes (codes : list string) (c : string) :
  In c (unique String.eqb codes) <-> In c codes.
Proof.
  unfold unique. rewrite (In_uniqueFrom String.eqb String.eqb_eq). cbn. tauto.
Qed.

Lemma mapGet_mapSet_other (k key : string) (value : Id) (m : LocationMap) :
  k <> key -> mapGet k (mapSet key value m) = mapGet k m.
Proof.
  intros Hne. unfold mapGet. induction m as [ | [k0 v0] m IH]; cbn [mapSet find fst].
  - destruct (String.eqb_spec key k); [ congruence | reflexivity ].
  - destruct (String.eqb_spec k0 key) as [-> | Hk]; cbn [find fst].
    + destruct (String.eqb_spec key k); [ congruence | reflexivity ].
    + destruct (String.eqb k0 k); [ reflexivity | exact IH ].
Qed.

Lemma recordLocations_cons (row : UbicacionRow) (rows : list UbicacionRow)
  (m : LocationMap) :
  recordLocations (row :: rows) m
  = recordLocations rows
      (match codigo row with
       | Some c => if isEmpty c then m else mapSet c (ubicacion_row_id row) m
       | None => m
       end).
Proof. reflexivity. Qed.

(** Every binding of the recorded map comes from the map it started from or
    from one of the rows. *)
Lemma recordLocations_bound (P : string -> Id -> Prop) (rows : list UbicacionRow) :
  forall m,
    (forall c id, mapGet c m = Some id -> P c id) ->
    (forall row c, In row rows -> codigo row = Some c -> P c (ubicacion_row_id row)) ->
    forall c id, mapGet c (recordLocations rows m) = Some id -> P c id.
Proof.
  induction rows as [ | row rows IH]; intros m Hm Hrows c id; [ apply Hm | ].
  rewrite recordLocations_cons. apply IH.
  - destruct (codigo row) as [c0 | ] eqn:Hc0; [ | exact Hm ].
    destruct (isEmpty c0); [ exact Hm | ].
    intros c' id'. destruct (String.eqb_spec c' c0) as [-> | Hne].
    + rewrite mapGet_mapSet. intros [= <-]. apply (Hrows row); [ now left | exact Hc0 ].
    + rewrite mapGet_mapSet_other by exact Hne. apply Hm.
  - intros r c' Hr. apply Hrows. now right.
Qed.

Lemma recordLocations_keeps (rows : list UbicacionRow) :
  forall m c, isSome (mapGet c m) = true ->
              isSome (mapGet c (recordLocations rows m)) = true.
Proof.
  induction rows as [ | row rows IH]; intros m c Hc; [ exact Hc | ].
  rewrite recordLocations_cons. apply IH.
  destruct (codigo row) as [c0 | ]; [ | exact Hc ].
  destruct (isEmpty c0); [ exact Hc | ].
  destruct (String.eqb_spec c c0) as [-> | Hne].
  - now rewrite mapGet_mapSet.
  - now rewrite mapGet_mapSet_other.
Qed.

Lemma recordLocations_records (rows : list UbicacionRow) :
  forall m row c,
    In row rows -> codigo row = Some c -> isEmpty c = false ->
    isSome (mapGet c (recordLocations rows m)) = true.
Proof.
  induction rows as [ | r rows IH]; intros m row c Hin Hc He; [ destruct Hin | ].
  rewrite recordLocations_cons. destruct Hin as [-> | Hin].
  - apply recordLocations_keeps. rewrite Hc, He. now rewrite mapGet_mapSet.
  - now apply IH with row.
Qed.

Lemma In_freshLocations (codes : list string) (next : Id) (row : UbicacionRow) :
  In row (freshLocations next codes) ->
  exists c, codigo row = Some c /\ In c codes.
Proof.
  revert next. induction codes as [ | c codes IH]; intros next; [ intros [] | ].
  cbn [freshLocations]. intros [<- | Hin].
  - exists c. split; [ reflexivity | now left ].
  - destruct (IH _ Hin) as [c' [Hc Hin']]. exists c'. split; [ exact Hc | now right ].
Qed.

Lemma codes_of_freshLocations (codes : list string) (next : Id) :
  map codigo (freshLocations next codes) = map Some codes.
Proof.
  revert next. induction codes as [ | c codes IH]; intros next; [ reflexivity | ].
  cbn [freshLocations map codigo]. now rewrite IH.
Qed.

Lemma fresh_location_of_code (codes : list string) (next : Id) (c : string) :
  In c codes ->
  exists row, In row (freshLocations next codes) /\ codigo row = Some c.
Proof.
  revert next. induction codes as [ | c0 codes IH]; intros next; [ intros [] | ].
  cbn [freshLocations]. intros [-> | Hin].
  - eexists. split; [ now left | reflexivity ].
  - destruct (IH (S next) Hin) as [row [Hr Hc]]. exists row. split; [ now right | exact Hc ].
Qed.

(** A non-empty code that a location carries is known, not missing. *)
Lemma known_if_present (codes : list string) (s : Store) (c : string) :
  In c codes -> isEmpty c = false -> hasLocation c s ->
  isSome (mapGet c (knownMap codes s)) = true.
Proof.
  intros Hin He [row [Hrow Hc]]. unfold knownMap.
  apply recordLocations_records with row; [ | exact Hc | exact He ].
  unfold existingLocations. apply filter_In. split; [ exact Hrow | ].
  rewrite Hc. apply existsb_exists. exists c.
  split; [ now apply In_unique_codes | apply String.eqb_refl ].
Qed.

Lemma knownMap_bound (codes : list string) (s : Store) (c : string) (id : Id) :
  mapGet c (knownMap codes s) = Some id ->
  exists row, In row (ubicaciones s) /\ codigo row = Some c /\ ubicacion_row_id row = id.
Proof.
  unfold knownMap.
  apply (recordLocations_bound
           (fun c id => exists row, In row (ubicaciones s) /\ codigo row = Some c
                                    /\ ubicacion_row_id row = id)).
  - intros c' id' H. discriminate H.
  - intros row c' Hin Hc. exists row. unfold existingLocations in Hin.
    apply filter_In in Hin. now repeat split.
Qed.

Lemma In_missingCodes (codes : list string) (s : Store) (c : string) :
  In c (missingCodes codes s)
  <-> In c codes /\ isSome (mapGet c (knownMap codes s)) = false.
Proof.
  unfold missingCodes, mapHas. rewrite filter_In, In_unique_codes.
  destruct (mapGet c (knownMap codes s)); cbn; intuition congruence.
Qed.

(** ** ensureLocationMap: get or create *)

Lemma ensureLocationMap_cases (codes : list string) (w w' : World)
  (r : Result LocationMap) :
  ensureLocationMap codes w = (r, w') ->
  (codes = [] /\ r = Ok [] /\ w' = w)
  \/ (codes <> [] /\ r = Throw ErrLeerUbicaciones /\ store w' = store w)
  \/ (codes <> [] /\ missingCodes codes (store w) = []
      /\ r = Ok (knownMap codes (store w)) /\ store w' = store w)
  \/ (codes <> [] /\ missingCodes codes (store w) <> []
      /\ r = Throw ErrCrearUbicaciones /\ store w' = store w)
  \/ (codes <> [] /\ missingCodes codes (store w) <> []
      /\ r = Ok (recordLocations
                   (freshLocations (next_id (store w)) (missingCodes codes (store w)))
                   (knownMap codes (store w)))
      /\ store w' = withLocations (missingCodes codes (store w)) (store w)).
Proof.
  destruct codes as [ | c0 cs].
  - intros [= <- <-]. left. now repeat split.
  - rewrite ensureLocationMap_run. intros E. right.
    assert (Hne : c0 :: cs <> []) by discriminate.
    destruct (served w).
    2:{ injection E as <- <-. left. now repeat split. }
    destruct (missingCodes (c0 :: cs) (store w)) as [ | m ms] eqn:Hm.
    { injection E as <- <-. right. left. now repeat split. }
    destruct (served (after w)); injection E as <- <-.
    + right. right. right. repeat split; try assumption; discriminate.
    + right. right. left. repeat split; try assumption; discriminate.
Qed.

Lemma ensureLocationMap_bound (codes : list string) (w w' : World)
  (m : LocationMap) :
  ensureLocationMap codes w = (Ok m, w') ->
  (forall c, In c codes -> isEmpty c = false -> bindsLocation m c (store w'))
  /\ (forall c id,
         mapGet c m = Some id ->
         exists row,
           In row (ubicaciones (store w'))
           /\ codigo row = Some c /\ ubicacion_row_id row = id)
  /\ bultos (store w') = bultos (store w)
  /\ historial_bultos (store w') = historial_bultos (store w)
  /\ ordenes_corte (store w') = ordenes_corte (store w).
Proof.
  intros E.
  assert (Hgoal :
    (forall c, In c codes -> isEmpty c = false -> isSome (mapGet c m) = true)
    /\ (forall c id,
           mapGet c m = Some id ->
           exists row,
             In row (ubicaciones (store w'))
             /\ codigo row = Some c /\ ubicacion_row_id row = id)
    /\ bultos (store w') = bultos (store w)
    /\ historial_bultos (store w') = historial_bultos (store w)
    /\ ordenes_corte (store w') = ordenes_corte (store w)).
  { destruct (ensureLocationMap_cases _ _ _ _ E)
      as [[-> [Hr ->]] | [[_ [Hr _]] | [[_ [Hm [Hr Hs]]] | [[_ [_ [Hr _]]] | [_ [Hm [Hr Hs]]]]]]];
      try discriminate Hr.
    - injection Hr as ->. split; [ intros c [] | ].
      split; [ intros c id H; discriminate H | now repeat split ].
    - injection Hr as ->. rewrite Hs. split; [ | split; [ | now repeat split ] ].
      + intros c Hin He.
        destruct (isSome (mapGet c (knownMap codes (store w)))) eqn:Hk;
          [ reflexivity | ].
        assert (Hmiss : In c (missingCodes codes (store w)))
          by (apply In_missingCodes; now split).
        rewrite Hm in Hmiss. destruct Hmiss.
      + apply knownMap_bound.
    - injection Hr as ->. rewrite Hs. split; [ | split; [ | now repeat split ] ].
      + intros c Hin He.
        destruct (isSome (mapGet c (knownMap codes (store w)))) eqn:Hk.
        * now apply recordLocations_keeps.
        * assert (Hmiss : In c (missingCodes codes (store w)))
            by (apply In_missingCodes; now split).
          destruct (fresh_location_of_code _ (next_id (store w)) _ Hmiss)
            as [row [Hrow Hc]].
          now apply recordLocations_records with row.
      + apply (recordLocations_bound
                 (fun c id =>
                    exists row,
                      In row (ubicaciones
                                (withLocations (missingCodes codes (store w)) (store w)))
                      /\ codigo row = Some c /\ ubicacion_row_id row = id)).
        * intros c id H. destruct (knownMap_bound _ _ _ _ H) as [row [Hin [Hc Hid]]].
          exists row. cbn [withLocations ubicaciones].
          split; [ apply in_or_app; now left | now split ].
        * intros row c Hin Hc. exists row. cbn [withLocations ubicaciones].
          split; [ apply in_or_app; now right | now split ]. }
  destruct Hgoal as [Hall [Hbound Hframe]].
  split; [ | split; [ exact Hbound | exact Hframe ] ].
  intros c Hin He. specialize (Hall c Hin He).
  destruct (mapGet c m) as [id | ] eqn:Hg; [ | discriminate Hall ].
  destruct (Hbound c id Hg) as [row [Hrow [Hc Hid]]].
  exists row. rewrite Hg, Hid. now repeat split.
Qed.

(** X4. When [ensureLocationMap] returns, its map binds every non-empty code
    it was asked for to the key of a location of the table that carries that
    code, every binding of the map is the key and the code of a location of
    the table, and the tables of bundles, history and orders are as they
    were. *)
Theorem ensureLocationMap_binds (codes : list string) (w w' : World)
  (m : LocationMap) :
  ensureLocationMap codes w = (Ok m, w') ->
  (forall c, In c codes -> isEmpty c = false -> bindsLocation m c (store w'))
  /\ (forall c id,
         mapGet c m = Some id ->
         exists row,
           In row (ubicaciones (store w'))
           /\ codigo row = Some c /\ ubicacion_row_id row = id)
  /\ bultos (store w') = bultos (store w)
  /\ historial_bultos (store w') = historial_bultos (store w)
  /\ ordenes_corte (store w') = ordenes_corte (store w).
Proof. exact (ensureLocationMap_bound codes w w' m). Qed.

Lemma ensureLocationMap_binds_witness :
  bindsLocation
    (match fst (ensureLocationMap ["C2"; "C1"; "C2"]%string
                  {| store := store1001; faults := [] |}) with
     | Ok m => m
     | Throw _ => []
     end)
    "C2"%string
    (store (snd (ensureLocationMap ["C2"; "C1"; "C2"]%string
                   {| store := store1001; faults := [] |}))).
Proof.
  destruct (ensureLocationMap ["C2"; "C1"; "C2"]%string
              {| store := store1001; faults := [] |}) as [r w'] eqn:E.
  assert (Hr : exists m, r = Ok m).
  { revert E. vm_compute. intros [= <- _]. eexists. reflexivity. }
  destruct Hr as [m ->]. cbn [fst snd].
  apply (proj1 (ensureLocationMap_binds _ _ _ _ E)); [ | reflexivity ].
  left. reflexivity.
Defined.

Lemma NoDup_missingCodes (codes : list string) (s : Store) :
  NoDup (missingCodes codes s).
Proof.
  unfold missingCodes. apply NoDup_filter.
  apply (NoDup_uniqueFrom String.eqb String.eqb_eq).
Qed.

Lemma nothing_missing_if_present (codes : list string) (s : Store) :
  (forall c, In c codes -> isEmpty c = false /\ hasLocation c s) ->
  missingCodes codes s = [].
Proof.
  intros Hall. destruct (missingCodes codes s) as [ | c l] eqn:Hm; [ reflexivity | ].
  assert (Hin : In c (missingCodes codes s)) by (rewrite Hm; now left).
  apply In_missingCodes in Hin. destruct Hin as [Hin Hno].
  destruct (Hall c Hin) as [He Hhas].
  rewrite (known_if_present codes s c Hin He Hhas) in Hno. discriminate.
Qed.

Lemma ensureLocationMap_effect (codes : list string) (w w' : World)
  (r : Result LocationMap) :
  ensureLocationMap codes w = (r, w') ->
  (codes = [] -> r = Ok [] /\ w' = w)
  /\ (forall e, r = Throw e ->
                (e = ErrLeerUbicaciones \/ e = ErrCrearUbicaciones)
                /\ store w' = store w)
  /\ (exists created,
         ubicaciones (store w') = ubicaciones (store w) ++ created
         /\ NoDup (map codigo created)
         /\ forall row,
             In row created ->
             exists c,
               codigo row = Some c /\ In c codes
               /\ (isEmpty c = false -> ~ hasLocation c (store w)))
  /\ ((forall c, In c codes -> isEmpty c = false /\ hasLocation c (store w)) ->
      store w' = store w).
Proof.
  intros E.
  destruct (ensureLocationMap_cases _ _ _ _ E)
    as [[Hc [Hr Hw]] | [[Hc [Hr Hs]] | [[Hc [Hm [Hr Hs]]] | [[Hc [Hm [Hr Hs]]] | [Hc [Hm [Hr Hs]]]]]]].
  - subst. split; [ now split | ]. split; [ discriminate | ].
    split; [ | reflexivity ].
    exists []. rewrite app_nil_r. split; [ reflexivity | ].
    split; [ constructor | intros row [] ].
  - subst r. split; [ congruence | ].
    split; [ intros e [= <-]; split; [ now left | exact Hs ] | ].
    split; [ | intros _; exact Hs ].
    exists []. rewrite app_nil_r, Hs. split; [ reflexivity | ].
    split; [ constructor | intros row [] ].
  - subst r. split; [ congruence | ]. split; [ discriminate | ].
    split; [ | intros _; exact Hs ].
    exists []. rewrite app_nil_r, Hs. split; [ reflexivity | ].
    split; [ constructor | intros row [] ].
  - subst r. split; [ congruence | ].
    split; [ intros e [= <-]; split; [ now right | exact Hs ] | ].
    split; [ | intros _; exact Hs ].
    exists []. rewrite app_nil_r, Hs. split; [ reflexivity | ].
    split; [ constructor | intros row [] ].
  - subst r. split; [ congruence | ]. split; [ discriminate | ].
    split.
    + exists (freshLocations (next_id (store w)) (missingCodes codes (store w))).
      rewrite Hs. split; [ reflexivity | ]. split.
      * rewrite codes_of_freshLocations.
        apply Injective_map_NoDup; [ | apply NoDup_missingCodes ].
        intros x y [= ->]. reflexivity.
      * intros row Hrow. destruct (In_freshLocations _ _ _ Hrow) as [c [Hcode Hin]].
        exists c. apply In_missingCodes in Hin. destruct Hin as [Hin Hno].
        split; [ exact Hcode | split; [ exact Hin | ] ].
        intros He Hhas.
        rewrite (known_if_present codes (store w) c Hin He Hhas) in Hno.
        discriminate.
    + intros Hall. elim Hm. now apply nothing_missing_if_present.
Qed.

(** X5. [ensureLocationMap] makes no request for an empty list of codes.
    When it throws, the store is as it was.  All it ever writes is new
    locations appended to the table, one for each distinct code it was asked
    for, a non-empty code only if no location carried it: when every code is
    non-empty and already carried by a location, the store is left as it
    is. *)
Theorem ensureLocationMap_writes (codes : list string) (w w' : World)
  (r : Result LocationMap) :
  ensureLocationMap codes w = (r, w') ->
  (codes = [] -> r = Ok [] /\ w' = w)
  /\ (forall e, r = Throw e ->
                (e = ErrLeerUbicaciones \/ e = ErrCrearUbicaciones)
                /\ store w' = store w)
  /\ (exists created,
         ubicaciones (store w') = ubicaciones (store w) ++ created
         /\ NoDup (map codigo created)
         /\ forall row,
             In row created ->
             exists c,
               codigo row = Some c /\ In c codes
               /\ (isEmpty c = false -> ~ hasLocation c (store w)))
  /\ ((forall c, In c codes -> isEmpty c = false /\ hasLocation c (store w)) ->
      store w' = store w).
Proof. exact (ensureLocationMap_effect codes w w' r). Qed.

Lemma ensureLocationMap_writes_witness :
  store (snd (ensureLocationMap ["C1"]%string
                {| store := store1001; faults := [] |}))
  = store1001.
Proof.
  destruct (ensureLocationMap ["C1"]%string
              {| store := store1001; faults := [] |}) as [r w'] eqn:E.
  cbn [snd].
  apply (proj2 (proj2 (proj2 (ensureLocationMap_writes _ _ _ _ E)))).
  intros c [<- | []]. split; [ reflexivity | ].
  exists ubicacionC1. split; [ now left | reflexivity ].
Defined.

(** ** applyBundleAction, run *)

Lemma applyBundleAction_parts (now : Z) (inp : ApplyBundleActionInput) :
  applyBundleAction now inp
  = match bundleIds inp with
    | [] => throw ErrSinBultos
    | _ :: _ =>
        validateUse inp ;;;
        locationId <- resolveDestination inp ;;
        applyWrites now inp locationId
    end.
Proof. reflexivity. Qed.

Lemma validateUse_run (inp : ApplyBundleActionInput) (w : World) :
  validateUse inp w
  = if action_eqb (action inp) utilizar then
      if served w then
        if allAssigned (bundleIds inp) (store w) then (Ok tt, after w)
        else (Throw ErrNoAsignados, after w)
      else (Throw ErrValidarBultos, after w)
    else (Ok tt, w).
Proof.
  unfold validateUse. destruct (action_eqb (action inp) utilizar); [ | reflexivity ].
  unfold bind. rewrite selectBultosIn_run.
  destruct (served w); [ | reflexivity ].
  unfold allAssigned, targeted. rewrite <- filter_negb_nil.
  destruct (filter (fun bundle => negb _) _); reflexivity.
Qed.

Lemma applyWrites_run (now : Z) (inp : ApplyBundleActionInput) (loc : option Id)
  (w : World) :
  applyWrites now inp loc w
  = if (action_eqb (action inp) asignar && negb (isSome (workOrderOf inp)))%bool
    then (Throw ErrOrdenTrabajo, w)
    else if needsUpdate inp loc then
      if served w then
        if served (after w) then
          checkAndUpdateOrderStatus (bundleIds inp)
            (withStore
               (appendHistorial (historyOf now inp loc) (updatedStore inp loc (store w)))
               (after (after w)))
        else (Throw ErrHistorial,
              withStore (updatedStore inp loc (store w)) (after (after w)))
      else (Throw ErrActualizarBultos, after w)
    else
      if served w then
        checkAndUpdateOrderStatus (bundleIds inp)
          (withStore
             (appendHistorial (historyOf now inp loc) (updatedStore inp loc (store w)))
             (after w))
      else (Throw ErrHistorial, withStore (updatedStore inp loc (store w)) (after w)).
Proof.
  unfold applyWrites, updatedStore.
  destruct (action_eqb (action inp) asignar && negb (isSome (workOrderOf inp)))%bool;
    [ reflexivity | ].
  destruct (needsUpdate inp loc).
  - unfold bind at 1. unfold bind at 1. rewrite updateBultos_run.
    destruct (served w); [ | reflexivity ].
    cbn [negb]. unfold ret at 1.
    unfold bind at 1. rewrite insertHistorial_run, served_withStore.
    destruct (served (after w)); reflexivity.
  - unfold bind at 1. unfold ret at 1.
    unfold bind at 1. rewrite insertHistorial_run.
    destruct (served w); reflexivity.
Qed.

Lemma action_eqb_eq (a b : BundleActionEnum) : action_eqb a b = true <-> a = b.
Proof. destruct a, b; cbn; split; congruence. Qed.

Lemma aggregator_effect (ids : list Id) (w : World) :
  fst (checkAndUpdateOrderStatus ids w) = Ok tt
  /\ bultos (store (snd (checkAndUpdateOrderStatus ids w))) = bultos (store w)
  /\ historial_bultos (store (snd (checkAndUpdateOrderStatus ids w)))
     = historial_bultos (store w)
  /\ ubicaciones (store (snd (checkAndUpdateOrderStatus ids w))) = ubicaciones (store w)
  /\ ordersClearedOnlyIf (fun o => allBundlesUsed ids o (store w))
       (store w) (store (snd (checkAndUpdateOrderStatus ids w))).
Proof.
  rewrite checkAndUpdateOrderStatus_run. cbn [fst snd].
  split; [ reflexivity | ].
  destruct (served w).
  - destruct (fold_checkOrderWorld_bultos (examined ids (store w)) (after w))
      as [Hb [Hh Hu]].
    split; [ exact Hb | split; [ exact Hh | split; [ exact Hu | ] ] ].
    apply clearedOnlyIf_weaken
      with (P := fun x => (mem x (examined ids (store w))
                           && settled x (store (after w)))%bool).
    + intros o Ho. rewrite store_after, mem_examined, touched_settled in Ho.
      exact Ho.
    + apply (fold_checkOrderWorld_cleared (examined ids (store w)) (after w)).
  - repeat split. apply clearedOnlyIf_refl.
Qed.

Lemma listed_code_of_normalize (dest : option string) (nd : string) :
  normalizeLocationCode dest = Some nd -> isEmpty nd = false.
Proof.
  intros H. apply normalizeLocationCode_Some in H.
  destruct H as [v [_ [_ Hin]]]. now apply listed_code_not_empty.
Qed.

Lemma resolveDestination_outcome (inp : ApplyBundleActionInput) (w w2 : World)
  (r : Result (option Id)) :
  resolveDestination inp w = (r, w2) ->
  bultos (store w2) = bultos (store w)
  /\ historial_bultos (store w2) = historial_bultos (store w)
  /\ ordenes_corte (store w2) = ordenes_corte (store w)
  /\ (exists created, ubicaciones (store w2) = ubicaciones (store w) ++ created)
  /\ (action inp <> mover -> w2 = w /\ r = Ok None)
  /\ match r with
     | Throw e => e <> ErrHistorial
     | Ok None => action inp <> mover
     | Ok (Some l) =>
         action inp = mover
         /\ exists nd row,
             normalizeLocationCode (destinationCode inp) = Some nd
             /\ In row (ubicaciones (store w2))
             /\ codigo row = Some nd
             /\ ubicacion_row_id row = l
     end.
Proof.
  unfold resolveDestination.
  destruct (action_eqb (action inp) mover) eqn:Ha.
  2:{ intros [= <- <-].
      assert (Hne : action inp <> mover)
        by (intros H; apply action_eqb_eq in H; congruence).
      repeat split; try assumption. exists []. now rewrite app_nil_r. }
  apply action_eqb_eq in Ha.
  destruct (normalizeLocationCode (destinationCode inp)) as [nd | ] eqn:Hn.
  2:{ intros [= <- <-]. repeat split; try congruence; try discriminate.
      exists []. now rewrite app_nil_r. }
  unfold bind.
  destruct (ensureLocationMap [nd] w) as [[m | e] w1] eqn:E1.
  - destruct (ensureLocationMap_bound _ _ _ _ E1) as [_ [Hbound [Hb [Hh Ho]]]].
    destruct (ensureLocationMap_effect _ _ _ _ E1) as [_ [_ [[created [Hc _]] _]]].
    destruct (mapGet nd m) as [l | ] eqn:Hg; intros [= <- <-].
    + split; [ exact Hb | split; [ exact Hh | split; [ exact Ho | ] ] ].
      split; [ now exists created | ]. split; [ congruence | ].
      split; [ exact Ha | ].
      destruct (Hbound nd l Hg) as [row [Hrow [Hcode Hid]]].
      exists nd, row. now repeat split.
    + split; [ exact Hb | split; [ exact Hh | split; [ exact Ho | ] ] ].
      split; [ now exists created | ]. split; [ congruence | discriminate ].
  - destruct (ensureLocationMap_effect _ _ _ _ E1) as [_ [Hthrow _]].
    destruct (Hthrow e eq_refl) as [He Hs]. intros [= <- <-]. rewrite Hs.
    repeat split; try congruence.
    + exists []. now rewrite app_nil_r.
    + destruct He as [-> | ->]; discriminate.
Qed.

(** ** applyBundleAction, every run *)

Lemma updatedStore_frame (inp : ApplyBundleActionInput) (loc : option Id) (s : Store) :
  historial_bultos (updatedStore inp loc s) = historial_bultos s
  /\ ordenes_corte (updatedStore inp loc s) = ordenes_corte s
  /\ ubicaciones (updatedStore inp loc s) = ubicaciones s
  /\ next_id (updatedStore inp loc s) = next_id s.
Proof. unfold updatedStore. destruct (needsUpdate inp loc); repeat split. Qed.

Lemma updatedStore_bultos (inp : ApplyBundleActionInput) (loc : option Id) (s : Store) :
  bultos (updatedStore inp loc s)
  = if needsUpdate inp loc
    then map (fun r => if mem (bulto_id r) (bundleIds inp)
                       then withPayload loc (bundleStatusByAction (action inp)) r
                       else r) (bultos s)
    else bultos s.
Proof. unfold updatedStore. destruct (needsUpdate inp loc); reflexivity. Qed.

Lemma completed (now : Z) (inp : ApplyBundleActionInput) (loc : option Id)
  (s : Store) (w w0 w' : World) (r : Result unit) :
  Prepared inp s (store w) loc ->
  store w0 = appendHistorial (historyOf now inp loc) (updatedStore inp loc (store w)) ->
  fst (r, w') = Ok tt
  /\ bultos (store (snd (r, w'))) = bultos (store w0)
  /\ historial_bultos (store (snd (r, w'))) = historial_bultos (store w0)
  /\ ubicaciones (store (snd (r, w'))) = ubicaciones (store w0)
  /\ ordersClearedOnlyIf (fun o => allBundlesUsed (bundleIds inp) o (store w0))
       (store w0) (store (snd (r, w'))) ->
  ApplyOutcome now inp s r (store w').
Proof.
  intros Hp Hs. cbn [fst snd]. rewrite Hs.
  intros [-> [Hb' [Hh' [Hu' Ho']]]].
  destruct (updatedStore_frame inp loc (store w)) as [Fh [Fo [Fu _]]].
  apply apply_done with (loc := loc) (s1 := store w).
  - exact Hp.
  - exact Hb'.
  - exact Hh'.
  - rewrite Hu'. exact Fu.
  - unfold ordersClearedOnlyIf in *. cbn [appendHistorial ordenes_corte] in Ho'.
    rewrite Fo in Ho'. exact Ho'.
Qed.

Lemma applyWrites_outcome (now : Z) (inp : ApplyBundleActionInput) (loc : option Id)
  (s : Store) (w w' : World) (r : Result unit) :
  ((action inp = asignar -> isSome (workOrderOf inp) = true) ->
   Prepared inp s (store w) loc) ->
  bultos (store w) = bultos s ->
  historial_bultos (store w) = historial_bultos s ->
  ordenes_corte (store w) = ordenes_corte s ->
  (exists created, ubicaciones (store w) = ubicaciones s ++ created) ->
  (action inp <> mover -> store w = s) ->
  applyWrites now inp loc w = (r, w') ->
  ApplyOutcome now inp s r (store w').
Proof.
  intros Hp Hb Hh Ho Hu Hm E. rewrite applyWrites_run in E.
  destruct (action_eqb (action inp) asignar) eqn:Ha; cbn [andb] in E.
  - apply action_eqb_eq in Ha.
    destruct (isSome (workOrderOf inp)) eqn:Hw; cbn [negb] in E.
    2:{ injection E as <- <-. now apply apply_refused. }
    specialize (Hp (fun _ => eq_refl)).
    destruct (needsUpdate inp loc).
    + destruct (served w).
      2:{ injection E as <- <-. rewrite store_after. now apply apply_refused. }
      destruct (served (after w)).
      2:{ injection E as <- <-. cbn [store withStore]. now apply apply_unlogged. }
      pose proof (aggregator_effect (bundleIds inp)
                    (withStore (appendHistorial (historyOf now inp loc)
                                  (updatedStore inp loc (store w)))
                       (after (after w)))) as Hagg.
      rewrite E in Hagg. eapply (completed now inp loc s w); [ exact Hp | | exact Hagg ]; reflexivity.
    + destruct (served w).
      2:{ injection E as <- <-. cbn [store withStore]. now apply apply_unlogged. }
      pose proof (aggregator_effect (bundleIds inp)
                    (withStore (appendHistorial (historyOf now inp loc)
                                  (updatedStore inp loc (store w)))
                       (after w))) as Hagg.
      rewrite E in Hagg. eapply (completed now inp loc s w); [ exact Hp | | exact Hagg ]; reflexivity.
  - assert (Hne : action inp <> asignar)
      by (intros H; apply action_eqb_eq in H; congruence).
    specialize (Hp (fun H => False_ind _ (Hne H))).
    destruct (needsUpdate inp loc).
    + destruct (served w).
      2:{ injection E as <- <-. rewrite store_after. now apply apply_refused. }
      destruct (served (after w)).
      2:{ injection E as <- <-. cbn [store withStore]. now apply apply_unlogged. }
      pose proof (aggregator_effect (bundleIds inp)
                    (withStore (appendHistorial (historyOf now inp loc)
                                  (updatedStore inp loc (store w)))
                       (after (after w)))) as Hagg.
      rewrite E in Hagg. eapply (completed now inp loc s w); [ exact Hp | | exact Hagg ]; reflexivity.
    + destruct (served w).
      2:{ injection E as <- <-. cbn [store withStore]. now apply apply_unlogged. }
      pose proof (aggregator_effect (bundleIds inp)
                    (withStore (appendHistorial (historyOf now inp loc)
                                  (updatedStore inp loc (store w)))
                       (after w))) as Hagg.
      rewrite E in Hagg. eapply (completed now inp loc s w); [ exact Hp | | exact Hagg ]; reflexivity.
Qed.

Lemma same_store_refused (now : Z) (inp : ApplyBundleActionInput) (s : Store)
  (e : Error) :
  e <> ErrHistorial -> ApplyOutcome now inp s (Throw e) s.
Proof.
  intros He. apply apply_refused; auto. exists []. now rewrite app_nil_r.
Qed.

(** Every run of [applyBundleAction], whatever requests the store serves,
    ends in one of the three ways of [ApplyOutcome]. *)
Lemma applyBundleAction_outcome (now : Z) (inp : ApplyBundleActionInput)
  (w w' : World) (r : Result unit) :
  applyBundleAction now inp w = (r, w') ->
  ApplyOutcome now inp (store w) r (store w').
Proof.
  rewrite applyBundleAction_parts.
  destruct (bundleIds inp) as [ | i ids] eqn:Hids.
  { intros [= <- <-]. now apply same_store_refused. }
  assert (Hne : bundleIds inp <> []) by (rewrite Hids; discriminate).
  clear Hids i ids.
  unfold bind at 1. rewrite validateUse_run.
  assert (Hpart : forall w1,
            store w1 = store w ->
            (action inp = utilizar -> allAssigned (bundleIds inp) (store w) = true) ->
            (locationId <- resolveDestination inp ;; applyWrites now inp locationId) w1
            = (r, w') ->
            ApplyOutcome now inp (store w) r (store w')).
  { intros w1 Hs Huse. unfold bind at 1.
    destruct (resolveDestination inp w1) as [[loc | e] w2] eqn:E2.
    - destruct (resolveDestination_outcome _ _ _ _ E2)
        as [Hb [Hh [Ho [Hu [Hnm Hloc]]]]].
      rewrite Hs in Hb, Hh, Ho, Hu.
      apply applyWrites_outcome; auto.
      + intros Hwo. constructor; auto.
        destruct loc as [l | ].
        * exact Hloc.
        * split; [ exact Hloc | ]. destruct (Hnm Hloc) as [-> _]. exact Hs.
      + intros Hm. destruct (Hnm Hm) as [-> _]. exact Hs.
    - destruct (resolveDestination_outcome _ _ _ _ E2)
        as [Hb [Hh [Ho [Hu [Hnm Hloc]]]]].
      rewrite Hs in Hb, Hh, Ho, Hu.
      intros [= <- <-]. apply apply_refused; auto.
      intros Hm. destruct (Hnm Hm) as [-> _]. exact Hs. }
  destruct (action_eqb (action inp) utilizar) eqn:Ha.
  - destruct (served w).
    + destruct (allAssigned (bundleIds inp) (store w)) eqn:Hall.
      * apply Hpart; [ apply store_after | auto ].
      * intros [= <- <-]. rewrite store_after. now apply same_store_refused.
    + intros [= <- <-]. rewrite store_after. now apply same_store_refused.
  - apply Hpart; [ reflexivity | ].
    intros H. apply action_eqb_eq in H. congruence.
Qed.

(** ** applyBundleAction: what a call changes *)

Lemma prepared_location (inp : ApplyBundleActionInput) (s s1 : Store)
  (loc : option Id) :
  Prepared inp s s1 loc -> (action inp = mover <-> isSome loc = true).
Proof.
  intros Hp. pose proof (prep_location _ _ _ _ Hp) as Hl.
  destruct loc as [l | ]; cbn [isSome].
  - destruct Hl as [Hm _]. tauto.
  - destruct Hl as [Hm _]. split; [ tauto | discriminate ].
Qed.

(** The rows of the bundles after a call: as they were, or updated. *)
Lemma apply_bultos (now : Z) (inp : ApplyBundleActionInput) (s s' : Store)
  (r : Result unit) :
  ApplyOutcome now inp s r s' ->
  (bultos s' = bultos s /\ r <> Ok tt)
  \/ (exists loc s1,
        Prepared inp s s1 loc
        /\ (r = Ok tt \/ r = Throw ErrHistorial)
        /\ bultos s'
           = map (fun row =>
                    if mem (bulto_id row) (bundleIds inp)
                    then withPayload loc (bundleStatusByAction (action inp)) row
                    else row)
               (bultos s)).
Proof.
  assert (Hmap : forall loc s1,
             Prepared inp s s1 loc ->
             bultos (updatedStore inp loc s1)
             = map (fun row =>
                      if mem (bulto_id row) (bundleIds inp)
                      then withPayload loc (bundleStatusByAction (action inp)) row
                      else row)
                 (bultos s)).
  { intros loc s1 Hp. rewrite updatedStore_bultos, (prep_bultos _ _ _ _ Hp).
    destruct (needsUpdate inp loc) eqn:Hn; [ reflexivity | ].
    unfold needsUpdate in Hn. apply orb_false_iff in Hn. destruct Hn as [Hl Hst].
    destruct loc; [ discriminate | ].
    destruct (bundleStatusByAction (action inp)); [ discriminate | ].
    symmetry. erewrite map_ext; [ apply map_id | ].
    intros row. destruct (mem (bulto_id row) (bundleIds inp)); [ | reflexivity ].
    now destruct row. }
  intros [e s1 He Hb _ _ _ _ | loc s1 Hp | loc s1 s2 Hp Hb Hh Hu Ho].
  - left. split; [ exact Hb | discriminate ].
  - right. exists loc, s1. split; [ exact Hp | ]. split; [ now right | ].
    now apply Hmap.
  - right. exists loc, s1. split; [ exact Hp | ]. split; [ now left | ].
    rewrite Hb. now apply Hmap.
Qed.

(** X6. Whatever requests fail, a call of [applyBundleAction] keeps the
    number of bundle rows and, of every row, the key, the order, the number,
    the sheets and the two identifiers; a row that is not targeted is left as
    it is; only a 'move' writes a location, and a 'move' writes no status. *)
Theorem applyBundleAction_frame (now : Z) (inp : ApplyBundleActionInput)
  (w w' : World) (r : Result unit) :
  applyBundleAction now inp w = (r, w') ->
  Forall2
    (fun row row' =>
       sameBundle row row'
       /\ (mem (bulto_id row) (bundleIds inp) = false -> row' = row)
       /\ (action inp <> mover -> ubicacion_id row' = ubicacion_id row)
       /\ (action inp = mover -> estado row' = estado row))
    (bultos (store w)) (bultos (store w')).
Proof.
  intros E. apply applyBundleAction_outcome in E.
  destruct (apply_bultos _ _ _ _ _ E) as [[-> _] | [loc [s1 [Hp [_ ->]]]]].
  - rewrite <- (map_id (bultos (store w))) at 2.
    apply Forall2_map_right. intros row _. unfold sameBundle. tauto.
  - apply Forall2_map_right. intros row _.
    pose proof (prepared_location _ _ _ _ Hp) as Hloc.
    destruct (mem (bulto_id row) (bundleIds inp)).
    + split; [ unfold sameBundle; cbn; tauto | ].
      split; [ discriminate | ]. split.
      * intros Hm. destruct loc as [l | ]; [ | reflexivity ].
        exfalso. apply Hm. now apply Hloc.
      * intros Hm. rewrite Hm. reflexivity.
    + unfold sameBundle. tauto.
Qed.

Lemma applyBundleAction_frame_witness :
  Forall2
    (fun row row' =>
       sameBundle row row'
       /\ (mem (bulto_id row) [3%nat] = false -> row' = row)
       /\ (utilizar <> mover -> ubicacion_id row' = ubicacion_id row)
       /\ (utilizar = mover -> estado row' = estado row))
    (bultos storeUsedUsedAssigned)
    (bultos (store (snd (applyBundleAction 3000 useThird
                           {| store := storeUsedUsedAssigned; faults := [] |})))).
Proof.
  destruct (applyBundleAction 3000 useThird
              {| store := storeUsedUsedAssigned; faults := [] |}) as [r w'] eqn:E.
  cbn [snd]. exact (applyBundleAction_frame _ _ _ _ _ E).
Defined.

(** ** applyBundleAction: the history and the three actions *)

Lemma apply_done_inv (now : Z) (inp : ApplyBundleActionInput) (s s' : Store) :
  ApplyOutcome now inp s (Ok tt) s' ->
  exists loc s1,
    Prepared inp s s1 loc
    /\ bultos s'
       = map (fun row =>
                if mem (bulto_id row) (bundleIds inp)
                then withPayload loc (bundleStatusByAction (action inp)) row
                else row)
           (bultos s)
    /\ historial_bultos s' = historial_bultos s ++ historyOf now inp loc
    /\ ubicaciones s' = ubicaciones s1.
Proof.
  intros H.
  destruct (apply_bultos _ _ _ _ _ H) as [[_ Hne] | _]; [ congruence | ].
  inversion H as [ | | loc s1 s2 Hp Hb Hh Hu Ho]; subst.
  exists loc, s1.
  destruct (updatedStore_frame inp loc s1) as [Fh _].
  rewrite Fh, (prep_historial _ _ _ _ Hp) in Hh.
  split; [ exact Hp | ]. split; [ | split; assumption ].
  rewrite Hb, updatedStore_bultos, (prep_bultos _ _ _ _ Hp).
  destruct (needsUpdate inp loc) eqn:Hn; [ reflexivity | ].
  unfold needsUpdate in Hn. apply orb_false_iff in Hn. destruct Hn as [Hl Hst].
  destruct loc; [ discriminate | ].
  destruct (bundleStatusByAction (action inp)); [ discriminate | ].
  symmetry. erewrite map_ext; [ apply map_id | ].
  intros row. destruct (mem (bulto_id row) (bundleIds inp)); [ | reflexivity ].
  now destruct row.
Qed.

Lemma apply_throw_inv (now : Z) (inp : ApplyBundleActionInput) (s s' : Store)
  (e : Error) :
  ApplyOutcome now inp s (Throw e) s' -> historial_bultos s' = historial_bultos s.
Proof.
  intros H. inversion H as [e' s1 He Hb Hh _ _ _ | loc s1 Hp | ]; subst.
  - exact Hh.
  - destruct (updatedStore_frame inp loc s1) as [Fh _].
    rewrite Fh. exact (prep_historial _ _ _ _ Hp).
Qed.

(** X7. A call of [applyBundleAction] that returns has added to the history
    one entry for each targeted key, in the order of the batch, each with the
    action and the time of the call, an order number only for an 'assign'
    and a destination only for a 'move'; a call that throws has added
    nothing to the history, whatever it wrote to the bundles. *)
Theorem applyBundleAction_history (now : Z) (inp : ApplyBundleActionInput)
  (w w' : World) (r : Result unit) :
  applyBundleAction now inp w = (r, w') ->
  (r = Ok tt ->
   exists entries,
     historial_bultos (store w') = historial_bultos (store w) ++ entries
     /\ map hist_bulto_id entries = bundleIds inp
     /\ Forall
          (fun e =>
             accion e = action inp
             /\ fecha_hora e = now
             /\ (action inp <> asignar -> numero_trabajo e = None)
             /\ (action inp <> mover -> ubicacion_destino_id e = None))
          entries)
  /\ (forall e,
         r = Throw e -> historial_bultos (store w') = historial_bultos (store w)).
Proof.
  intros E. apply applyBundleAction_outcome in E. split.
  - intros ->. destruct (apply_done_inv _ _ _ _ E) as [loc [s1 [Hp [_ [Hh _]]]]].
    exists (historyOf now inp loc). split; [ exact Hh | ].
    unfold historyOf. split.
    + rewrite map_map. cbn [hist_bulto_id]. apply map_id.
    + apply Forall_forall. intros e He. apply in_map_iff in He.
      destruct He as [i [<- _]]. cbn [accion fecha_hora numero_trabajo
                                        ubicacion_destino_id].
      split; [ reflexivity | ]. split; [ reflexivity | ]. split.
      * intros Ha. destruct (action_eqb (action inp) asignar) eqn:Hb;
          [ apply action_eqb_eq in Hb; contradiction | reflexivity ].
      * intros Hm. destruct loc as [l | ]; [ | reflexivity ].
        exfalso. apply Hm. now apply (prepared_location _ _ _ _ Hp).
  - intros e ->. exact (apply_throw_inv _ _ _ _ _ E).
Qed.

Lemma applyBundleAction_history_witness :
  exists entries,
    historial_bultos
      (store (snd (applyBundleAction 3000 useThird
                     {| store := storeUsedUsedAssigned; faults := [] |})))
    = historial_bultos storeUsedUsedAssigned ++ entries
    /\ map hist_bulto_id entries = [3%nat].
Proof.
  destruct (applyBundleAction 3000 useThird
              {| store := storeUsedUsedAssigned; faults := [] |}) as [r w'] eqn:E.
  assert (Hr : r = Ok tt) by (vm_compute in E; congruence).
  destruct (proj1 (applyBundleAction_history _ _ _ _ _ E) Hr)
    as [entries [Hh [Hids _]]].
  exists entries. split; [ exact Hh | exact Hids ].
Defined.

Lemma no_faults (w : World) : faults w = [] -> served w = true /\ after w = w.
Proof. destruct w as [s f]. cbn. intros ->. split; reflexivity. Qed.

Lemma workOrderOf_Some (inp : ApplyBundleActionInput) :
  isSome (workOrderOf inp) = true
  <-> exists raw, orderNumber inp = Some raw /\ isEmpty (trim raw) = false.
Proof.
  unfold workOrderOf. destruct (orderNumber inp) as [raw | ].
  - destruct (isEmpty (trim raw)) eqn:He; cbn [isSome]; split.
    + discriminate.
    + intros [raw' [[= <-] H]]. congruence.
    + intros _. now exists raw.
    + reflexivity.
  - cbn. split; [ discriminate | intros [raw [H _]]; discriminate ].
Qed.

(** X8. An 'assign' that returns had an order number that is not blank; it
    has set the status of every targeted bundle to 'asignado', whatever the
    status was, with no other change to the bundles, and has logged for each
    targeted key an entry that carries the order number trimmed and no
    destination.  With a blank or absent order number and a batch that is
    not empty it throws before any request; with an order number and every
    request served it returns. *)
Theorem assign_action (now : Z) (ids : list Id) (dest wo : option string)
  (w w' : World) (r : Result unit) :
  applyBundleAction now (assignOf ids dest wo) w = (r, w') ->
  (r = Ok tt ->
   exists raw,
     wo = Some raw
     /\ isEmpty (trim raw) = false
     /\ bultos (store w')
        = map (fun row =>
                 if mem (bulto_id row) ids
                 then withPayload None (Some asignado) row else row)
            (bultos (store w))
     /\ historial_bultos (store w')
        = historial_bultos (store w)
          ++ map (fun i =>
                    {| hist_bulto_id := i; accion := asignar;
                       ubicacion_destino_id := None;
                       numero_trabajo := Some (trim raw); fecha_hora := now |})
              ids
     /\ ubicaciones (store w') = ubicaciones (store w))
  /\ (ids <> [] ->
      (forall raw, wo = Some raw -> isEmpty (trim raw) = true) ->
      r = Throw ErrOrdenTrabajo /\ w' = w)
  /\ (ids <> [] ->
      (exists raw, wo = Some raw /\ isEmpty (trim raw) = false) ->
      faults w = [] ->
      r = Ok tt).
Proof.
  intros E. split; [ | split ].
  - intros ->. apply applyBundleAction_outcome in E.
    destruct (apply_done_inv _ _ _ _ E) as [loc [s1 [Hp [Hb [Hh Hu]]]]].
    pose proof (prep_location _ _ _ _ Hp) as Hl.
    destruct loc as [l | ]; [ destruct Hl as [Hm _]; discriminate | ].
    destruct Hl as [_ ->].
    pose proof (prep_order _ _ _ _ Hp eq_refl) as Hwo.
    apply workOrderOf_Some in Hwo. cbn [orderNumber assignOf] in Hwo.
    destruct Hwo as [raw [-> Hraw]]. exists raw.
    split; [ reflexivity | ]. split; [ exact Hraw | ].
    split; [ exact Hb | ]. split; [ | exact Hu ].
    rewrite Hh. unfold historyOf, workOrderOf.
    cbn [bundleIds action orderNumber assignOf action_eqb]. now rewrite Hraw.
  - intros Hids Hblank. rewrite applyBundleAction_parts in E.
    cbn [bundleIds assignOf] in E. destruct ids as [ | i ids]; [ congruence | ].
    unfold bind at 1 in E. rewrite validateUse_run in E.
    cbn [action assignOf action_eqb] in E.
    unfold bind at 1, resolveDestination in E.
    cbn [action assignOf action_eqb ret] in E.
    rewrite applyWrites_run in E.
    assert (Hwo : isSome (workOrderOf (assignOf (i :: ids) dest wo)) = false).
    { destruct (isSome _) eqn:H; [ | reflexivity ].
      apply workOrderOf_Some in H. destruct H as [raw [H1 H2]].
      cbn [orderNumber assignOf] in H1. rewrite (Hblank raw H1) in H2.
      discriminate. }
    rewrite Hwo in E. cbn [action assignOf action_eqb andb negb] in E.
    injection E as <- <-. split; reflexivity.
  - intros Hids Hgiven Hf. rewrite applyBundleAction_parts in E.
    cbn [bundleIds assignOf] in E. destruct ids as [ | i ids]; [ congruence | ].
    unfold bind at 1 in E. rewrite validateUse_run in E.
    cbn [action assignOf action_eqb] in E.
    unfold bind at 1, resolveDestination in E.
    cbn [action assignOf action_eqb ret] in E.
    rewrite applyWrites_run in E.
    assert (Hwo : isSome (workOrderOf (assignOf (i :: ids) dest wo)) = true)
      by (apply workOrderOf_Some; exact Hgiven).
    rewrite Hwo in E. cbn [action assignOf action_eqb andb negb] in E.
    unfold needsUpdate in E. cbn [action assignOf bundleStatusByAction isSome orb] in E.
    destruct (no_faults w Hf) as [Hs Ha]. repeat rewrite Ha in E. rewrite Hs in E.
    match type of E with
    | checkAndUpdateOrderStatus ?a ?b = _ =>
        pose proof (aggregator_effect a b) as [Hok _]
    end.
    rewrite E in Hok. exact Hok.
Qed.

Lemma assign_action_witness :
  fst (applyBundleAction 3000 (assignOf [3%nat] None (Some "OT-9"%string))
         {| store := storeUsedUsedAssigned; faults := [] |})
  = Ok tt.
Proof.
  destruct (applyBundleAction 3000 (assignOf [3%nat] None (Some "OT-9"%string))
              {| store := storeUsedUsedAssigned; faults := [] |}) as [r w'] eqn:E.
  cbn [fst].
  apply (proj2 (proj2 (assign_action _ _ _ _ _ _ _ E))).
  - discriminate.
  - exists "OT-9"%string. split; reflexivity.
  - reflexivity.
Defined.

Lemma ensureLocationMap_served (codes : list string) (w w' : World)
  (r : Result LocationMap) :
  faults w = [] ->
  ensureLocationMap codes w = (r, w') ->
  (exists m, r = Ok m) /\ faults w' = [].
Proof.
  intros Hf. destruct (no_faults w Hf) as [Hs Ha].
  destruct codes as [ | c0 cs].
  - intros [= <- <-]. split; [ now exists [] | exact Hf ].
  - rewrite ensureLocationMap_run. repeat rewrite Ha. rewrite Hs.
    destruct (missingCodes (c0 :: cs) (store w)); intros [= <- <-].
    + split; [ eexists; reflexivity | exact Hf ].
    + split; [ eexists; reflexivity | exact Hf ].
Qed.

(** X9. A 'move' that returns had a destination that normalizes to a listed
    code; a location of the table carries that code, every targeted bundle
    has the key of that location as its location, whatever its status, with
    no other change to the bundles, and the history has for each targeted
    key an entry with that location and no order number; no location was
    removed.  With a listed code, a batch that is not empty and every request
    served, a 'move' returns. *)
Theorem move_action (now : Z) (ids : list Id) (dest wo : option string)
  (w w' : World) (r : Result unit) :
  applyBundleAction now (moveOf ids dest wo) w = (r, w') ->
  (r = Ok tt ->
   exists code row,
     normalizeLocationCode dest = Some code
     /\ In row (ubicaciones (store w'))
     /\ codigo row = Some code
     /\ bultos (store w')
        = map (fun b =>
                 if mem (bulto_id b) ids
                 then withPayload (Some (ubicacion_row_id row)) None b else b)
            (bultos (store w))
     /\ historial_bultos (store w')
        = historial_bultos (store w)
          ++ map (fun i =>
                    {| hist_bulto_id := i; accion := mover;
                       ubicacion_destino_id := Some (ubicacion_row_id row);
                       numero_trabajo := None; fecha_hora := now |})
              ids
     /\ extends (ubicaciones (store w)) (ubicaciones (store w')))
  /\ (ids <> [] ->
      (exists code, normalizeLocationCode dest = Some code) ->
      faults w = [] ->
      r = Ok tt).
Proof.
  intros E. split.
  - intros ->. apply applyBundleAction_outcome in E.
    destruct (apply_done_inv _ _ _ _ E) as [loc [s1 [Hp [Hb [Hh Hu]]]]].
    pose proof (prep_location _ _ _ _ Hp) as Hl.
    destruct loc as [l | ]; [ | destruct Hl as [Hm _]; now contradiction Hm ].
    destruct Hl as [_ [code [row [Hn [Hin [Hc Hid]]]]]].
    cbn [destinationCode moveOf] in Hn. subst l.
    exists code, row. split; [ exact Hn | ].
    split; [ now rewrite Hu | ]. split; [ exact Hc | ].
    split; [ exact Hb | ]. split; [ exact Hh | ].
    rewrite Hu. exact (prep_ubicaciones _ _ _ _ Hp).
  - intros Hids [code Hn] Hf. rewrite applyBundleAction_parts in E.
    cbn [bundleIds moveOf] in E. destruct ids as [ | i ids]; [ congruence | ].
    unfold bind at 1 in E. rewrite validateUse_run in E.
    cbn [action moveOf action_eqb] in E.
    unfold bind at 1, resolveDestination in E.
    cbn [action moveOf action_eqb destinationCode] in E. rewrite Hn in E.
    unfold bind at 1 in E.
    destruct (ensureLocationMap [code] w) as [rm w1] eqn:E1.
    destruct (ensureLocationMap_served _ _ _ _ Hf E1) as [[m ->] Hf1].
    destruct (ensureLocationMap_bound _ _ _ _ E1) as [Hbinds _].
    destruct (Hbinds code (or_introl eq_refl) (listed_code_of_normalize _ _ Hn))
      as [row [_ [_ Hget]]].
    rewrite Hget in E. unfold ret at 1 in E.
    rewrite applyWrites_run in E. cbn [action moveOf action_eqb andb] in E.
    unfold needsUpdate in E. cbn [isSome orb] in E.
    destruct (no_faults w1 Hf1) as [Hs Ha]. repeat rewrite Ha in E. rewrite Hs in E.
    match type of E with
    | checkAndUpdateOrderStatus ?a ?b = _ =>
        pose proof (aggregator_effect a b) as [Hok _]
    end.
    rewrite E in Hok. exact Hok.
Qed.

Lemma move_action_witness :
  fst (applyBundleAction 3000 (moveOf [3%nat] (Some " c4 "%string) None)
         {| store := storeUsedUsedAssigned; faults := [] |})
  = Ok tt.
Proof.
  destruct (applyBundleAction 3000 (moveOf [3%nat] (Some " c4 "%string) None)
              {| store := storeUsedUsedAssigned; faults := [] |}) as [r w'] eqn:E.
  cbn [fst].
  apply (proj2 (move_action _ _ _ _ _ _ _ E)).
  - discriminate.
  - exists "C4"%string. reflexivity.
  - reflexivity.
Defined.

(** ** The two services together: what no call removes *)

Lemma extends_refl {A : Type} (l : list A) : extends l l.
Proof. exists []. now rewrite app_nil_r. Qed.

Lemma extends_trans {A : Type} (l1 l2 l3 : list A) :
  extends l1 l2 -> extends l2 l3 -> extends l1 l3.
Proof. intros [a ->] [b ->]. exists (a ++ b). now rewrite app_assoc. Qed.

Lemma extends_same {A : Type} (l l' : list A) : l' = l -> extends l l'.
Proof. intros ->. apply extends_refl. Qed.

Lemma map_rows_keys (sel : BultoRow -> bool) (payload : BultoRow -> BultoRow)
  (l : list BultoRow) :
  (forall r, bundleKey (payload r) = bundleKey r) ->
  map bundleKey (map (fun r => if sel r then payload r else r) l) = map bundleKey l.
Proof.
  intros H. rewrite map_map. apply map_ext. intros r.
  destruct (sel r); [ apply H | reflexivity ].
Qed.

Lemma map_rows_sheets (sel : BultoRow -> bool) (payload : BultoRow -> BultoRow)
  (l : list BultoRow) :
  (forall r, cantidad_laminas (payload r) = cantidad_laminas r) ->
  map (fun r => orElse (cantidad_laminas r) 0)
    (map (fun r => if sel r then payload r else r) l)
  = map (fun r => orElse (cantidad_laminas r) 0) l.
Proof.
  intros H. rewrite map_map. apply map_ext. intros r.
  destruct (sel r); [ now rewrite H | reflexivity ].
Qed.

Lemma originalPromoted_frame (inp : SplitInput) (bundle : BultoRow) (b : Z)
  (s : Store) :
  historial_bultos (originalPromoted inp bundle b s) = historial_bultos s
  /\ ordenes_corte (originalPromoted inp bundle b s) = ordenes_corte s
  /\ ubicaciones (originalPromoted inp bundle b s) = ubicaciones s
  /\ next_id (originalPromoted inp bundle b s) = next_id s.
Proof.
  unfold originalPromoted. destruct (shouldNormalizeNumber bundle); repeat split.
Qed.

Lemma originalPromoted_keys (inp : SplitInput) (bundle : BultoRow) (b : Z)
  (s : Store) :
  map bundleKey (bultos (originalPromoted inp bundle b s)) = map bundleKey (bultos s).
Proof.
  rewrite originalPromoted_rows. apply map_rows_keys. intros r.
  destruct (shouldNormalizeNumber bundle); reflexivity.
Qed.

(** The stores that a call of [splitBundle] can leave, by their tables. *)
Lemma split_stores (now : Z) (inp : SplitInput) (s s' : Store) (r : Result unit) :
  SplitOutcome now inp s r s' ->
  extends (historial_bultos s) (historial_bultos s')
  /\ extends (map bundleKey (bultos s)) (map bundleKey (bultos s'))
  /\ ubicaciones s' = ubicaciones s
  /\ ordenes_corte s' = ordenes_corte s.
Proof.
  intros [e Hb | bundle b Ha Hn | bundle b Ha | bundle b Ha | bundle b Ha].
  - repeat split; apply extends_refl.
  - repeat split; try apply extends_refl.
    apply extends_same. unfold originalReduced, updateRows, setBultos.
    cbn [bultos]. now apply map_rows_keys.
  - destruct (originalPromoted_frame inp bundle b s) as [Hh [Ho [Hu _]]].
    split; [ now apply extends_same | ].
    split; [ apply extends_same, originalPromoted_keys | now split ].
  - destruct (originalPromoted_frame inp bundle b s) as [Hh [Ho [Hu _]]].
    unfold siblingInserted, appendBulto.
    cbn [historial_bultos bultos ubicaciones ordenes_corte].
    split; [ now apply extends_same | ]. split; [ | now split ].
    rewrite map_app, originalPromoted_keys. eexists. reflexivity.
  - destruct (originalPromoted_frame inp bundle b s) as [Hh [Ho [Hu _]]].
    unfold splitLogged, siblingInserted, appendBulto, appendHistorial.
    cbn [historial_bultos bultos ubicaciones ordenes_corte].
    split; [ rewrite Hh; eexists; reflexivity | ]. split; [ | now split ].
    rewrite map_app, originalPromoted_keys. eexists. reflexivity.
Qed.

Lemma apply_stores (now : Z) (inp : ApplyBundleActionInput) (s s' : Store)
  (r : Result unit) :
  ApplyOutcome now inp s r s' ->
  extends (historial_bultos s) (historial_bultos s')
  /\ map bundleKey (bultos s') = map bundleKey (bultos s)
  /\ map (fun row => orElse (cantidad_laminas row) 0) (bultos s')
     = map (fun row => orElse (cantidad_laminas row) 0) (bultos s)
  /\ extends (ubicaciones s) (ubicaciones s').
Proof.
  intros H.
  assert (Hrows : map bundleKey (bultos s') = map bundleKey (bultos s)
                  /\ map (fun row => orElse (cantidad_laminas row) 0) (bultos s')
                     = map (fun row => orElse (cantidad_laminas row) 0) (bultos s)).
  { destruct (apply_bultos _ _ _ _ _ H) as [[-> _] | [loc [s1 [_ [_ ->]]]]].
    - split; reflexivity.
    - split; [ now apply map_rows_keys | now apply map_rows_sheets ]. }
  destruct Hrows as [Hk Hs].
  inversion H as [e s1 He Hb Hh Ho Hu Hm | loc s1 Hp | loc s1 s2 Hp Hb Hh Hu Ho];
    subst.
  - split; [ now apply extends_same | ]. split; [ exact Hk | ].
    split; [ exact Hs | exact Hu ].
  - destruct (updatedStore_frame inp loc s1) as [Fh [_ [Fu _]]].
    split; [ apply extends_same; rewrite Fh; exact (prep_historial _ _ _ _ Hp) | ].
    split; [ exact Hk | ]. split; [ exact Hs | ].
    rewrite Fu. exact (prep_ubicaciones _ _ _ _ Hp).
  - destruct (updatedStore_frame inp loc s1) as [Fh [_ [Fu _]]].
    split.
    + rewrite Hh, Fh, (prep_historial _ _ _ _ Hp). eexists. reflexivity.
    + split; [ exact Hk | ]. split; [ exact Hs | ].
      rewrite Hu. exact (prep_ubicaciones _ _ _ _ Hp).
Qed.

Lemma runCall_outcome (c : Call) (s : Store) :
  match c with
  | CallApply now inp _ => ApplyOutcome now inp s (fst (runCall c s)) (snd (runCall c s))
  | CallSplit now inp _ => SplitOutcome now inp s (fst (runCall c s)) (snd (runCall c s))
  end.
Proof.
  destruct c as [now inp outcomes | now inp outcomes]; cbn [runCall].
  - destruct (applyBundleAction now inp _) as [r w'] eqn:E. cbn [fst snd].
    exact (applyBundleAction_outcome _ _ _ _ _ E).
  - destruct (splitBundle now inp _) as [r w'] eqn:E. cbn [fst snd].
    exact (splitBundle_outcome _ _ _ _ _ E).
Qed.

(** X10. No sequence of calls of [applyBundleAction] and [splitBundle],
    whatever requests fail, removes anything: the history and the locations
    after the calls are those before them with rows added at the end, and so
    are the bundles, each with the key and the order it had. *)
Theorem runCalls_only_add (calls : list Call) (s : Store) :
  extends (historial_bultos s) (historial_bultos (runCalls calls s))
  /\ extends (map bundleKey (bultos s)) (map bundleKey (bultos (runCalls calls s)))
  /\ extends (ubicaciones s) (ubicaciones (runCalls calls s)).
Proof.
  revert s. induction calls as [ | c calls IH]; intros s; cbn [runCalls].
  - repeat split; apply extends_refl.
  - destruct (IH (snd (runCall c s))) as [Ih [Ik Iu]].
    pose proof (runCall_outcome c s) as H.
    destruct c as [now inp outcomes | now inp outcomes].
    + destruct (apply_stores _ _ _ _ _ H) as [Hh [Hk [_ Hu]]].
      split; [ exact (extends_trans _ _ _ Hh Ih) | ].
      split; [ rewrite <- Hk; exact Ik | exact (extends_trans _ _ _ Hu Iu) ].
    + destruct (split_stores _ _ _ _ _ H) as [Hh [Hk [Hu _]]].
      split; [ exact (extends_trans _ _ _ Hh Ih) | ].
      split; [ exact (extends_trans _ _ _ Hk Ik) | ].
      rewrite <- Hu. exact Iu.
Qed.

(** ** splitBundle: acceptance, rows and sheets *)

Lemma sum_snoc (l : list Z) (x : Z) :
  fold_right Z.add 0 (l ++ [x]) = fold_right Z.add 0 l + x.
Proof. induction l as [ | a l IH]; cbn [app fold_right]; lia. Qed.

Lemma map_unselected {A : Type} (p : A -> bool) (g : A -> A) (l : list A) :
  filter p l = [] -> map (fun r => if p r then g r else r) l = l.
Proof.
  induction l as [ | a l IH]; [ reflexivity | ]. cbn [filter map].
  destruct (p a); [ discriminate | ]. intros H. now rewrite IH.
Qed.

Lemma sum_one_update {A : Type} (p : A -> bool) (g : A -> A) (f : A -> Z)
  (l : list A) (b : A) :
  filter p l = [b] ->
  fold_right Z.add 0 (map f (map (fun r => if p r then g r else r) l))
  = fold_right Z.add 0 (map f l) - f b + f (g b).
Proof.
  induction l as [ | a l IH]; [ discriminate | ]. cbn [filter map fold_right].
  destruct (p a).
  - intros [= -> Hl]. rewrite (map_unselected p g l Hl). lia.
  - intros Hl. rewrite (IH Hl). lia.
Qed.

Lemma targetOf_filter (id : Id) (s : Store) (bundle : BultoRow) :
  targetOf id s = Some bundle -> filter (hasId id) (bultos s) = [bundle].
Proof.
  unfold targetOf. destruct (filter (hasId id) (bultos s)) as [ | x [ | y l]];
    try discriminate. now intros [= ->].
Qed.

(** X13. [splitBundle] tests its arguments before it makes any request, the
    sheets first: with no sheets to take, or with a blank identifier, it
    throws and no request has been consumed. *)
Theorem split_argument_guards (now : Z) (inp : SplitInput) (w : World) :
  (sheets inp <= 0 -> splitBundle now inp w = (Throw ErrCantidadNoPositiva, w))
  /\ (0 < sheets inp ->
      identifiersGiven inp = false ->
      splitBundle now inp w = (Throw ErrFaltanIdentificadores, w)).
Proof.
  unfold splitBundle, identifiersGiven. split.
  - intros H. destruct (Z.leb_spec (sheets inp) 0); [ reflexivity | lia ].
  - intros H Hid. destruct (Z.leb_spec (sheets inp) 0); [ lia | ].
    apply negb_false_iff in Hid. now rewrite Hid.
Qed.

Lemma split_argument_guards_witness :
  splitBundle 2000 splitNothing {| store := store1001; faults := [false] |}
  = (Throw ErrCantidadNoPositiva, {| store := store1001; faults := [false] |})
  /\ splitBundle 2000 splitBlank {| store := store1001; faults := [false] |}
     = (Throw ErrFaltanIdentificadores, {| store := store1001; faults := [false] |}).
Proof.
  split.
  - apply (proj1 (split_argument_guards 2000 splitNothing _)). cbn. lia.
  - apply (proj2 (split_argument_guards 2000 splitBlank _)); [ cbn; lia | reflexivity ].
Defined.



(** ** The aggregator *)

Lemma store_eq (s s' : Store) :
  bultos s' = bultos s ->
  historial_bultos s' = historial_bultos s ->
  ordenes_corte s' = ordenes_corte s ->
  ubicaciones s' = ubicaciones s ->
  next_id s' = next_id s ->
  s' = s.
Proof. destruct s, s'. cbn. intros -> -> -> -> ->. reflexivity. Qed.

Lemma fold_settle_frame (l : list Id) (s : Store) :
  bultos (fold_left settle l s) = bultos s
  /\ historial_bultos (fold_left settle l s) = historial_bultos s
  /\ ubicaciones (fold_left settle l s) = ubicaciones s
  /\ next_id (fold_left settle l s) = next_id s.
Proof.
  revert s. induction l as [ | o l IH]; intros s; cbn [fold_left].
  - now repeat split.
  - destruct (IH (settle s o)) as [Hb [Hh [Hu Hn]]].
    rewrite Hb, Hh, Hu, Hn. unfold settle.
    destruct (settled o s); now repeat split.
Qed.

Lemma aggregator_served (ids : list Id) (s : Store) :
  checkAndUpdateOrderStatus ids {| store := s; faults := [] |}
  = (Ok tt, {| store := fold_left settle (examined ids s) s; faults := [] |}).
Proof.
  rewrite checkAndUpdateOrderStatus_run.
  unfold served, after. cbn [faults store tl].
  now rewrite fold_checkOrderWorld_served.
Qed.

Lemma examined_same_bultos (ids : list Id) (s s' : Store) :
  bultos s' = bultos s -> examined ids s' = examined ids s.
Proof. intros H. unfold examined. now rewrite H. Qed.

Lemma fold_settle_twice (l : list Id) (s : Store) :
  fold_left settle l (fold_left settle l s) = fold_left settle l s.
Proof.
  destruct (fold_settle_frame l s) as [Hb [Hh [Hu Hn]]].
  destruct (fold_settle_frame l (fold_left settle l s)) as [Hb' [Hh' [Hu' Hn']]].
  apply store_eq; try assumption.
  rewrite (fold_settle_orders l (fold_left settle l s)), fold_settle_orders.
  rewrite map_map. apply map_ext. intros row.
  rewrite (settled_same_bultos _ _ _ Hb).
  destruct (mem (orden_id row) l && settled (orden_id row) s)%bool eqn:Hc.
  - cbn [inactive orden_id]. rewrite Hc. reflexivity.
  - now rewrite Hc.
Qed.

(** X15. The aggregator never throws, whatever requests fail, and writes
    to the orders only: bundles, history and locations are as they were.
    Its second test adds nothing to the first: rows that are all used hold
    none that is available or assigned.  With every request served, running
    it again on the same batch changes nothing. *)
Theorem aggregator_only_orders (ids : list Id) (w : World) :
  fst (checkAndUpdateOrderStatus ids w) = Ok tt
  /\ bultos (store (snd (checkAndUpdateOrderStatus ids w))) = bultos (store w)
  /\ historial_bultos (store (snd (checkAndUpdateOrderStatus ids w)))
     = historial_bultos (store w)
  /\ ubicaciones (store (snd (checkAndUpdateOrderStatus ids w))) = ubicaciones (store w)
  /\ (forall rows, allUsed rows = true -> hasAvailableOrAssigned rows = false)
  /\ (faults w = [] ->
      snd (checkAndUpdateOrderStatus ids (snd (checkAndUpdateOrderStatus ids w)))
      = snd (checkAndUpdateOrderStatus ids w)).
Proof.
  destruct (aggregator_effect ids w) as [Hok [Hb [Hh [Hu _]]]].
  split; [ exact Hok | ]. split; [ exact Hb | ]. split; [ exact Hh | ].
  split; [ exact Hu | ]. split; [ exact allUsed_none_open | ].
  destruct w as [s f]. cbn [faults]. intros ->.
  rewrite aggregator_served. cbn [snd]. rewrite aggregator_served. cbn [snd].
  destruct (fold_settle_frame (examined ids s) s) as [Hb' _].
  rewrite (examined_same_bultos ids _ _ Hb'). now rewrite fold_settle_twice.
Qed.

Lemma aggregator_only_orders_witness :
  snd (checkAndUpdateOrderStatus [1%nat; 2%nat]
         (snd (checkAndUpdateOrderStatus [1%nat; 2%nat]
                 {| store := storeUsedUsedAssigned; faults := [] |})))
  = snd (checkAndUpdateOrderStatus [1%nat; 2%nat]
           {| store := storeUsedUsedAssigned; faults := [] |}).
Proof.
  apply (proj2 (proj2 (proj2 (proj2 (proj2
           (aggregator_only_orders [1%nat; 2%nat]
              {| store := storeUsedUsedAssigned; faults := [] |})))))).
  reflexivity.
Defined.

(** ** The projection: what an order shows *)

Section Shown.
Import Projection.
Variable DATE_FORMATTER : string -> string.
Variable DATETIME_FORMATTER : Z -> string.

Lemma append_inv_prefix (a x y : string) : (a ++ x = a ++ y)%string -> x = y.
Proof. induction a as [ | c a IH]; cbn; [ auto | intros [= H]; auto ]. Qed.

Lemma indexOf_inj (l : list nat) (i j : nat) :
  In i l -> indexOf i l = indexOf j l -> i = j.
Proof.
  induction l as [ | x l IH]; [ intros [] | ]. cbn [indexOf].
  intros [-> | Hin].
  - rewrite Nat.eqb_refl. destruct (Nat.eqb_spec i j); [ auto | discriminate ].
  - destruct (Nat.eqb_spec x i) as [-> | Hxi].
    + destruct (Nat.eqb_spec i j); [ auto | discriminate ].
    + destruct (Nat.eqb_spec x j); [ discriminate | ].
      intros [= H]. now apply IH.
Qed.

Lemma two_members (l : list nat) (i j : nat) :
  In i l -> In j l -> i <> j -> Nat.leb (List.length l) 1 = false.
Proof.
  destruct l as [ | x [ | y l]]; cbn; try tauto.
  intros [-> | []] [-> | []] H. now contradiction H.
Qed.

Lemma Forall2_nth_error {A B : Type} (R : A -> B -> Prop) (l : list A) (l' : list B) :
  List.length l' = List.length l ->
  (forall i a b, nth_error l i = Some a -> nth_error l' i = Some b -> R a b) ->
  Forall2 R l l'.
Proof.
  revert l'. induction l as [ | a l IH]; intros [ | b l'] Hlen H;
    try discriminate; constructor.
  - apply (H O); reflexivity.
  - apply IH; [ now injection Hlen | ].
    intros i x y Hx Hy. apply (H (S i)); assumption.
Qed.

(** [applyBundleDisplayNames] writes names and nothing else. *)
Lemma applyBundleDisplayNames_renames (l : list Bundle) :
  Forall2 (fun b c => exists newName, c = withName b newName)
    l (applyBundleDisplayNames l).
Proof.
  apply Forall2_nth_error; [ apply DisplayNames.length_applyBundleDisplayNames | ].
  intros i b c Hb Hc. rewrite (DisplayNames.display_names_by_key l i b Hb) in Hc.
  injection Hc as <-. eexists. reflexivity.
Qed.

Lemma baseName_mapBundle (bundle : SupabaseBundle) :
  baseName (mapBundle DATETIME_FORMATTER bundle)
  = match rawNumber (mapBundle DATETIME_FORMATTER bundle) with
    | Some n =>
        if n =? 0 then "Bulto sin número"%string
        else ("Bulto #" ++ numberToString n)%string
    | None => "Bulto sin número"%string
    end.
Proof. reflexivity. Qed.

Lemma status_mapBundle (bundle : SupabaseBundle) :
  String.eqb (status (mapBundle DATETIME_FORMATTER bundle)) "Utilizado"
  = estado_is (estado bundle) usado.
Proof. unfold mapBundle. cbn. destruct (estado bundle) as [[ | | ] | ]; reflexivity. Qed.

Lemma shown_bundles (order : SupabaseCutOrder) :
  Forall2
    (fun row c => exists newName, c = withName (mapBundle DATETIME_FORMATTER row) newName)
    (orElse (bultos order) [])
    (bundles (mapCutOrder DATE_FORMATTER DATETIME_FORMATTER order)).
Proof.
  unfold mapCutOrder. cbn [bundles].
  pose proof (applyBundleDisplayNames_renames
                (map (mapBundle DATETIME_FORMATTER) (orElse (bultos order) []))) as H.
  remember (applyBundleDisplayNames
              (map (mapBundle DATETIME_FORMATTER) (orElse (bultos order) []))) as shown.
  clear Heqshown. revert shown H.
  induction (orElse (bultos order) []) as [ | row rows IH]; intros shown H;
    inversion H as [ | b c l l' Hbc Hrest]; subst; constructor.
  - exact Hbc.
  - now apply IH.
Qed.

Lemma used_shown (rows : list SupabaseBundle) (shown : list Bundle) :
  Forall2
    (fun row c => exists newName, c = withName (mapBundle DATETIME_FORMATTER row) newName)
    rows shown ->
  List.length (filter (fun bundle => String.eqb (status bundle) "Utilizado") shown)
  = List.length (filter (fun row => estado_is (estado row) usado) rows).
Proof.
  induction 1 as [ | row c rows shown [newName ->] _ IH]; [ reflexivity | ].
  cbn [filter]. cbn [withName status].
  change (status (mapBundle DATETIME_FORMATTER row))
    with (status (mapBundle DATETIME_FORMATTER row)).
  rewrite status_mapBundle.
  destruct (estado_is (estado row) usado); cbn [List.length]; now rewrite IH.
Qed.

Lemma Forall2_length_eq {A B : Type} (R : A -> B -> Prop) (l : list A) (l' : list B) :
  Forall2 R l l' -> List.length l' = List.length l.
Proof. induction 1; cbn; congruence. Qed.

(** X16. The bundles that [mapCutOrder] shows are the rows of the order, in
    their order, each mapped by [mapBundle] and given a name.  It counts as
    used the rows whose status is 'usado': the pending bundles are the
    stored bundle count less these, and never fewer than zero; the completed
    bundles are never more than the rows.  When the order stores no bundle
    count, the completed bundles are the rows and the pending ones the rows
    that are not used. *)
Theorem mapCutOrder_counters (order : SupabaseCutOrder) :
  let shown := mapCutOrder DATE_FORMATTER DATETIME_FORMATTER order in
  let rows := orElse (bultos order) [] in
  let total := Z.of_nat (List.length rows) in
  let used :=
    Z.of_nat (List.length (filter (fun row => estado_is (estado row) usado) rows)) in
  Forall2
    (fun row c => exists newName, c = withName (mapBundle DATETIME_FORMATTER row) newName)
    rows (bundles shown)
  /\ completedBundles shown <= total
  /\ 0 <= pendingBundles shown
  /\ pendingBundles shown = Z.max 0 (orElse (cantidad_bultos order) total - used)
  /\ (cantidad_bultos order = None ->
      completedBundles shown = total /\ pendingBundles shown = total - used).
Proof.
  cbv zeta. pose proof (shown_bundles order) as Hrows.
  pose proof (Forall2_length_eq _ _ _ Hrows) as Hlen.
  pose proof (used_shown _ _ Hrows) as Hused.
  split; [ exact Hrows | ].
  unfold mapCutOrder in *. cbn [bundles completedBundles pendingBundles] in *.
  rewrite Hlen, Hused.
  assert (Hle : (List.length (filter (fun row => estado_is (estado row) usado)
                                (orElse (bultos order) []))
                 <= List.length (orElse (bultos order) []))%nat)
    by apply filter_length_le.
  split; [ lia | ]. split; [ lia | ]. split; [ reflexivity | ].
  intros ->. cbn [orElse]. lia.
Qed.

(** X17. Of the bundles that [mapCutOrder] shows, two that have the same
    base number never have the same name. *)
Theorem sibling_names_distinct (order : SupabaseCutOrder) (i j : nat)
  (c c' : Bundle) (n : Z) :
  nth_error (bundles (mapCutOrder DATE_FORMATTER DATETIME_FORMATTER order)) i = Some c ->
  nth_error (bundles (mapCutOrder DATE_FORMATTER DATETIME_FORMATTER order)) j = Some c' ->
  i <> j ->
  rawNumber c = Some n ->
  rawNumber c' = Some n ->
  name c <> name c'.
Proof.
  unfold mapCutOrder. cbn [bundles].
  set (l := map (mapBundle DATETIME_FORMATTER) (orElse (bultos order) [])).
  intros Hc Hc' Hij Hn Hn'.
  assert (Hfrom : forall k x,
            nth_error (applyBundleDisplayNames l) k = Some x ->
            exists b, nth_error l k = Some b
                      /\ x = withName b (nameByKey l k b)
                      /\ exists row, b = mapBundle DATETIME_FORMATTER row).
  { intros k x Hx.
    assert (Hk : (k < List.length l)%nat).
    { rewrite <- DisplayNames.length_applyBundleDisplayNames.
      apply nth_error_Some. congruence. }
    destruct (nth_error l k) as [b | ] eqn:Hb;
      [ | apply nth_error_None in Hb; lia ].
    exists b. split; [ reflexivity | ].
    rewrite (DisplayNames.display_names_by_key l k b Hb) in Hx.
    injection Hx as <-. split; [ reflexivity | ].
    apply nth_error_In in Hb. unfold l in Hb. apply in_map_iff in Hb.
    destruct Hb as [row [<- _]]. now exists row. }
  destruct (Hfrom i c Hc) as [b [Hb [-> [row ->]]]].
  destruct (Hfrom j c' Hc') as [b' [Hb' [-> [row' ->]]]].
  cbn [withName rawNumber name] in *.
  assert (Hbase : baseName (mapBundle DATETIME_FORMATTER row)
                  = baseName (mapBundle DATETIME_FORMATTER row'))
    by (rewrite !baseName_mapBundle, Hn, Hn'; reflexivity).
  assert (Hkey : groupKey (mapBundle DATETIME_FORMATTER row) = numberToString n)
    by (unfold groupKey; now rewrite Hn).
  assert (Hkey' : groupKey (mapBundle DATETIME_FORMATTER row') = numberToString n)
    by (unfold groupKey; now rewrite Hn').
  unfold nameByKey, memberName. rewrite Hkey, Hkey'.
  assert (Hi : In i (membersFrom 0 (numberToString n) l)).
  { apply DisplayNames.In_membersFrom. eexists. split; [ exact Hb | ].
    rewrite Hkey. apply String.eqb_refl. }
  assert (Hj : In j (membersFrom 0 (numberToString n) l)).
  { apply DisplayNames.In_membersFrom. eexists. split; [ exact Hb' | ].
    rewrite Hkey'. apply String.eqb_refl. }
  rewrite (two_members _ _ _ Hi Hj Hij), Hbase.
  intros Heq. apply append_inv_prefix in Heq.
  apply (append_inv_prefix " - ") in Heq.
  apply DisplayNames.numberToString_inj in Heq.
  apply Hij. apply (indexOf_inj (sortBy (createdTime l) (membersFrom 0 (numberToString n) l))).
  - apply (Permutation_in _ (sortBy_perm _ _)). exact Hi.
  - lia.
Qed.

End Shown.

Lemma mapCutOrder_counters_witness :
  Projection.completedBundles
    (Projection.mapCutOrder plainDate plainDateTime orderUncounted) = 2
  /\ Projection.pendingBundles
       (Projection.mapCutOrder plainDate plainDateTime orderUncounted) = 2 - 1.
Proof.
  apply (proj2 (proj2 (proj2 (proj2
           (mapCutOrder_counters plainDate plainDateTime orderUncounted))))).
  reflexivity.
Defined.

Lemma sibling_names_distinct_witness :
  exists c c',
    nth_error
      (Projection.bundles (Projection.mapCutOrder plainDate plainDateTime orderOfThree))
      0 = Some c
    /\ nth_error
         (Projection.bundles
            (Projection.mapCutOrder plainDate plainDateTime orderOfThree))
         2 = Some c'
    /\ Projection.name c <> Projection.name c'.
Proof.
  eexists. eexists. split; [ reflexivity | ]. split; [ reflexivity | ].
  apply (sibling_names_distinct plainDate plainDateTime orderOfThree 0 2 _ _ 7);
    [ reflexivity | reflexivity | discriminate | reflexivity | reflexivity ].
Defined.

(** ** createCutOrder: the status of a new bundle *)

Lemma lower_upper_char (c : ascii) :
  Creation.lower_char (upper_char c) = Creation.lower_char c.
Proof.
  destruct c as [[ | ] [ | ] [ | ] [ | ] [ | ] [ | ] [ | ] [ | ]]; reflexivity.
Qed.

Lemma is_space_lower (c : ascii) : is_space (Creation.lower_char c) = is_space c.
Proof.
  destruct c as [[ | ] [ | ] [ | ] [ | ] [ | ] [ | ] [ | ] [ | ]]; reflexivity.
Qed.

Lemma toLowerCase_toUpperCase (s : string) :
  Creation.toLowerCase (toUpperCase s) = Creation.toLowerCase s.
Proof.
  induction s as [ | c s IH]; [ reflexivity | ].
  cbn [toUpperCase Creation.toLowerCase]. now rewrite lower_upper_char, IH.
Qed.

Lemma isEmpty_toLowerCase (s : string) : isEmpty (Creation.toLowerCase s) = isEmpty s.
Proof. now destruct s. Qed.

Lemma toLowerCase_trimStart (s : string) :
  Creation.toLowerCase (trimStart s) = trimStart (Creation.toLowerCase s).
Proof.
  induction s as [ | c s IH]; [ reflexivity | ].
  cbn [trimStart Creation.toLowerCase]. rewrite is_space_lower.
  destruct (is_space c); [ exact IH | reflexivity ].
Qed.

Lemma toLowerCase_trimEnd (s : string) :
  Creation.toLowerCase (trimEnd s) = trimEnd (Creation.toLowerCase s).
Proof.
  induction s as [ | c s IH]; [ reflexivity | ].
  cbn [trimEnd Creation.toLowerCase].
  rewrite is_space_lower, <- IH, isEmpty_toLowerCase.
  destruct (is_space c && isEmpty (trimEnd s))%bool; reflexivity.
Qed.

Lemma toLowerCase_trim (s : string) :
  Creation.toLowerCase (trim s) = trim (Creation.toLowerCase s).
Proof. unfold trim. now rewrite toLowerCase_trimEnd, toLowerCase_trimStart. Qed.

Lemma ownStatus_not_empty (k : string) (s : BundleStatusEnum) :
  Creation.ownStatus k = Some s -> isEmpty k = false.
Proof. destruct k; [ discriminate | reflexivity ]. Qed.

Lemma inheritedKey_not_own (k : string) :
  Creation.inheritedKey k = true -> Creation.ownStatus k = None /\ isEmpty k = false.
Proof.
  unfold Creation.inheritedKey. intros H. apply orb_true_iff in H.
  destruct H as [H | H]; apply String.eqb_eq in H; subst k; split; reflexivity.
Qed.

(** [bundleStatusFromInput] by the key it looks up. *)
Lemma bundleStatusFromInput_key (v : string) :
  Creation.bundleStatusFromInput (Some v)
  = match Creation.ownStatus (trim (Creation.toLowerCase v)) with
    | Some s => Creation.statusValue s
    | None =>
        if Creation.inheritedKey (trim (Creation.toLowerCase v))
        then Creation.foreignValue (trim (Creation.toLowerCase v))
        else Creation.statusValue disponible
    end.
Proof.
  unfold Creation.bundleStatusFromInput, Creation.DEFAULT_BUNDLE_STATUS.
  destruct (isEmpty v) eqn:Hv.
  - destruct v; [ reflexivity | discriminate ].
  - cbv zeta. destruct (isEmpty (trim (Creation.toLowerCase v))) eqn:He;
      [ | reflexivity ].
    destruct (trim (Creation.toLowerCase v)); [ reflexivity | discriminate ].
Qed.

(** X18. [bundleStatusFromInput] looks up its argument in lower case and
    trimmed: for one of the three names of the enumeration it returns that
    status, whatever the case and the blanks around; for 'constructor' and
    '__proto__', which the object of the labels inherits, it returns that
    name, which is no status; for anything else, and for an absent or empty
    argument, it returns 'disponible'. *)
Theorem bundleStatusFromInput_values (v : string) :
  (forall s,
      Creation.ownStatus (trim (Creation.toLowerCase v)) = Some s ->
      Creation.bundleStatusFromInput (Some v) = Creation.statusValue s)
  /\ (Creation.inheritedKey (trim (Creation.toLowerCase v)) = true ->
      Creation.bundleStatusFromInput (Some v)
      = Creation.foreignValue (trim (Creation.toLowerCase v)))
  /\ (Creation.ownStatus (trim (Creation.toLowerCase v)) = None ->
      Creation.inheritedKey (trim (Creation.toLowerCase v)) = false ->
      Creation.bundleStatusFromInput (Some v) = Creation.statusValue disponible)
  /\ Creation.bundleStatusFromInput (Some (toUpperCase v))
     = Creation.bundleStatusFromInput (Some v)
  /\ Creation.bundleStatusFromInput (Some (trim v))
     = Creation.bundleStatusFromInput (Some v)
  /\ Creation.bundleStatusFromInput None = Creation.statusValue disponible
  /\ Creation.bundleStatusFromInput (Some EmptyString)
     = Creation.statusValue disponible.
Proof.
  split; [ | split; [ | split; [ | split; [ | split; [ | split; reflexivity ] ] ] ] ].
  - intros s Hs. now rewrite bundleStatusFromInput_key, Hs.
  - intros Hk. rewrite bundleStatusFromInput_key.
    destruct (inheritedKey_not_own _ Hk) as [-> _]. now rewrite Hk.
  - intros Ho Hk. now rewrite bundleStatusFromInput_key, Ho, Hk.
  - now rewrite !bundleStatusFromInput_key, toLowerCase_toUpperCase.
  - now rewrite !bundleStatusFromInput_key, toLowerCase_trim, trim_idem.
Qed.

Lemma bundleStatusFromInput_values_witness :
  Creation.bundleStatusFromInput (Some " USADO "%string) = Creation.statusValue usado
  /\ Creation.bundleStatusFromInput (Some "Constructor"%string)
     = Creation.foreignValue "constructor"%string.
Proof.
  split.
  - apply (proj1 (bundleStatusFromInput_values " USADO "%string)). reflexivity.
  - apply (proj1 (proj2 (bundleStatusFromInput_values "Constructor"%string))).
    reflexivity.
Defined.

(** ** createCutOrder, every run *)

Lemma insertOrden_run (numero : string) (isActive : bool) (w : World) :
  Creation.insertOrden numero isActive w
  = (if served w then Ok (Some (next_id (store w))) else Ok None,
     if served w
     then withStore
            {| bultos := bultos (store w);
               historial_bultos := historial_bultos (store w);
               ordenes_corte :=
                 ordenes_corte (store w)
                 ++ [ {| orden_id := next_id (store w); numero_orden := numero;
                         activo := Some isActive |} ];
               ubicaciones := ubicaciones (store w);
               next_id := S (next_id (store w)) |}
            (after w)
     else after w).
Proof.
  unfold Creation.insertOrden, bind, getStore, putStore.
  rewrite request_run. simpl. destruct (served w); reflexivity.
Qed.

Lemma insertBultos_run (payload : list Creation.BultoPayload) (w : World) :
  Creation.insertBultos payload w
  = (if served w
     then Ok (Some (Creation.freshBultos (next_id (store w)) payload))
     else Ok None,
     if served w
     then withStore (withBultos payload (store w)) (after w)
     else after w).
Proof.
  unfold Creation.insertBultos, bind, getStore, putStore.
  rewrite request_run. simpl.
  destruct (served w); reflexivity.
Qed.

Lemma length_mapFrom {A B : Type} (f : nat -> A -> B) (l : list A) (i : nat) :
  List.length (mapFrom i f l) = List.length l.
Proof.
  revert i. induction l as [ | a l IH]; intros i; cbn [mapFrom List.length];
    [ reflexivity | now rewrite IH ].
Qed.

Lemma length_freshBultos (next : Id) (payload : list Creation.BultoPayload) :
  List.length (Creation.freshBultos next payload) = List.length payload.
Proof.
  revert next. induction payload as [ | p t IH]; intros next;
    cbn [Creation.freshBultos List.length]; [ reflexivity | now rewrite IH ].
Qed.

Lemma listed_codes (input : Creation.CreateCutOrderInput) (c : string) :
  In c (Creation.locationCodesOf input) -> isEmpty c = false.
Proof.
  unfold Creation.locationCodesOf. intros H. apply in_app_or in H.
  destruct H as [H | H].
  - induction (Creation.bundles input) as [ | b l IH]; [ destruct H | ].
    cbn [map Creation.given] in H.
    destruct (normalizeLocationCode (Creation.currentLocation b)) as [c' | ] eqn:Hn;
      [ | now apply IH ].
    destruct H as [<- | H]; [ | now apply IH ].
    exact (listed_code_of_normalize _ _ Hn).
  - unfold Creation.defaultLocationCodeOf in H.
    destruct (normalizeLocationCode _) as [c' | ] eqn:Hn; [ | destruct H ].
    destruct H as [<- | []]. exact (listed_code_of_normalize _ _ Hn).
Qed.

Lemma located (input : Creation.CreateCutOrderInput) (w w1 : World)
  (m : LocationMap) :
  ensureLocationMap (Creation.locationCodesOf input) w = (Ok m, w1) ->
  CodesBound input (store w) (store w1) m.
Proof.
  intros E.
  destruct (ensureLocationMap_bound _ _ _ _ E) as [Hbinds [Hbound [Hb [Hh Ho]]]].
  destruct (ensureLocationMap_effect _ _ _ _ E) as [_ [_ [[created [Hc _]] _]]].
  constructor; try assumption.
  - now exists created.
  - destruct (ensureLocationMap_cases _ _ _ _ E)
      as [[_ [_ ->]] | [[_ [Hr _]] | [[_ [_ [_ ->]]] | [[_ [_ [Hr _]]] | [_ [_ [_ ->]]]]]]];
      try discriminate Hr; cbn [withLocations next_id]; lia.
  - intros c Hin. apply Hbinds; [ exact Hin | exact (listed_codes _ _ Hin) ].
Qed.

(** Every run of [createCutOrder], whatever requests the store serves, ends
    in one of the five ways of [CreateOutcome]. *)
Lemma createCutOrder_outcome (now : Z) (input : Creation.CreateCutOrderInput)
  (w w' : World) (r : Creation.Outcome Id) :
  Creation.createCutOrder now input w = (r, w') ->
  CreateOutcome now input (store w) r (store w').
Proof.
  unfold Creation.createCutOrder. cbv zeta.
  fold (isActiveOf input).
  unfold Creation.andThen at 1. unfold Creation.lift at 1.
  destruct (ensureLocationMap (Creation.locationCodesOf input) w)
    as [[m | e] w1] eqn:E1.
  2:{ intros [= <- <-].
      destruct (ensureLocationMap_effect _ _ _ _ E1) as [_ [Hthrow _]].
      destruct (Hthrow e eq_refl) as [He ->]. now apply create_refused. }
  pose proof (located _ _ _ _ E1) as Hloc.
  unfold Creation.andThen at 1. unfold Creation.lift at 1.
  rewrite insertOrden_run.
  destruct (served w1).
  2:{ intros [= <- <-]. rewrite store_after.
      now apply create_stopped_at_order with (m := m). }
  fold (withOrden input (store w1)).
  destruct (Creation.bundles input) as [ | b0 bs] eqn:Hbundles.
  - intros [= <- <-]. cbn [store withStore].
    pose proof (create_done now input (store w) m (store w1) Hloc) as H.
    unfold Creation.bundlesPayloadOf in H. rewrite Hbundles in H.
    cbn [mapFrom Creation.freshBultos Creation.initialHistory map] in H.
    replace (appendHistorial [] (withBultos [] (withOrden input (store w1))))
      with (withOrden input (store w1)) in H; [ exact H | ].
    unfold appendHistorial, withBultos. cbn.
    now rewrite !app_nil_r, Nat.add_0_r.
  - assert (Hne : Creation.bundles input <> []) by (rewrite Hbundles; discriminate).
    unfold Creation.andThen at 1. unfold Creation.lift at 1.
    rewrite insertBultos_run.
    rewrite served_withStore. cbn [store withStore].
    destruct (served (after w1)) eqn:Hserved.
    2:{ intros [= <- <-]. cbn [store after withStore].
        now apply create_stopped_at_bundles with (m := m). }
    cbn [withOrden next_id].
    fold (withOrden input (store w1)).
    destruct (Creation.initialHistory now
                (Creation.freshBultos (S (next_id (store w1)))
                   (Creation.bundlesPayloadOf input m (next_id (store w1)))))
      as [ | h hs] eqn:Hhist.
    { exfalso. apply (f_equal (@List.length _)) in Hhist.
      unfold Creation.initialHistory, Creation.bundlesPayloadOf in Hhist.
      rewrite length_map, length_freshBultos, length_mapFrom, Hbundles in Hhist.
      discriminate. }
    rewrite <- Hhist.
    unfold Creation.andThen at 1. unfold Creation.lift at 1.
    rewrite insertHistorial_run.
    repeat rewrite after_withStore. repeat rewrite served_withStore.
    destruct (served (after (after w1))); cbn [negb];
      unfold Creation.returned, Creation.thrown.
    + intros [= <- <-]. cbn [store withStore].
      now apply create_done.
    + intros [= <- <-]. cbn [store after withStore].
      now apply create_stopped_at_history.
Qed.

(** ** createCutOrder: what a call leaves *)

Lemma createdBy_app (s s' : Store) (rows : list BultoRow) :
  bultos s' = bultos s ++ rows -> createdBy s s' = rows.
Proof.
  intros H. unfold createdBy. rewrite H.
  rewrite skipn_app, skipn_all, Nat.sub_diag. reflexivity.
Qed.

Lemma withOrden_tables (input : Creation.CreateCutOrderInput) (s : Store) :
  bultos (withOrden input s) = bultos s
  /\ historial_bultos (withOrden input s) = historial_bultos s
  /\ ubicaciones (withOrden input s) = ubicaciones s.
Proof. repeat split. Qed.

(** The tables of the store that a call leaves, by its result. *)
Lemma create_tables (now : Z) (input : Creation.CreateCutOrderInput)
  (s s' : Store) (r : Creation.Outcome Id) :
  CreateOutcome now input s r s' ->
  exists m s1,
    (CodesBound input s s1 m \/ (s1 = s /\ exists e, r = Creation.Thrown (Creation.ErrServicio e)))
    /\ ubicaciones s' = ubicaciones s1
    /\ extends (ubicaciones s) (ubicaciones s1)
    /\ ordenes_corte s'
       = ordenes_corte s
         ++ match r with
            | Creation.Thrown (Creation.ErrServicio _)
            | Creation.Thrown Creation.ErrCrearOrden => []
            | _ => [ {| orden_id := next_id s1;
                        numero_orden := Creation.code input;
                        activo := Some (isActiveOf input) |} ]
            end
    /\ bultos s'
       = bultos s
         ++ match r with
            | Creation.Thrown Creation.ErrHistorialInicial
            | Creation.Returned _ =>
                Creation.freshBultos (S (next_id s1))
                  (Creation.bundlesPayloadOf input m (next_id s1))
            | _ => []
            end
    /\ historial_bultos s'
       = historial_bultos s
         ++ match r with
            | Creation.Returned _ =>
                map (firstEntry now)
                  (Creation.freshBultos (S (next_id s1))
                     (Creation.bundlesPayloadOf input m (next_id s1)))
            | _ => []
            end
    /\ match r with
       | Creation.Returned id => id = next_id s1
       | _ => True
       end.
Proof.
  intros [e He | m s1 Hl | m s1 Hl Hne | m s1 Hl Hne | m s1 Hl].
  - exists [], s. split; [ right; split; [ reflexivity | now exists e ] | ].
    rewrite !app_nil_r. repeat split. apply extends_refl.
  - exists m, s1. split; [ now left | ].
    rewrite !app_nil_r. split; [ reflexivity | ].
    split; [ exact (loc_ubicaciones _ _ _ _ Hl) | ].
    split; [ exact (loc_ordenes _ _ _ _ Hl) | ].
    split; [ exact (loc_bultos _ _ _ _ Hl) | ].
    split; [ exact (loc_historial _ _ _ _ Hl) | exact I ].
  - exists m, s1. split; [ now left | ].
    rewrite !app_nil_r. cbn [withOrden ubicaciones ordenes_corte bultos historial_bultos].
    split; [ reflexivity | ].
    split; [ exact (loc_ubicaciones _ _ _ _ Hl) | ].
    split; [ now rewrite (loc_ordenes _ _ _ _ Hl) | ].
    split; [ exact (loc_bultos _ _ _ _ Hl) | ].
    split; [ exact (loc_historial _ _ _ _ Hl) | exact I ].
  - exists m, s1. split; [ now left | ].
    rewrite !app_nil_r.
    cbn [withBultos withOrden ubicaciones ordenes_corte bultos historial_bultos next_id].
    split; [ reflexivity | ].
    split; [ exact (loc_ubicaciones _ _ _ _ Hl) | ].
    split; [ now rewrite (loc_ordenes _ _ _ _ Hl) | ].
    split; [ now rewrite (loc_bultos _ _ _ _ Hl) | ].
    split; [ exact (loc_historial _ _ _ _ Hl) | exact I ].
  - exists m, s1. split; [ now left | ].
    cbn [appendHistorial withBultos withOrden ubicaciones ordenes_corte bultos
           historial_bultos next_id].
    split; [ reflexivity | ].
    split; [ exact (loc_ubicaciones _ _ _ _ Hl) | ].
    split; [ now rewrite (loc_ordenes _ _ _ _ Hl) | ].
    split; [ now rewrite (loc_bultos _ _ _ _ Hl) | ].
    split; [ now rewrite (loc_historial _ _ _ _ Hl) | reflexivity ].
Qed.

Lemma nth_error_fresh {A : Type} (f : nat -> A -> Creation.BultoPayload)
  (l : list A) (i next k : nat) :
  nth_error (Creation.freshBultos next (mapFrom i f l)) k
  = option_map (fun a => rowOf (next + k)%nat (f (i + k)%nat a)) (nth_error l k).
Proof.
  revert i next k. induction l as [ | a l IH]; intros i next k.
  - now destruct k.
  - destruct k as [ | k]; cbn [mapFrom Creation.freshBultos nth_error option_map].
    + now rewrite !Nat.add_0_r.
    + rewrite IH.
      replace (S next + k)%nat with (next + S k)%nat by lia.
      replace (S i + k)%nat with (i + S k)%nat by lia.
      reflexivity.
Qed.

(** The row created for the bundle at position [k] of the input. *)
Lemma nth_error_created (input : Creation.CreateCutOrderInput) (m : LocationMap)
  (orderId next : Id) (k : nat) (b : Creation.CreateBundleInput) :
  nth_error (Creation.bundles input) k = Some b ->
  nth_error (Creation.freshBultos next (Creation.bundlesPayloadOf input m orderId)) k
  = Some
      {| bulto_id := (next + k)%nat;
         orden_corte_id := orderId;
         numero_bulto := Some (Z.of_nat k + 1);
         cantidad_laminas := Some (orElse (Creation.sheets b) 0);
         ubicacion_id :=
           match fallbackCodeOf input b with
           | Some c => mapGet c m
           | None => None
           end;
         estado :=
           match Creation.bundleStatusFromInput (Creation.status b) with
           | Creation.statusValue s => Some s
           | Creation.foreignValue _ => None
           end;
         SSCC := Creation.orString (Creation.sscc b) None;
         LUID := Creation.orString (Creation.luid b) None |}.
Proof.
  intros Hb. unfold Creation.bundlesPayloadOf. rewrite nth_error_fresh, Hb.
  reflexivity.
Qed.

Lemma length_created (input : Creation.CreateCutOrderInput) (m : LocationMap)
  (orderId next : Id) :
  List.length (Creation.freshBultos next (Creation.bundlesPayloadOf input m orderId))
  = List.length (Creation.bundles input).
Proof.
  unfold Creation.bundlesPayloadOf. now rewrite length_freshBultos, length_mapFrom.
Qed.

Lemma fallbackCode_listed (input : Creation.CreateCutOrderInput)
  (b : Creation.CreateBundleInput) (c : string) :
  In b (Creation.bundles input) ->
  fallbackCodeOf input b = Some c ->
  In c (Creation.locationCodesOf input) /\ In c LOCATION_CODES.
Proof.
  intros Hin Hf. unfold fallbackCodeOf in Hf. unfold Creation.locationCodesOf.
  destruct (normalizeLocationCode (Creation.currentLocation b)) as [c' | ] eqn:Hn.
  - injection Hf as ->. split.
    + apply in_or_app. left.
      induction (Creation.bundles input) as [ | x l IH]; [ destruct Hin | ].
      cbn [map Creation.given]. destruct Hin as [-> | Hin].
      * rewrite Hn. now left.
      * destruct (normalizeLocationCode (Creation.currentLocation x));
          [ right | ]; now apply IH.
    + apply normalizeLocationCode_Some in Hn. now destruct Hn as [v [_ [_ H]]].
  - rewrite Hf. split; [ apply in_or_app; right; now left | ].
    unfold Creation.defaultLocationCodeOf in Hf.
    apply normalizeLocationCode_Some in Hf. now destruct Hf as [v [_ [_ H]]].
Qed.

(** A call that returns, by the tables it leaves. *)
Lemma create_returned (now : Z) (input : Creation.CreateCutOrderInput)
  (w w' : World) (id : Id) :
  Creation.createCutOrder now input w = (Creation.Returned id, w') ->
  exists m s1,
    CodesBound input (store w) s1 m
    /\ createdBy (store w) (store w')
       = Creation.freshBultos (S id) (Creation.bundlesPayloadOf input m id)
    /\ ubicaciones (store w') = ubicaciones s1
    /\ ordenes_corte (store w')
       = ordenes_corte (store w)
         ++ [ {| orden_id := id; numero_orden := Creation.code input;
                 activo := Some (isActiveOf input) |} ]
    /\ bultos (store w') = bultos (store w) ++ createdBy (store w) (store w')
    /\ historial_bultos (store w')
       = historial_bultos (store w)
         ++ map (firstEntry now) (createdBy (store w) (store w')).
Proof.
  intros E. apply createCutOrder_outcome in E.
  destruct (create_tables _ _ _ _ _ E)
    as [m [s1 [Hl [Hu [_ [Ho [Hb [Hh Hid]]]]]]]].
  subst id. destruct Hl as [Hl | [_ [e He]]]; [ | discriminate ].
  exists m, s1. pose proof (createdBy_app _ _ _ Hb) as Hc.
  split; [ exact Hl | ]. split; [ exact Hc | ]. split; [ exact Hu | ].
  split; [ exact Ho | ]. rewrite Hc. split; [ exact Hb | exact Hh ].
Qed.

Lemma created_of_order (input : Creation.CreateCutOrderInput) (m : LocationMap)
  (orderId next : Id) :
  Forall (fun row => orden_corte_id row = orderId)
    (Creation.freshBultos next (Creation.bundlesPayloadOf input m orderId)).
Proof.
  apply Forall_forall. intros row Hin. apply In_nth_error in Hin.
  destruct Hin as [k Hk]. unfold Creation.bundlesPayloadOf in Hk.
  rewrite nth_error_fresh in Hk.
  destruct (nth_error (Creation.bundles input) k); [ | discriminate ].
  injection Hk as <-. reflexivity.
Qed.

Lemma keys_fresh (next : Id) (payload : list Creation.BultoPayload) :
  map bulto_id (Creation.freshBultos next payload) = seq next (List.length payload).
Proof.
  revert next. induction payload as [ | p t IH]; intros next; [ reflexivity | ].
  cbn [Creation.freshBultos map List.length seq bulto_id]. now rewrite IH.
Qed.

Lemma numbers_created (input : Creation.CreateCutOrderInput) (m : LocationMap)
  (orderId next : Id) :
  map numero_bulto
    (Creation.freshBultos next (Creation.bundlesPayloadOf input m orderId))
  = map (fun k => Some (Z.of_nat k + 1)) (seq 0 (List.length (Creation.bundles input))).
Proof.
  unfold Creation.bundlesPayloadOf. generalize 0%nat. revert next.
  induction (Creation.bundles input) as [ | b l IH]; intros next i;
    [ reflexivity | ].
  cbn [mapFrom Creation.freshBultos map List.length seq numero_bulto
         Creation.p_numero_bulto].
  now rewrite IH.
Qed.

(** X19. [createCutOrder] is not atomic.  It never removes a location.  When
    [ensureLocationMap] throws, the store is as it was; when the insertion
    of the order fails, at most locations were added; when the insertion of
    the bundles fails, the order is in the table, with no bundle and no
    history; when the insertion of the history fails, the order and its
    bundles are in the tables, with no history.  When it returns, the order,
    with the key returned, the number given and its flag true unless the
    status given is 'Inactivo', is the last row of the orders; the bundles
    created, one for each of the input, are the last rows of the bundles;
    and the history has one more 'mover' entry for each of them, to the
    location it has. *)
Theorem createCutOrder_states (now : Z) (input : Creation.CreateCutOrderInput)
  (w w' : World) (r : Creation.Outcome Id) :
  Creation.createCutOrder now input w = (r, w') ->
  extends (ubicaciones (store w)) (ubicaciones (store w'))
  /\ (forall e, r = Creation.Thrown (Creation.ErrServicio e) -> store w' = store w)
  /\ (r = Creation.Thrown Creation.ErrCrearOrden ->
      ordenes_corte (store w') = ordenes_corte (store w)
      /\ bultos (store w') = bultos (store w)
      /\ historial_bultos (store w') = historial_bultos (store w))
  /\ (r = Creation.Thrown Creation.ErrGuardarBultos ->
      Creation.bundles input <> []
      /\ (exists key,
             ordenes_corte (store w')
             = ordenes_corte (store w)
               ++ [ {| orden_id := key; numero_orden := Creation.code input;
                       activo := Some (isActiveOf input) |} ])
      /\ bultos (store w') = bultos (store w)
      /\ historial_bultos (store w') = historial_bultos (store w))
  /\ (r = Creation.Thrown Creation.ErrHistorialInicial ->
      Creation.bundles input <> []
      /\ (exists key,
             ordenes_corte (store w')
             = ordenes_corte (store w)
               ++ [ {| orden_id := key; numero_orden := Creation.code input;
                       activo := Some (isActiveOf input) |} ]
             /\ Forall (fun row => orden_corte_id row = key)
                  (createdBy (store w) (store w')))
      /\ bultos (store w') = bultos (store w) ++ createdBy (store w) (store w')
      /\ List.length (createdBy (store w) (store w'))
         = List.length (Creation.bundles input)
      /\ historial_bultos (store w') = historial_bultos (store w))
  /\ (forall id,
         r = Creation.Returned id ->
         ordenes_corte (store w')
         = ordenes_corte (store w)
           ++ [ {| orden_id := id; numero_orden := Creation.code input;
                   activo := Some (isActiveOf input) |} ]
         /\ Forall (fun row => orden_corte_id row = id)
              (createdBy (store w) (store w'))
         /\ bultos (store w') = bultos (store w) ++ createdBy (store w) (store w')
         /\ List.length (createdBy (store w) (store w'))
            = List.length (Creation.bundles input)
         /\ historial_bultos (store w')
            = historial_bultos (store w)
              ++ map (firstEntry now) (createdBy (store w) (store w'))).
Proof.
  intros E. pose proof (createCutOrder_outcome _ _ _ _ _ E) as H.
  destruct (create_tables _ _ _ _ _ H)
    as [m [s1 [Hl [Hu [Hext [Ho [Hb [Hh Hr]]]]]]]].
  split; [ now rewrite Hu | ].
  split; [ | split; [ | split; [ | split ] ] ].
  - intros e ->. inversion H. reflexivity.
  - intros ->. rewrite !app_nil_r in *. now repeat split.
  - intros ->. rewrite !app_nil_r in *.
    split; [ inversion H; assumption | ].
    split; [ now exists (next_id s1) | now split ].
  - intros ->. rewrite !app_nil_r in *.
    pose proof (createdBy_app _ _ _ Hb) as Hc. rewrite Hc.
    split; [ inversion H; assumption | ].
    split; [ exists (next_id s1); split; [ exact Ho | apply created_of_order ] | ].
    split; [ exact Hb | ]. split; [ apply length_created | exact Hh ].
  - intros id ->. subst id.
    pose proof (createdBy_app _ _ _ Hb) as Hc. rewrite Hc.
    split; [ exact Ho | ]. split; [ apply created_of_order | ].
    split; [ exact Hb | ]. split; [ apply length_created | exact Hh ].
Qed.

Lemma createCutOrder_states_witness :
  bultos (store (snd (Creation.createCutOrder 5000 orderOfTwo
                        {| store := store1001; faults := [true; true; true; false] |})))
  = bultos store1001
  /\ historial_bultos
       (store (snd (Creation.createCutOrder 5000 orderOfTwo
                      {| store := store1001; faults := [true; true; true; false] |})))
     = historial_bultos store1001.
Proof.
  destruct (Creation.createCutOrder 5000 orderOfTwo
              {| store := store1001; faults := [true; true; true; false] |})
    as [r w'] eqn:E.
  assert (Hr : r = Creation.Thrown Creation.ErrGuardarBultos)
    by (pose proof (f_equal fst E) as Hf; vm_compute in Hf; symmetry; exact Hf).
  cbn [snd].
  destruct (proj1 (proj2 (proj2 (proj2 (createCutOrder_states _ _ _ _ _ E)))) Hr)
    as [_ [_ [Hb Hh]]].
  split; [ exact Hb | exact Hh ].
Defined.

(** An order of two bundles with the statuses given. *)
Lemma created_statuses (input : Creation.CreateCutOrderInput) (m : LocationMap)
  (orderId next : Id) :
  Forall2
    (fun b row =>
       orden_corte_id row = orderId
       /\ cantidad_laminas row = Some (orElse (Creation.sheets b) 0)
       /\ (forall st,
              Creation.bundleStatusFromInput (Creation.status b)
              = Creation.statusValue st ->
              estado row = Some st)
       /\ SSCC row = Creation.orString (Creation.sscc b) None
       /\ LUID row = Creation.orString (Creation.luid b) None)
    (Creation.bundles input)
    (Creation.freshBultos next (Creation.bundlesPayloadOf input m orderId)).
Proof.
  apply Forall2_nth_error; [ apply length_created | ].
  intros k b row Hb Hrow. rewrite (nth_error_created _ _ _ _ _ _ Hb) in Hrow.
  injection Hrow as <-. cbn.
  split; [ reflexivity | ]. split; [ reflexivity | ]. split; [ | now split ].
  intros st Hst. now rewrite Hst.
Qed.

(** X20. The bundles that a call of [createCutOrder] has created are, one
    for each bundle of the input and in its order: each belongs to the order
    created, has the sheets given for it, or none when no count was given,
    the status that [bundleStatusFromInput] returns for it when that is a
    value of the enumeration, and the identifiers given when they are not
    empty. *)
Theorem createCutOrder_rows (now : Z) (input : Creation.CreateCutOrderInput)
  (w w' : World) (id : Id) :
  Creation.createCutOrder now input w = (Creation.Returned id, w') ->
  Forall2
    (fun b row =>
       orden_corte_id row = id
       /\ cantidad_laminas row = Some (orElse (Creation.sheets b) 0)
       /\ (forall st,
              Creation.bundleStatusFromInput (Creation.status b)
              = Creation.statusValue st ->
              estado row = Some st)
       /\ SSCC row = Creation.orString (Creation.sscc b) None
       /\ LUID row = Creation.orString (Creation.luid b) None)
    (Creation.bundles input) (createdBy (store w) (store w')).
Proof.
  intros E. destruct (create_returned _ _ _ _ _ E) as [m [s1 [_ [Hc _]]]].
  rewrite Hc. apply created_statuses.
Qed.

Lemma createCutOrder_rows_witness :
  map (fun row => (cantidad_laminas row, estado row))
    (createdBy store1001
       (store (snd (Creation.createCutOrder 5000 orderOfTwo
                      {| store := store1001; faults := [] |}))))
  = [(Some 100, Some disponible); (Some 100, Some disponible)].
Proof.
  destruct (Creation.createCutOrder 5000 orderOfTwo
              {| store := store1001; faults := [] |}) as [r w'] eqn:E.
  assert (Hr : r = Creation.Returned 21%nat)
    by (pose proof (f_equal fst E) as Hf; vm_compute in Hf; symmetry; exact Hf).
  subst r. cbn [snd].
  pose proof (createCutOrder_rows _ _ _ _ _ E) as H.
  cbn [orderOfTwo Creation.bundles] in H.
  inversion H as [ | b1 r1 bs rs [_ [Hs1 [He1 _]]] Hrest Hb Hrows ].
  inversion Hrest as [ | b2 r2 bs' rs' [_ [Hs2 [He2 _]]] Hnone Hb' Hrows' ].
  inversion Hnone as [ Hb'' Hrows'' | ].
  cbn [map]. rewrite Hs1, Hs2, (He1 disponible eq_refl), (He2 disponible eq_refl).
  reflexivity.
Defined.

(** X21. [createCutOrder] numbers the bundles it creates 1, 2, ... in the
    order of the input.  With at most 999 bundles, the number of each
    decodes to itself as base and to variant 1: no two of them are siblings.
    With more, the bundle at position 1000 decodes to base 1 and variant 1,
    as the first one does. *)
Theorem created_numbers (now : Z) (input : Creation.CreateCutOrderInput)
  (w w' : World) (id : Id) :
  Creation.createCutOrder now input w = (Creation.Returned id, w') ->
  map numero_bulto (createdBy (store w) (store w'))
  = map (fun k => Some (Z.of_nat k + 1)) (seq 0 (List.length (Creation.bundles input)))
  /\ ((List.length (Creation.bundles input) <= 999)%nat ->
      map (fun row => decodeBundleNumber (numero_bulto row))
        (createdBy (store w) (store w'))
      = map (fun k => {| base := Some (Z.of_nat k + 1); variant := Some 1 |})
          (seq 0 (List.length (Creation.bundles input))))
  /\ (forall first late,
         nth_error (createdBy (store w) (store w')) 0 = Some first ->
         nth_error (createdBy (store w) (store w')) 999 = Some late ->
         decodeBundleNumber (numero_bulto late) = decodeBundleNumber (numero_bulto first)
         /\ decodeBundleNumber (numero_bulto first)
            = {| base := Some 1; variant := Some 1 |}).
Proof.
  intros E. destruct (create_returned _ _ _ _ _ E) as [m [s1 [_ [Hc _]]]].
  rewrite Hc. pose proof (numbers_created input m id (S id)) as Hn.
  split; [ exact Hn | ]. split.
  - intros Hlen. rewrite <- (map_map numero_bulto decodeBundleNumber), Hn, map_map.
    apply map_ext_in. intros k Hk. apply in_seq in Hk.
    apply decode_plain_number. lia.
  - intros first late Hf Hl.
    assert (Hnum : forall k row,
               nth_error (Creation.freshBultos (S id)
                            (Creation.bundlesPayloadOf input m id)) k = Some row ->
               numero_bulto row = Some (Z.of_nat k + 1)).
    { intros k row Hrow. unfold Creation.bundlesPayloadOf in Hrow.
      rewrite nth_error_fresh in Hrow.
      destruct (nth_error (Creation.bundles input) k); [ | discriminate ].
      injection Hrow as <-. reflexivity. }
    rewrite (Hnum _ _ Hf), (Hnum _ _ Hl). split; reflexivity.
Qed.

Lemma created_numbers_witness :
  map (fun row => decodeBundleNumber (numero_bulto row))
    (createdBy store1001
       (store (snd (Creation.createCutOrder 5000 orderOfTwo
                      {| store := store1001; faults := [] |}))))
  = [ {| base := Some 1; variant := Some 1 |};
      {| base := Some 2; variant := Some 1 |} ].
Proof.
  destruct (Creation.createCutOrder 5000 orderOfTwo
              {| store := store1001; faults := [] |}) as [r w'] eqn:E.
  assert (Hr : r = Creation.Returned 21%nat)
    by (pose proof (f_equal fst E) as Hf; vm_compute in Hf; symmetry; exact Hf).
  subst r. cbn [snd].
  apply (proj1 (proj2 (created_numbers _ _ _ _ _ E))). cbn. lia.
Defined.

(** X22. Each bundle that [createCutOrder] has created is at the location of
    the code given for it, when that code normalizes to a listed code, and
    otherwise at the location of the default code, the filter of the input
    or else the code of its first bundle: its location is the key of a row
    of the locations that carries that code.  A bundle for which neither
    code is a listed one has no location.  No location is removed. *)
Theorem created_locations (now : Z) (input : Creation.CreateCutOrderInput)
  (w w' : World) (id : Id) :
  Creation.createCutOrder now input w = (Creation.Returned id, w') ->
  Forall2
    (fun b row =>
       match fallbackCodeOf input b with
       | Some c =>
           In c LOCATION_CODES
           /\ exists loc,
               In loc (ubicaciones (store w'))
               /\ codigo loc = Some c
               /\ ubicacion_id row = Some (ubicacion_row_id loc)
       | None => ubicacion_id row = None
       end)
    (Creation.bundles input) (createdBy (store w) (store w'))
  /\ extends (ubicaciones (store w)) (ubicaciones (store w')).
Proof.
  intros E. destruct (create_returned _ _ _ _ _ E)
    as [m [s1 [Hl [Hc [Hu _]]]]].
  rewrite Hc, Hu. split; [ | exact (loc_ubicaciones _ _ _ _ Hl) ].
  apply Forall2_nth_error; [ apply length_created | ].
  intros k b row Hb Hrow. rewrite (nth_error_created _ _ _ _ _ _ Hb) in Hrow.
  injection Hrow as <-. cbn [ubicacion_id].
  destruct (fallbackCodeOf input b) as [c | ] eqn:Hf; [ | reflexivity ].
  destruct (fallbackCode_listed input b c (nth_error_In _ _ Hb) Hf) as [Hin Hlisted].
  split; [ exact Hlisted | ].
  destruct (loc_binds _ _ _ _ Hl c Hin) as [loc [Hloc [Hcode Hget]]].
  exists loc. now rewrite Hget.
Qed.

Lemma created_locations_witness :
  extends (ubicaciones store1001)
    (ubicaciones
       (store (snd (Creation.createCutOrder 5000 orderOfTwo
                      {| store := store1001; faults := [] |})))).
Proof.
  destruct (Creation.createCutOrder 5000 orderOfTwo
              {| store := store1001; faults := [] |}) as [r w'] eqn:E.
  assert (Hr : r = Creation.Returned 21%nat)
    by (pose proof (f_equal fst E) as Hf; vm_compute in Hf; symmetry; exact Hf).
  subst r. cbn [snd].
  exact (proj2 (created_locations _ _ _ _ _ E)).
Defined.

(** With every request served, [createCutOrder] returns. *)
Lemma create_served (now : Z) (input : Creation.CreateCutOrderInput) (w w' : World)
  (r : Creation.Outcome Id) :
  faults w = [] ->
  Creation.createCutOrder now input w = (r, w') ->
  exists id, r = Creation.Returned id.
Proof.
  intros Hf. unfold Creation.createCutOrder. cbv zeta.
  unfold Creation.andThen at 1. unfold Creation.lift at 1.
  destruct (ensureLocationMap (Creation.locationCodesOf input) w)
    as [rm w1] eqn:E1.
  destruct (ensureLocationMap_served _ _ _ _ Hf E1) as [[m ->] Hf1].
  destruct (no_faults w1 Hf1) as [Hs Ha].
  unfold Creation.andThen at 1. unfold Creation.lift at 1.
  rewrite insertOrden_run, Hs, Ha.
  destruct (Creation.bundles input) as [ | b0 bs] eqn:Hbundles.
  - intros [= <- _]. now eexists.
  - try rewrite <- Hbundles.
    unfold Creation.andThen at 1. unfold Creation.lift at 1.
    rewrite insertBultos_run, served_withStore, Hs.
    cbn [store withStore].
    match goal with
    | |- context [Creation.initialHistory now ?rows] =>
        destruct (Creation.initialHistory now rows) as [ | h hs]
    end.
    + intros [= <- _]. now eexists.
    + unfold Creation.andThen at 1. unfold Creation.lift at 1.
      rewrite insertHistorial_run.
      repeat rewrite after_withStore. repeat rewrite served_withStore.
      rewrite Ha, Hs. cbn [negb]. intros [= <- _]. now eexists.
Qed.

Lemma map_mapFrom {A B C : Type} (g : B -> C) (f : nat -> A -> B) (h : A -> C)
  (l : list A) (i : nat) :
  (forall k a, g (f k a) = h a) ->
  map g (mapFrom i f l) = map h l.
Proof.
  intros H. revert i. induction l as [ | a l IH]; intros i; [ reflexivity | ].
  cbn [mapFrom map]. now rewrite H, IH.
Qed.

(** X23. With every request served, [createCutOrder] returns the key of an
    order, whatever statuses are given for the bundles: it has no test on
    the status of a bundle.  The status that the payload of the insertion
    carries for a bundle is what [bundleStatusFromInput] returns for it, be
    it a value of the enumeration or not: for the status 'Constructor', the
    payload carries 'constructor', the name of an inherited property of the
    table of labels. *)
Theorem createCutOrder_returns (now : Z) (input : Creation.CreateCutOrderInput)
  (s : Store) :
  (exists id,
      fst (Creation.createCutOrder now input {| store := s; faults := [] |})
      = Creation.Returned id)
  /\ (forall m orderId,
         map Creation.p_estado (Creation.bundlesPayloadOf input m orderId)
         = map (fun b => Creation.bundleStatusFromInput (Creation.status b))
             (Creation.bundles input))
  /\ (exists id,
         fst (Creation.createCutOrder now orderForeign {| store := s; faults := [] |})
         = Creation.Returned id)
  /\ (forall m orderId,
         map Creation.p_estado (Creation.bundlesPayloadOf orderForeign m orderId)
         = [Creation.statusValue disponible; Creation.foreignValue "constructor"]).
Proof.
  assert (Hret : forall input',
             exists id,
               fst (Creation.createCutOrder now input' {| store := s; faults := [] |})
               = Creation.Returned id).
  { intros input'.
    destruct (Creation.createCutOrder now input' {| store := s; faults := [] |})
      as [r w'] eqn:E.
    exact (create_served now input' {| store := s; faults := [] |} _ _ eq_refl E). }
  split; [ apply Hret | ].
  split; [ intros m orderId; unfold Creation.bundlesPayloadOf;
           now apply map_mapFrom | ].
  split; [ apply Hret | ].
  intros m orderId. reflexivity.
Qed.


(** ** The panel of an order *)

(** X24. The bundle on which the panel acts is one of the bundles that pass
    its two filters: there is none exactly when no bundle passes them; it is
    the bundle selected when that one passes them, and otherwise the first
    that does; its key is the key that the panel highlights. *)
Theorem active_bundle_shown (statusFilter locationFilter : string)
  (selected : option string) (bundles : list Projection.Bundle) :
  let filtered := Panel.filteredBundles statusFilter locationFilter bundles in
  (Panel.activeBundle selected filtered = None <-> filtered = [])
  /\ (forall b,
         Panel.activeBundle selected filtered = Some b ->
         In b filtered
         /\ In b bundles
         /\ Panel.effectiveBundleId selected filtered = Some (Projection.id b))
  /\ (forall sel b,
         selected = Some sel ->
         isEmpty sel = false ->
         In b filtered ->
         Projection.id b = sel ->
         exists a,
           Panel.activeBundle selected filtered = Some a /\ Projection.id a = sel)
  /\ ((forall sel, selected = Some sel ->
                   forall b, In b filtered -> Projection.id b <> sel) ->
      Panel.activeBundle selected filtered = hd_error filtered).
Proof.
  cbv zeta. set (filtered := Panel.filteredBundles statusFilter locationFilter bundles).
  assert (Hfirst : forall l,
             match Panel.firstId l with
             | Some e => find (fun bundle => String.eqb (Projection.id bundle) e) l
             | None => None
             end = hd_error l).
  { intros [ | b l]; [ reflexivity | ]. cbn. now rewrite String.eqb_refl. }
  assert (Hfound : forall e b,
             find (fun bundle => String.eqb (Projection.id bundle) e) filtered = Some b ->
             In b filtered /\ In b bundles /\ Projection.id b = e).
  { intros e b Hf. apply find_some in Hf. destruct Hf as [Hin He].
    apply String.eqb_eq in He. split; [ exact Hin | ]. split; [ | exact He ].
    unfold filtered, Panel.filteredBundles in Hin. now apply filter_In in Hin. }
  assert (Hsel : forall sel,
             existsb (fun bundle => String.eqb (Projection.id bundle) sel) filtered = true ->
             exists a,
               find (fun bundle => String.eqb (Projection.id bundle) sel) filtered = Some a).
  { intros sel Hex. apply existsb_exists in Hex. destruct Hex as [x [Hx Hid]].
    destruct (find _ filtered) as [a | ] eqn:Hf; [ now exists a | ].
    apply (find_none _ _ Hf) in Hx. congruence. }
  assert (Hhd : forall l : list Projection.Bundle, hd_error l = None <-> l = [])
    by (intros [ | x l]; split; intros H; try reflexivity; discriminate H).
  unfold Panel.activeBundle, Panel.effectiveBundleId.
  split; [ | split; [ | split ] ].
  - destruct selected as [sel | ].
    + destruct (negb (isEmpty sel)
                && existsb (fun bundle => String.eqb (Projection.id bundle) sel) filtered)%bool
        eqn:Hc.
      * apply andb_prop in Hc. destruct Hc as [_ Hex].
        destruct (Hsel sel Hex) as [a Ha]. rewrite Ha. split; [ discriminate | ].
        intros Hnil. rewrite Hnil in Ha. discriminate.
      * rewrite Hfirst. apply Hhd.
    + rewrite Hfirst. apply Hhd.
  - intros b. destruct selected as [sel | ].
    + destruct (negb (isEmpty sel)
                && existsb (fun bundle => String.eqb (Projection.id bundle) sel) filtered)%bool.
      * intros Hf. destruct (Hfound _ _ Hf) as [H1 [H2 H3]]. subst sel. tauto.
      * destruct (Panel.firstId filtered) as [e | ]; [ | discriminate ].
        intros Hf. destruct (Hfound _ _ Hf) as [H1 [H2 H3]]. subst e. tauto.
    + destruct (Panel.firstId filtered) as [e | ]; [ | discriminate ].
      intros Hf. destruct (Hfound _ _ Hf) as [H1 [H2 H3]]. subst e. tauto.
  - intros sel b -> Hne Hin Hid. rewrite Hne. cbn [negb andb].
    assert (Hex : existsb (fun bundle => String.eqb (Projection.id bundle) sel)
                    filtered = true).
    { apply existsb_exists. exists b. split; [ exact Hin | ].
      now apply String.eqb_eq. }
    rewrite Hex. destruct (Hsel sel Hex) as [a Ha]. exists a. split; [ exact Ha | ].
    now destruct (Hfound _ _ Ha) as [_ [_ H]].
  - intros Hno. destruct selected as [sel | ]; [ | apply Hfirst ].
    assert (Hex : existsb (fun bundle => String.eqb (Projection.id bundle) sel)
                    filtered = false).
    { destruct (existsb _ filtered) eqn:Hex; [ | reflexivity ].
      apply existsb_exists in Hex. destruct Hex as [x [Hx Hid]].
      apply String.eqb_eq in Hid. now destruct (Hno sel eq_refl x Hx). }
    rewrite Hex, andb_false_r. apply Hfirst.
Qed.

Lemma active_bundle_shown_witness :
  exists a,
    Panel.activeBundle (Some "c"%string)
      (Panel.filteredBundles "todos" "todos"
         (Projection.bundles
            (Projection.mapCutOrder plainDate plainDateTime orderOfThree)))
    = Some a
    /\ Projection.id a = "c"%string.
Proof.
  eapply (proj1 (proj2 (proj2
            (active_bundle_shown "todos" "todos" (Some "c"%string)
               (Projection.bundles
                  (Projection.mapCutOrder plainDate plainDateTime orderOfThree)))))
          "c"%string).
  - reflexivity.
  - reflexivity.
  - cbn. right. right. left. reflexivity.
  - reflexivity.
Defined.

(** X25. For a bundle shown from a stored row, the panel leaves 'Utilizar'
    enabled exactly when the status of the row is 'asignado', the status
    that [applyBundleAction] requires of a bundle to use; and each of its
    three status filters passes exactly the bundles whose row has the
    status it names, 'utilizado' standing for 'usado'. *)
Theorem use_offered_iff_assigned (fmt : Z -> string)
  (row : Projection.SupabaseBundle) (newName : string) :
  let shown := Projection.withName (Projection.mapBundle fmt row) newName in
  (Panel.dialogDisabledActions (Some shown) = []
   <-> estado_is (Projection.estado row) asignado = true)
  /\ Panel.filteredBundles "disponible" "todos" [shown]
     = (if estado_is (Projection.estado row) disponible then [shown] else [])
  /\ Panel.filteredBundles "asignado" "todos" [shown]
     = (if estado_is (Projection.estado row) asignado then [shown] else [])
  /\ Panel.filteredBundles "utilizado" "todos" [shown]
     = (if estado_is (Projection.estado row) usado then [shown] else [])
  /\ Panel.filteredBundles "todos" "todos" [shown] = [shown].
Proof.
  cbv zeta. unfold Panel.dialogDisabledActions, Panel.filteredBundles.
  cbn [filter Projection.withName Projection.status Projection.currentLocation].
  unfold Projection.mapBundle. cbn.
  destruct (Projection.estado row) as [[ | | ] | ]; cbn;
    repeat split; try discriminate; reflexivity.
Qed.

Lemma use_offered_iff_assigned_witness :
  Panel.dialogDisabledActions
    (Some (Projection.withName
             (Projection.mapBundle plainDateTime (bundleWith (Some asignado) []))
             "Bulto #1"%string))
  = [].
Proof.
  apply (proj1 (use_offered_iff_assigned plainDateTime
                  (bundleWith (Some asignado) []) "Bulto #1"%string)).
  reflexivity.
Defined.

(** ** A bundle created, then split *)

Lemma create_returned_key (now : Z) (input : Creation.CreateCutOrderInput)
  (w w' : World) (id : Id) :
  Creation.createCutOrder now input w = (Creation.Returned id, w') ->
  (next_id (store w) <= id)%nat.
Proof.
  intros E. apply createCutOrder_outcome in E.
  inversion E as [ | | | | m s1 Hl]; subst.
  exact (loc_next _ _ _ _ Hl).
Qed.

Lemma filter_unique_key (l : list BultoRow) (x : BultoRow) :
  NoDup (map bulto_id l) -> In x l -> filter (hasId (bulto_id x)) l = [x].
Proof.
  induction l as [ | a l IH]; [ intros _ [] | ].
  cbn [map filter]. intros Hnd Hin. inversion Hnd as [ | k ks Hk Hks]; subst.
  assert (Hnone : forall y, ~ In (bulto_id y) (map bulto_id l) ->
                            filter (hasId (bulto_id y)) l = []).
  { intros y Hy. clear -Hy. induction l as [ | z l IH]; [ reflexivity | ].
    cbn [filter map] in *. unfold hasId at 1.
    destruct (Nat.eqb_spec (bulto_id z) (bulto_id y)) as [Heq | _].
    - exfalso. apply Hy. now left.
    - apply IH. intros H. apply Hy. now right. }
  destruct Hin as [-> | Hin].
  - unfold hasId at 1. rewrite Nat.eqb_refl. now rewrite (Hnone x Hk).
  - unfold hasId at 1.
    destruct (Nat.eqb_spec (bulto_id a) (bulto_id x)) as [Heq | _].
    + exfalso. apply Hk. rewrite Heq. now apply in_map.
    + now apply IH.
Qed.

Lemma base_of_positive (n : Z) :
  1 <= n -> exists b, 1 <= b /\ base (decodeBundleNumber (Some n)) = Some b.
Proof.
  intros Hn. unfold decodeBundleNumber, BUNDLE_SPLIT_NUMBER_FACTOR.
  destruct (Z.leb_spec 1000 n) as [Hge | Hlt].
  - exists (n / 1000). split; [ | reflexivity ].
    apply Z.div_le_lower_bound; lia.
  - exists n. split; [ exact Hn | reflexivity ].
Qed.

(** X26. Every bundle that [createCutOrder] has created can be split: in a
    store where no bundle has a key that is yet to be given, once the call
    has returned, a split of one of the bundles created, for the order
    created, of fewer sheets than it has and more than none, with the four
    identifiers given, returns when its requests are served; the base of
    the bundle is at least 1. *)
Theorem created_bundle_splits (now later : Z) (input : Creation.CreateCutOrderInput)
  (w w' : World) (id : Id) (row : BultoRow) (inp : SplitInput) :
  keysGiven (store w) ->
  Creation.createCutOrder now input w = (Creation.Returned id, w') ->
  In row (createdBy (store w) (store w')) ->
  bundleId inp = bulto_id row ->
  orderId inp = id ->
  0 < sheets inp < orElse (cantidad_laminas row) 0 ->
  identifiersGiven inp = true ->
  exists b,
    1 <= b
    /\ base (decodeBundleNumber (numero_bulto row)) = Some b
    /\ splitBundle later inp {| store := store w'; faults := [] |}
       = (Ok tt, {| store := splitLogged later inp row b (store w'); faults := [] |}).
Proof.
  intros Hkeys E Hin Hbid Hoid Hsheets Hids.
  pose proof (create_returned_key _ _ _ _ _ E) as Hkey.
  destruct (create_returned _ _ _ _ _ E) as [m [s1 [_ [Hc [_ [_ [Hb _]]]]]]].
  assert (Hrows : map bulto_id (createdBy (store w) (store w'))
                  = seq (S id) (List.length (Creation.bundles input))).
  { rewrite Hc, keys_fresh. unfold Creation.bundlesPayloadOf.
    now rewrite length_mapFrom. }
  assert (Hnum : exists k, numero_bulto row = Some (Z.of_nat k + 1)
                           /\ orden_corte_id row = id).
  { rewrite Hc in Hin. apply In_nth_error in Hin. destruct Hin as [k Hk].
    unfold Creation.bundlesPayloadOf in Hk. rewrite nth_error_fresh in Hk.
    destruct (nth_error (Creation.bundles input) k); [ | discriminate ].
    injection Hk as <-. exists k. split; reflexivity. }
  destruct Hnum as [k [Hnum Horder]].
  destruct (base_of_positive (Z.of_nat k + 1) ltac:(lia)) as [b [Hb1 Hbase]].
  exists b. split; [ exact Hb1 | ]. rewrite Hnum. split; [ exact Hbase | ].
  apply splitBundle_completes. constructor.
  - exact Hids.
  - unfold targetOf. rewrite Hb, filter_app, Hbid.
    assert (Hold : filter (hasId (bulto_id row)) (bultos (store w)) = []).
    { assert (Hrow : (S id <= bulto_id row)%nat).
      { assert (Hi : In (bulto_id row) (seq (S id) (List.length (Creation.bundles input))))
          by (rewrite <- Hrows; now apply in_map).
        apply in_seq in Hi. lia. }
      clear -Hkeys Hkey Hrow. unfold keysGiven in Hkeys.
      induction (bultos (store w)) as [ | z l IH]; [ reflexivity | ].
      cbn [filter]. unfold hasId at 1.
      destruct (Nat.eqb_spec (bulto_id z) (bulto_id row)) as [Heq | _].
      - specialize (Hkeys z (or_introl eq_refl)). lia.
      - apply IH. intros y Hy. apply Hkeys. now right. }
    rewrite Hold. cbn [app].
    rewrite filter_unique_key; [ reflexivity | | exact Hin ].
    rewrite Hrows. apply seq_NoDup.
  - now rewrite Horder, Hoid.
  - exact Hsheets.
  - now rewrite Hnum.
  - lia.
Qed.

Lemma created_bundle_splits_witness :
  fst (splitBundle 6000 splitCreated
         {| store :=
              store (snd (Creation.createCutOrder 5000 orderOfTwo
                            {| store := store1001; faults := [] |}));
            faults := [] |})
  = Ok tt.
Proof.
  destruct (Creation.createCutOrder 5000 orderOfTwo
              {| store := store1001; faults := [] |}) as [r w'] eqn:E.
  pose proof E as E'. vm_compute in E'. injection E' as Hr Hw.
  subst r. cbn [snd].
  assert (Hkeys : keysGiven store1001).
  { intros row [<- | [<- | []]]; cbn; lia. }
  assert (Hrow : exists row,
             In row (createdBy store1001 (store w')) /\ bulto_id row = 22%nat
             /\ cantidad_laminas row = Some 100).
  { rewrite <- Hw. eexists. split; [ left; reflexivity | split; reflexivity ]. }
  destruct Hrow as [row [Hin [Hid Hsheets]]].
  destruct (created_bundle_splits 5000 6000 orderOfTwo
              {| store := store1001; faults := [] |} w' 21%nat row splitCreated
              Hkeys E Hin)
    as [b [_ [_ Hrun]]].
  - now rewrite Hid.
  - reflexivity.
  - rewrite Hsheets. cbn. lia.
  - reflexivity.
  - now rewrite Hrun.
Defined.

(** ** splitBundle on any quantity *)


Lemma splitBundle_outcome_of_quantity (now : Z) (inp : Numeric.SplitInput)
  (w w' : World) (r : Result unit) :
  Numeric.splitBundle now inp w = (r, w') ->
  QuantityOutcome now inp (store w) r (store w').
Proof.
  intros E. unfold Numeric.splitBundle in E.
  destruct (Numeric.leq (Numeric.sheets inp) (Numeric.integer 0)) eqn:Hk;
    [ thrown E; now apply quantity_rejected | ].
  destruct (isEmpty _ || _ || _ || _)%bool eqn:Hid;
    [ thrown E; now apply quantity_rejected | ].
  unfold bind at 1 in E. rewrite selectBultoSingle_run in E.
  destruct (served w) eqn:Hs1; [ | thrown E; now apply quantity_rejected ].
  destruct (targetOf (Numeric.bundleId inp) (store w)) as [bundle | ] eqn:Ht;
    [ | thrown E; now apply quantity_rejected ].
  destruct (Nat.eqb_spec (orden_corte_id bundle) (Numeric.orderId inp)) as [Ho | Ho];
    [ | thrown E; now apply quantity_rejected ].
  cbn [negb] in E.
  destruct (Numeric.geq (Numeric.sheets inp)
              (Numeric.integer (orElse (cantidad_laminas bundle) 0))) eqn:Hc;
    [ thrown E; now apply quantity_rejected | ].
  destruct (base (decodeBundleNumber (numero_bulto bundle))) as [b | ] eqn:Hb;
    [ | thrown E; now apply quantity_rejected ].
  destruct (Z.eqb_spec b 0) as [Hz | Hz]; [ thrown E; now apply quantity_rejected | ].
  assert (Hadm : QuantityAccepted inp (store w) bundle b).
  { constructor; try assumption.
    - unfold identifiersOf. now rewrite Hid.
    - unfold quantityPasses, Numeric.geq in *.
      destruct (Numeric.sheets inp) as [k | | [ | ]]; cbn [Numeric.leq] in Hk, Hc;
        [ apply Z.leb_gt in Hk; apply Z.leb_gt in Hc; lia | exact I
        | discriminate | discriminate ]. }
  unfold bind at 1 in E. rewrite selectBultosByOrden_run in E.
  destruct (served (after w)) eqn:Hs2; [ | thrown E; now apply quantity_rejected ].
  unfold bind at 1 in E. rewrite updateBultos_run in E.
  destruct (served (after (after w))) eqn:Hs3;
    [ | thrown E; now apply quantity_rejected ].
  cbn [negb] in E.
  change (withStore _ (after (after (after w))))
    with (withStore (quantityReduced inp bundle (store w)) (after (after (after w))))
    in E.
  set (w3 := withStore _ (after (after (after w)))) in E.
  unfold bind at 1 in E.
  assert (Hnum :
    exists w4,
      ((if shouldNormalizeNumber bundle
        then adjusted <- updateBultos (hasId (Numeric.bundleId inp))
                           (withNumero (encodeBundleNumber b 1)) ;;
             (if negb adjusted then throw ErrAjustarNumero else ret tt)
        else ret tt) w3 = (Throw ErrAjustarNumero, w4)
       /\ store w4 = quantityReduced inp bundle (store w)
       /\ shouldNormalizeNumber bundle = true)
      \/ ((if shouldNormalizeNumber bundle
           then adjusted <- updateBultos (hasId (Numeric.bundleId inp))
                              (withNumero (encodeBundleNumber b 1)) ;;
                (if negb adjusted then throw ErrAjustarNumero else ret tt)
           else ret tt) w3 = (Ok tt, w4)
          /\ store w4 = quantityPromoted inp bundle b (store w)
          /\ next_id (store w4) = next_id (store w))).
  { unfold quantityPromoted.
    destruct (shouldNormalizeNumber bundle).
    - unfold bind. rewrite updateBultos_run.
      destruct (served w3); cbn [negb]; eexists; [ right | left ];
        (split; [ reflexivity | split; reflexivity ]).
    - eexists; right. split; [ reflexivity | split; reflexivity ]. }
  destruct Hnum as [w4 [[E4 [Hs4 Hn]] | [E4 [Hs4 Hn]]]]; rewrite E4 in E.
  { injection E as <- <-. rewrite Hs4. now apply quantity_stopped_at_number with b. }
  unfold bind at 1 in E. rewrite insertBulto_run in E.
  destruct (served w4) eqn:Hs5.
  2:{ thrown E. rewrite Hs4. now apply quantity_stopped_at_insert. }
  unfold bind at 1 in E. rewrite insertHistorial_run in E.
  rewrite served_withStore in E.
  destruct (served (after w4)) eqn:Hs6; cbn [negb] in E; thrown E.
  - rewrite Hn, Hs4. now apply quantity_done.
  - rewrite Hs4. now apply quantity_stopped_at_history.
Qed.

(** A call that passes the guards, with every request served, completes. *)
Lemma splitBundle_completes_of_quantity (now : Z) (inp : Numeric.SplitInput)
  (s : Store) (bundle : BultoRow) (b : Z) :
  QuantityAccepted inp s bundle b ->
  Numeric.splitBundle now inp {| store := s; faults := [] |}
  = (Ok tt, {| store := quantityLogged now inp bundle b s; faults := [] |}).
Proof.
  intros [Hid Ht Ho Hk Hb Hz]. unfold Numeric.splitBundle.
  assert (Hle : Numeric.leq (Numeric.sheets inp) (Numeric.integer 0) = false
                /\ Numeric.geq (Numeric.sheets inp)
                     (Numeric.integer (orElse (cantidad_laminas bundle) 0)) = false).
  { unfold quantityPasses, Numeric.geq in *.
    destruct (Numeric.sheets inp) as [k | | p];
      cbn [Numeric.leq]; [ | now split | contradiction ].
    split; apply Z.leb_gt; lia. }
  destruct Hle as [Hle Hge]. rewrite Hle.
  unfold identifiersOf in Hid. apply negb_true_iff in Hid. rewrite Hid.
  unfold bind at 1. rewrite selectBultoSingle_run.
  unfold served at 1. cbn [faults store]. rewrite Ht, Ho, Nat.eqb_refl.
  cbn [negb]. rewrite Hge.
  rewrite Hb. destruct (Z.eqb_spec b 0); [ contradiction | ].
  unfold bind at 1. rewrite selectBultosByOrden_run.
  unfold served, after. cbn [faults store tl].
  unfold bind at 1. rewrite updateBultos_run.
  unfold served, after. cbn [faults store tl negb withStore].
  unfold quantityLogged, quantityInserted, quantityPromoted.
  fold (remainingOf inp bundle).
  fold (quantityReduced inp bundle s).
  destruct (shouldNormalizeNumber bundle).
  - unfold bind at 1. unfold bind at 1. rewrite updateBultos_run.
    unfold served, after. cbn [faults store tl negb withStore ret].
    unfold bind at 1. rewrite insertBulto_run.
    unfold served, after. cbn [faults store tl negb withStore].
    unfold bind at 1. rewrite insertHistorial_run.
    unfold served, after. cbn [faults store tl negb withStore ret].
    reflexivity.
  - unfold bind at 1. unfold ret at 1.
    unfold bind at 1. rewrite insertBulto_run.
    unfold served, after. cbn [faults store tl negb withStore].
    unfold bind at 1. rewrite insertHistorial_run.
    unfold served, after. cbn [faults store tl negb withStore ret].
    reflexivity.
Qed.

(** ** C4: conservation of sheets *)





(** A split of NaN sheets of the first bundle of order 1001, which holds 100
    sheets: the call returns, and the bundle and the new one are left
    without a count. *)
Example split_of_nan_is_written :
  let '(r, w') :=
    Numeric.splitBundle 2000 splitNaN {| store := store1001; faults := [] |} in
  r = Ok tt
  /\ map cantidad_laminas (bultos store1001) = [Some 100; Some 50]
  /\ map cantidad_laminas (bultos (store w')) = [None; Some 50; None].
Proof. vm_compute. repeat split; reflexivity. Qed.

(** A split of an infinity of sheets of the same bundle is rejected by one
    of the two tests, and nothing is written. *)
Example split_of_infinity_is_rejected :
  let '(r, w') :=
    Numeric.splitBundle 2000 (splitInfinity true) {| store := store1001; faults := [] |} in
  let '(r0, w0) :=
    Numeric.splitBundle 2000 (splitInfinity false)
      {| store := store1001; faults := [] |} in
  r = Throw ErrCantidadExcede /\ store w' = store1001
  /\ r0 = Throw ErrCantidadNoPositiva /\ store w0 = store1001.
Proof. vm_compute. repeat split; reflexivity. Qed.

(** ** The sheets of a store across calls with any quantity *)

Lemma quantityPromoted_sheets (inp : Numeric.SplitInput) (bundle : BultoRow) (b : Z)
  (s : Store) :
  targetOf (Numeric.bundleId inp) s = Some bundle ->
  totalSheets (quantityPromoted inp bundle b s)
  = totalSheets s - orElse (cantidad_laminas bundle) 0
    + orElse (remainingOf inp bundle) 0.
Proof.
  intros Ht. unfold totalSheets, quantityPromoted, quantityReduced, updateRows, setBultos.
  destruct (shouldNormalizeNumber bundle); cbn [bultos].
  - rewrite (map_rows_sheets (hasId (Numeric.bundleId inp))
               (withNumero (encodeBundleNumber b 1))) by reflexivity.
    now rewrite (sum_one_update _ _ _ _ _ (targetOf_filter _ _ _ Ht)).
  - now rewrite (sum_one_update _ _ _ _ _ (targetOf_filter _ _ _ Ht)).
Qed.

Lemma quantityReduced_sheets (inp : Numeric.SplitInput) (bundle : BultoRow) (s : Store) :
  targetOf (Numeric.bundleId inp) s = Some bundle ->
  totalSheets (quantityReduced inp bundle s)
  = totalSheets s - orElse (cantidad_laminas bundle) 0
    + orElse (remainingOf inp bundle) 0.
Proof.
  intros Ht. unfold totalSheets, quantityReduced, updateRows, setBultos.
  cbn [bultos]. now rewrite (sum_one_update _ _ _ _ _ (targetOf_filter _ _ _ Ht)).
Qed.

Lemma quantityInserted_sheets (inp : Numeric.SplitInput) (bundle : BultoRow) (b : Z)
  (s : Store) :
  targetOf (Numeric.bundleId inp) s = Some bundle ->
  totalSheets (quantityInserted inp bundle b s)
  = totalSheets s - orElse (cantidad_laminas bundle) 0
    + orElse (remainingOf inp bundle) 0 + orElse (takenOf inp) 0.
Proof.
  intros Ht. pose proof (quantityPromoted_sheets inp bundle b s Ht) as Hp.
  unfold totalSheets in *. unfold quantityInserted, appendBulto. cbn [bultos].
  rewrite map_app. cbn [map]. rewrite sum_snoc, Hp.
  cbn [quantitySibling cantidad_laminas]. reflexivity.
Qed.

(** The counts that a split that passes the guards writes. *)
Lemma accepted_counts (inp : Numeric.SplitInput) (s : Store) (bundle : BultoRow)
  (b : Z) :
  QuantityAccepted inp s bundle b ->
  0 <= orElse (remainingOf inp bundle) 0
  /\ 0 <= orElse (takenOf inp) 0
  /\ match Numeric.sheets inp with
     | Numeric.integer _ =>
         orElse (remainingOf inp bundle) 0 + orElse (takenOf inp) 0
         = orElse (cantidad_laminas bundle) 0
     | Numeric.NaN | Numeric.infinity _ =>
         orElse (remainingOf inp bundle) 0 = 0 /\ orElse (takenOf inp) 0 = 0
     end.
Proof.
  intros Ha. pose proof (qacc_sheets _ _ _ _ Ha) as Hk.
  unfold remainingOf, takenOf, quantityPasses in *.
  destruct (Numeric.sheets inp) as [k | | p]; cbn; repeat split; lia.
Qed.

Lemma target_counted (id : Id) (s : Store) (bundle : BultoRow) :
  counted s -> targetOf id s = Some bundle -> 0 <= orElse (cantidad_laminas bundle) 0.
Proof.
  intros Hc Ht. apply targetOf_find in Ht. apply find_some in Ht.
  unfold counted in Hc. rewrite Forall_forall in Hc. now apply Hc.
Qed.

Lemma counted_rows (sel : BultoRow -> bool) (payload : BultoRow -> BultoRow)
  (s : Store) :
  (forall r, 0 <= orElse (cantidad_laminas r) 0 ->
             0 <= orElse (cantidad_laminas (payload r)) 0) ->
  counted s -> counted (updateRows sel payload s).
Proof.
  intros Hp Hc. unfold counted, updateRows, setBultos in *. cbn [bultos].
  apply Forall_map. apply Forall_impl with (2 := Hc).
  intros r Hr. destruct (sel r); auto.
Qed.

Lemma counted_quantityPromoted (inp : Numeric.SplitInput) (bundle : BultoRow) (b : Z)
  (s : Store) :
  0 <= orElse (remainingOf inp bundle) 0 ->
  counted s ->
  counted (quantityReduced inp bundle s) /\ counted (quantityPromoted inp bundle b s).
Proof.
  intros Hr Hc.
  assert (H1 : counted (quantityReduced inp bundle s))
    by (apply counted_rows; [ intros r _; exact Hr | exact Hc ]).
  split; [ exact H1 | ]. unfold quantityPromoted.
  destruct (shouldNormalizeNumber bundle); [ | exact H1 ].
  apply counted_rows; [ intros r Hx; exact Hx | exact H1 ].
Qed.

(** What a call of [splitBundle] does to the counts of the store. *)
Lemma quantity_sheets (now : Z) (inp : Numeric.SplitInput) (s s' : Store)
  (r : Result unit) :
  QuantityOutcome now inp s r s' ->
  counted s ->
  counted s'
  /\ totalSheets s' <= totalSheets s
  /\ (r = Ok tt \/ s' = s ->
      (exists k, Numeric.sheets inp = Numeric.integer k) ->
      totalSheets s' = totalSheets s).
Proof.
  intros [e Hb | bundle b Ha Hn | bundle b Ha | bundle b Ha | bundle b Ha] Hc.
  - split; [ exact Hc | ]. split; [ lia | reflexivity ].
  - destruct (accepted_counts _ _ _ _ Ha) as [Hr [Ht Hsum]].
    pose proof (target_counted _ _ _ Hc (qacc_target _ _ _ _ Ha)) as Hcur.
    pose proof (quantityReduced_sheets inp bundle s (qacc_target _ _ _ _ Ha)) as H.
    split; [ exact (proj1 (counted_quantityPromoted inp bundle b s Hr Hc)) | ].
    split; [ destruct (Numeric.sheets inp); lia | ].
    intros [Hr' | Hs]; [ discriminate | now rewrite Hs ].
  - destruct (accepted_counts _ _ _ _ Ha) as [Hr [Ht Hsum]].
    pose proof (target_counted _ _ _ Hc (qacc_target _ _ _ _ Ha)) as Hcur.
    pose proof (quantityPromoted_sheets inp bundle b s (qacc_target _ _ _ _ Ha)) as H.
    split; [ exact (proj2 (counted_quantityPromoted inp bundle b s Hr Hc)) | ].
    split; [ destruct (Numeric.sheets inp); lia | ].
    intros [Hr' | Hs]; [ discriminate | now rewrite Hs ].
  - destruct (accepted_counts _ _ _ _ Ha) as [Hr [Ht Hsum]].
    pose proof (target_counted _ _ _ Hc (qacc_target _ _ _ _ Ha)) as Hcur.
    pose proof (quantityInserted_sheets inp bundle b s (qacc_target _ _ _ _ Ha)) as H.
    split.
    + unfold counted, quantityInserted, appendBulto. cbn [bultos].
      apply Forall_app. split;
        [ exact (proj2 (counted_quantityPromoted inp bundle b s Hr Hc)) | ].
      constructor; [ exact Ht | constructor ].
    + split; [ destruct (Numeric.sheets inp); lia | ].
      intros _ [k Hk]. rewrite Hk in Hsum. lia.
  - destruct (accepted_counts _ _ _ _ Ha) as [Hr [Ht Hsum]].
    pose proof (target_counted _ _ _ Hc (qacc_target _ _ _ _ Ha)) as Hcur.
    pose proof (quantityInserted_sheets inp bundle b s (qacc_target _ _ _ _ Ha)) as H.
    unfold quantityLogged, appendHistorial, totalSheets, counted in *. cbn [bultos].
    split.
    + unfold quantityInserted, appendBulto. cbn [bultos].
      apply Forall_app. split;
        [ exact (proj2 (counted_quantityPromoted inp bundle b s Hr Hc)) | ].
      constructor; [ exact Ht | constructor ].
    + split; [ destruct (Numeric.sheets inp); lia | ].
      intros _ [k Hk]. rewrite Hk in Hsum. lia.
Qed.

(** With every request served a split is rejected, the store untouched, or
    completes. *)
Lemma quantity_served (now : Z) (inp : Numeric.SplitInput) (s : Store) (w' : World)
  (r : Result unit) :
  Numeric.splitBundle now inp {| store := s; faults := [] |} = (r, w') ->
  (exists e, r = Throw e /\ store w' = s
             /\ forall bundle b, ~ QuantityAccepted inp s bundle b)
  \/ (exists bundle b,
         QuantityAccepted inp s bundle b
         /\ r = Ok tt /\ store w' = quantityLogged now inp bundle b s).
Proof.
  intros E. pose proof (splitBundle_outcome_of_quantity _ _ _ _ _ E) as H.
  cbn [store] in H.
  assert (Hacc : forall bundle b, QuantityAccepted inp s bundle b ->
                   r = Ok tt /\ store w' = quantityLogged now inp bundle b s).
  { intros bundle b Ha.
    rewrite (splitBundle_completes_of_quantity now inp s bundle b Ha) in E.
    injection E as <- <-. split; reflexivity. }
  inversion H as [e Hb | bundle b Ha Hn | bundle b Ha | bundle b Ha | bundle b Ha];
    subst.
  - left. exists e. split; [ reflexivity | ]. split; [ reflexivity | ].
    intros bundle b Ha. destruct (Hacc bundle b Ha) as [Hr _]. discriminate.
  - destruct (Hacc bundle b Ha) as [Hr _]. discriminate.
  - destruct (Hacc bundle b Ha) as [Hr _]. discriminate.
  - destruct (Hacc bundle b Ha) as [Hr _]. discriminate.
  - right. exists bundle, b. split; [ exact Ha | split; reflexivity ].
Qed.

Lemma counted_same_counts (s s' : Store) :
  map (fun row => orElse (cantidad_laminas row) 0) (bultos s')
  = map (fun row => orElse (cantidad_laminas row) 0) (bultos s) ->
  counted s -> counted s'.
Proof.
  unfold counted. intros Hm Hc.
  apply (Forall_map (fun row => orElse (cantidad_laminas row) 0) (fun x => 0 <= x)).
  rewrite Hm.
  now apply (Forall_map (fun row => orElse (cantidad_laminas row) 0) (fun x => 0 <= x)).
Qed.

Lemma runQuantityCall_outcome (c : QuantityCall) (s : Store) :
  match c with
  | QuantityApply now inp _ =>
      ApplyOutcome now inp s (fst (runQuantityCall c s)) (snd (runQuantityCall c s))
  | QuantitySplit now inp _ =>
      QuantityOutcome now inp s (fst (runQuantityCall c s)) (snd (runQuantityCall c s))
  end.
Proof.
  destruct c as [now inp outcomes | now inp outcomes]; cbn [runQuantityCall].
  - destruct (applyBundleAction now inp _) as [r w'] eqn:E. cbn [fst snd].
    exact (applyBundleAction_outcome _ _ _ _ _ E).
  - destruct (Numeric.splitBundle now inp _) as [r w'] eqn:E. cbn [fst snd].
    exact (splitBundle_outcome_of_quantity _ _ _ _ _ E).
Qed.

(** X11. In a store where no bundle has a negative count, no sequence of
    calls of the two services, whatever requests fail and whatever
    quantities are split, NaN and the infinities included, makes a count
    negative or makes the sheets of the bundles more than they were.  When every request of every
    call is served and every quantity split is an integer, the sheets of
    the bundles are what they were. *)
Theorem sheets_never_created (calls : list QuantityCall) (s : Store) :
  counted s ->
  counted (runQuantityCalls calls s)
  /\ totalSheets (runQuantityCalls calls s) <= totalSheets s
  /\ (forallb servedCount calls = true ->
      totalSheets (runQuantityCalls calls s) = totalSheets s).
Proof.
  revert s. induction calls as [ | c calls IH]; intros s Hc;
    cbn [runQuantityCalls forallb].
  - split; [ exact Hc | ]. split; [ lia | reflexivity ].
  - pose proof (runQuantityCall_outcome c s) as H.
    destruct c as [now inp outcomes | now inp outcomes].
    + destruct (apply_stores _ _ _ _ _ H) as [_ [_ [Hs _]]].
      assert (Heq : totalSheets (snd (runQuantityCall (QuantityApply now inp outcomes) s))
                    = totalSheets s) by (unfold totalSheets; now rewrite Hs).
      destruct (IH _ (counted_same_counts _ _ Hs Hc)) as [Ic [Ile Ieq]].
      split; [ exact Ic | ]. split; [ lia | ].
      intros Hall. apply andb_prop in Hall. rewrite (Ieq (proj2 Hall)). exact Heq.
    + destruct (quantity_sheets _ _ _ _ _ H Hc) as [Hc' [Hle Hsame]].
      destruct (IH _ Hc') as [Ic [Ile Ieq]].
      split; [ exact Ic | ]. split; [ lia | ].
      intros Hall. apply andb_prop in Hall.
      destruct Hall as [Hserved Hall]. rewrite (Ieq Hall).
      cbn [servedCount] in Hserved.
      destruct outcomes as [ | o outcomes]; [ | discriminate ].
      destruct (Numeric.sheets inp) as [k | | p] eqn:Hk;
        [ | discriminate | discriminate ].
      apply Hsame; [ | now exists k ].
      cbn [runQuantityCall].
      destruct (Numeric.splitBundle now inp {| store := s; faults := [] |})
        as [r w'] eqn:E.
      cbn [fst snd].
      destruct (quantity_served _ _ _ _ _ E)
        as [[e [_ [Hst _]]] | [bundle [b [_ [Hr _]]]]]; [ now right | now left ].
Qed.

Lemma sheets_never_created_witness :
  totalSheets (runQuantityCalls [QuantitySplit 2000 split40Quantity []] store1001)
  = totalSheets store1001
  /\ totalSheets (runQuantityCalls [QuantitySplit 2000 splitNaN []] store1001)
     <= totalSheets store1001.
Proof.
  assert (Hc : counted store1001) by (repeat constructor; cbn; lia).
  split.
  - apply (proj2 (proj2 (sheets_never_created
                           [QuantitySplit 2000 split40Quantity []] store1001 Hc))).
    reflexivity.
  - exact (proj1 (proj2 (sheets_never_created
                           [QuantitySplit 2000 splitNaN []] store1001 Hc))).
Defined.




(** ** C5: the work order of a projected bundle, from its history *)






(** Two entries of one time are scanned in the order they have: the later
    of the two in the history is the one reported. *)
Example work_order_of_one_time :
  Projection.workOrder
    (Projection.mapBundle plainDateTime
       (bundleWith (Some asignado) [assignEntry "A" 1; assignEntry "B" 1]))
  = "B"%string
  /\ Projection.workOrder
       (Projection.mapBundle plainDateTime
          (bundleWith (Some asignado) [assignEntry "B" 1; assignEntry "A" 1]))
     = "A"%string.
Proof. split; reflexivity. Qed.
